(** * The terminal output engine of tmux (tty.c)

    A shallow embedding of the output engine: the shadow state kept per
    terminal, the buffered output path with its debug log, the cursor
    and scroll-region movers, the attribute and colour engine, the cell
    emitter, the line painter and the command handlers that choose
    between a bulk primitive and space painting.

    C [u_int] values are integers of [Z] reduced modulo [2^32] wherever
    the source computes with them; [int] values are read back through
    [to_int].  The bytes written to the terminal are kept as a list of
    symbolic payloads, one per write to the output buffer. *)

From Stdlib Require Import ZArith List String Ascii Bool Lia DecimalString.
Import ListNotations.
Local Open Scope Z_scope.

(** ** Machine integers *)

Definition UINT_MAX : Z := 4294967295.

(** Arithmetic on [u_int] wraps modulo [2^32]. *)
Definition u32 (z : Z) : Z := z mod 4294967296.

(** Arithmetic on [u_char] wraps modulo [2^8]. *)
Definition u8 (z : Z) : Z := z mod 256.

(** Conversion of an [u_int] to [int] (two's complement). *)
Definition to_int (z : Z) : Z :=
  let m := z mod 4294967296 in
  if m <? 2147483648 then m else m - 4294967296.

(** A C truth test on a bit mask: [x & m] is non-zero. *)
Definition has_bit (x m : Z) : bool := negb (Z.land x m =? 0).

Definition set_bit (x m : Z) : Z := Z.lor x m.
Definition clear_bit (x m : Z) : Z := Z.land x (Z.lnot m).

(** ** Terminal capabilities *)

(** The capability codes that tty.c names, and [TTYC_ED], which the
    glossary lists among the erase primitives. *)
Inductive tty_code_code : Set :=
| TTYC_ACSC | TTYC_AX | TTYC_BCE | TTYC_BLINK | TTYC_BOLD | TTYC_CIVIS
| TTYC_CLEAR | TTYC_CNORM | TTYC_COLORS | TTYC_CR | TTYC_CS | TTYC_CSR
| TTYC_CUB | TTYC_CUB1 | TTYC_CUD | TTYC_CUD1 | TTYC_CUF | TTYC_CUF1
| TTYC_CUP | TTYC_CUU | TTYC_CUU1 | TTYC_CVVIS | TTYC_DCH | TTYC_DCH1
| TTYC_DIM | TTYC_DL | TTYC_DL1 | TTYC_ECH | TTYC_ED | TTYC_EL | TTYC_EL1
| TTYC_ENACS | TTYC_FSL | TTYC_HOME | TTYC_HPA | TTYC_ICH | TTYC_ICH1
| TTYC_IL | TTYC_IL1 | TTYC_INVIS | TTYC_KMOUS | TTYC_MS | TTYC_OP
| TTYC_REV | TTYC_RI | TTYC_RMACS | TTYC_RMCUP | TTYC_RMKX | TTYC_SE
| TTYC_SETAB | TTYC_SETAF | TTYC_SGR0 | TTYC_SITM | TTYC_SMACS | TTYC_SMCUP
| TTYC_SMKX | TTYC_SMSO | TTYC_SMUL | TTYC_SS | TTYC_TC | TTYC_TSL
| TTYC_VPA | TTYC_XT.

(** Modelled from the spec: the capability table [struct tty_term] and
    its accessors live in tty-term.c, which is not among the sources.
    The spec (4.A) gives the interface: [has], [flag], [number] and the
    parameterised string expansion; unknown capabilities act as absent.
    [tm_flags] is the [flags] member that tty.c reads directly. *)
Record tty_term : Type := {
  tm_flags : Z;
  tty_term_has : tty_code_code -> bool;
  tty_term_flag : tty_code_code -> bool;
  tty_term_number : tty_code_code -> Z;
  tty_term_string : tty_code_code -> list Z -> string;
  tty_term_ptr : tty_code_code -> list string -> string
}.

(** A terminal description in which every capability is absent. *)
Definition null_term : tty_term := {|
  tm_flags := 0;
  tty_term_has := fun _ => false;
  tty_term_flag := fun _ => false;
  tty_term_number := fun _ => 0;
  tty_term_string := fun _ _ => EmptyString;
  tty_term_ptr := fun _ _ => EmptyString
|}.

(** ** Constants of tmux.h

    Modelled from the spec: tmux.h is not among the sources.  The spec
    names these bits (attribute bits, cell flags, mode bits, terminal
    flags, colour tags); each is a single bit, and the colour tags sit
    above the 24 bits of an RGB value. *)

Definition GRID_ATTR_BRIGHT : Z := 1.
Definition GRID_ATTR_DIM : Z := 2.
Definition GRID_ATTR_UNDERSCORE : Z := 4.
Definition GRID_ATTR_BLINK : Z := 8.
Definition GRID_ATTR_REVERSE : Z := 16.
Definition GRID_ATTR_HIDDEN : Z := 32.
Definition GRID_ATTR_ITALICS : Z := 64.
Definition GRID_ATTR_CHARSET : Z := 128.

Definition GRID_FLAG_PADDING : Z := 4.
Definition GRID_FLAG_SELECTED : Z := 16.

Definition GRID_LINE_WRAPPED : Z := 1.

Definition COLOUR_FLAG_256 : Z := 16777216.
Definition COLOUR_FLAG_RGB : Z := 33554432.

Definition MODE_CURSOR : Z := 1.
Definition MODE_KKEYPAD : Z := 8.
Definition MODE_MOUSE_STANDARD : Z := 32.
Definition MODE_MOUSE_BUTTON : Z := 64.
Definition MODE_BLINKING : Z := 128.
Definition MODE_BRACKETPASTE : Z := 1024.
Definition ALL_MOUSE_MODES : Z := Z.lor MODE_MOUSE_STANDARD MODE_MOUSE_BUTTON.

Definition TERM_256COLOURS : Z := 1.
Definition TERM_EARLYWRAP : Z := 2.

Definition TTY_NOCURSOR : Z := 1.
Definition TTY_FREEZE : Z := 2.
Definition TTY_TIMER : Z := 4.
Definition TTY_UTF8 : Z := 8.
Definition TTY_STARTED : Z := 16.
Definition TTY_OPENED : Z := 32.
Definition TTY_FOCUS : Z := 64.

Definition WINDOW_STYLECHANGED : Z := 32768.
Definition PANE_REDRAW : Z := 1.

(** ** Grid cells *)

Record utf8_data : Type := {
  ud_data : list Z;
  ud_have : Z;
  ud_size : Z;
  ud_width : Z
}.

Record grid_cell : Type := {
  gc_flags : Z;
  gc_attr : Z;
  gc_fg : Z;
  gc_bg : Z;
  gc_data : utf8_data
}.

(** Modelled from the spec: [grid_default_cell] is defined in grid.c.
    The default cell has no attribute, default (8) colours and holds
    one space of width one. *)
Definition grid_default_cell : grid_cell := {|
  gc_flags := 0; gc_attr := 0; gc_fg := 8; gc_bg := 8;
  gc_data := {| ud_data := [32]; ud_have := 0; ud_size := 1; ud_width := 1 |}
|}.

(** The cell left by [memset(..., 0, ...)]. *)
Definition zero_cell : grid_cell := {|
  gc_flags := 0; gc_attr := 0; gc_fg := 0; gc_bg := 0;
  gc_data := {| ud_data := []; ud_have := 0; ud_size := 0; ud_width := 0 |}
|}.

Definition set_gc_attr (gc : grid_cell) (v : Z) : grid_cell :=
  {| gc_flags := gc_flags gc; gc_attr := v; gc_fg := gc_fg gc;
     gc_bg := gc_bg gc; gc_data := gc_data gc |}.

Definition set_gc_fg (gc : grid_cell) (v : Z) : grid_cell :=
  {| gc_flags := gc_flags gc; gc_attr := gc_attr gc; gc_fg := v;
     gc_bg := gc_bg gc; gc_data := gc_data gc |}.

Definition set_gc_bg (gc : grid_cell) (v : Z) : grid_cell :=
  {| gc_flags := gc_flags gc; gc_attr := gc_attr gc; gc_fg := gc_fg gc;
     gc_bg := v; gc_data := gc_data gc |}.

(** First byte of the cell data, [*gc->data.data]. *)
Definition first_byte (gc : grid_cell) : Z := nth 0 (ud_data (gc_data gc)) 0.

(** ** Output payloads

    One payload per write to the output buffer.  [PCap] is the expansion
    of a capability with integer arguments ([tty_term_string],
    [tty_term_string1], [tty_term_string2]); [PCapPtr] the expansion
    with string arguments; [PLit] a literal escape sequence or a string
    handed to [tty_puts]; [PSgr], [P256] and [PRgb] the three formatted
    sequences of the colour engine; [PChar] one byte written by
    [tty_putc]; [PAcs] the ACS string [tty_putc] writes in place of a
    byte; [PData] the bytes written by [tty_putn]. *)
Inductive payload : Type :=
| PCap (code : tty_code_code) (args : list Z)
| PCapPtr (code : tty_code_code) (args : list string)
| PLit (s : string)
| PSgr (n : Z)
| P256 (type : string) (n : Z)
| PRgb (type : string) (r g b : Z)
| PChar (ch : Z)
| PAcs (ch : Z) (acs : string)
| PData (buf : list Z) (len : Z).

Definition ESC : string := String "027"%char EmptyString.

Definition dec (n : Z) : string := NilZero.string_of_int (Z.to_int n).

Definition byte_string (ch : Z) : string :=
  String (ascii_of_N (Z.to_N (u8 ch))) EmptyString.

Fixpoint bytes_string (n : nat) (l : list Z) : string :=
  match n with
  | O => EmptyString
  | S n' => String (ascii_of_N (Z.to_N (u8 (hd 0 l)))) (bytes_string n' (tl l))
  end.

(** The bytes a payload stands for on a terminal described by [term]. *)
Definition render1 (term : tty_term) (p : payload) : string :=
  match p with
  | PCap c args => tty_term_string term c args
  | PCapPtr c args => tty_term_ptr term c args
  | PLit s => s
  | PSgr n => (ESC ++ "[" ++ dec n ++ "m")%string
  | P256 ty n => (ESC ++ "[" ++ ty ++ ";5;" ++ dec n ++ "m")%string
  | PRgb ty r g b =>
      (ESC ++ "[" ++ ty ++ ";2;" ++ dec (u8 r) ++ ";" ++ dec (u8 g) ++ ";"
           ++ dec (u8 b) ++ "m")%string
  | PChar ch => byte_string ch
  | PAcs _ acs => acs
  | PData buf len => bytes_string (Z.to_nat len) buf
  end.

Fixpoint render (term : tty_term) (ps : list payload) : string :=
  match ps with
  | [] => EmptyString
  | p :: ps' => (render1 term p ++ render term ps')%string
  end.

Definition string_empty (s : string) : bool :=
  match s with EmptyString => true | _ => false end.

(** ** Screens, windows and panes (read by the engine) *)

Record grid_line : Type := {
  cellsize : Z;
  gl_flags : Z
}.

Record grid : Type := {
  gd_sx : Z;
  gd_sy : Z;
  gd_hsize : Z;
  gd_linedata : Z -> grid_line
}.

Record screen : Type := {
  s_grid : grid;
  s_rlower : Z;
  s_ccolour : string;
  s_cstyle : Z
}.

Definition screen_size_x (s : screen) : Z := gd_sx (s_grid s).
Definition screen_size_y (s : screen) : Z := gd_sy (s_grid s).

(** The two style options of a window's option set, as
    [options_get_style] returns them. *)
Record options : Type := {
  opt_window_active_style : grid_cell;
  opt_window_style : grid_cell
}.

(** A window: its flags, the identity of its active pane, the cached
    copies of the two styles, and its options. *)
Record window : Type := {
  w_flags : Z;
  w_active : Z;
  w_active_style : grid_cell;
  w_style : grid_cell;
  w_options : options
}.

(** A pane.  Its window and its [flags] member are mutable and live in
    the [state]; [wp_id] stands for the pane's address, which the code
    compares with [w->active]. *)
Record window_pane : Type := {
  wp_id : Z;
  wp_sx : Z;
  wp_xoff : Z;
  wp_yoff : Z;
  wp_colgc : grid_cell;
  wp_screen : screen
}.

Record tty_ctx : Type := {
  ctx_wp : window_pane;
  ctx_cell : grid_cell;
  ctx_last_cell : grid_cell;
  ctx_num : Z;
  ctx_ptr : list Z;
  ctx_ocx : Z;
  ctx_ocy : Z;
  ctx_orupper : Z;
  ctx_orlower : Z;
  ctx_xoff : Z;
  ctx_yoff : Z
}.

(** ** The terminal and the engine state *)

(** [struct tty]: the members tty.c reads or writes.  [t_event] is the
    pending content of the output buffer [tty->event]; [t_term] is
    [None] for a NULL [tty->term]. *)
Record tty : Type := {
  t_client : Z;
  t_sx : Z;
  t_sy : Z;
  t_cx : Z;
  t_cy : Z;
  t_cstyle : Z;
  t_ccolour : string;
  t_termname : string;
  t_term : option tty_term;
  t_mode : Z;
  t_rlower : Z;
  t_rupper : Z;
  t_cell : grid_cell;
  t_fd : Z;
  t_event : list payload;
  t_flags : Z;
  t_term_flags : Z
}.

(** [tty->term].  The engine is entered only for clients that have a
    terminal description ([tty_client_ready]); a tty without one is
    read as a terminal without capabilities, so that the functions
    below are total. *)
Definition the_term (t : tty) : tty_term :=
  match t_term t with Some term => term | None => null_term end.

(** What the handlers can change: the terminal, the window of the pane
    being drawn, that pane's flags, the debug log ([tty_log_fd] and the
    bytes written to it) and the bytes written straight to the terminal
    file descriptor by [tty_raw]. *)
Record state : Type := {
  st_tty : tty;
  st_window : window;
  st_pane_flags : Z;
  tty_log_fd : Z;
  st_log : list payload;
  st_fd_out : list string
}.

(** Modelled from the spec: the collaborators the spec puts out of
    scope, which live in other files of the repository (colour.c,
    grid.c, grid-view.c, screen.c, tty-acs.c, the option store) or in
    the C library.  The engine is stated against this interface. *)
Class Collaborators : Type := {
  isatty : Z -> bool;
  colour_256to16 : Z -> Z;
  colour_split_rgb : Z -> Z * Z * Z;
  colour_find_rgb : Z -> Z -> Z -> Z;
  grid_cells_equal : grid_cell -> grid_cell -> bool;
  grid_view_get_cell : grid -> Z -> Z -> grid_cell;
  screen_select_cell : screen -> grid_cell -> grid_cell;
  tty_acs_get : tty -> Z -> option string;
  default_terminal : string
}.

(** *** Field updates *)

Definition set_cursor (x y : Z) (t : tty) : tty :=
  {| t_client := t_client t; t_sx := t_sx t; t_sy := t_sy t;
     t_cx := x; t_cy := y;
     t_cstyle := t_cstyle t; t_ccolour := t_ccolour t;
     t_termname := t_termname t; t_term := t_term t; t_mode := t_mode t;
     t_rlower := t_rlower t; t_rupper := t_rupper t; t_cell := t_cell t;
     t_fd := t_fd t; t_event := t_event t; t_flags := t_flags t;
     t_term_flags := t_term_flags t |}.

Definition set_region (upper lower : Z) (t : tty) : tty :=
  {| t_client := t_client t; t_sx := t_sx t; t_sy := t_sy t;
     t_cx := t_cx t; t_cy := t_cy t;
     t_cstyle := t_cstyle t; t_ccolour := t_ccolour t;
     t_termname := t_termname t; t_term := t_term t; t_mode := t_mode t;
     t_rlower := lower; t_rupper := upper; t_cell := t_cell t;
     t_fd := t_fd t; t_event := t_event t; t_flags := t_flags t;
     t_term_flags := t_term_flags t |}.

Definition set_cell (gc : grid_cell) (t : tty) : tty :=
  {| t_client := t_client t; t_sx := t_sx t; t_sy := t_sy t;
     t_cx := t_cx t; t_cy := t_cy t;
     t_cstyle := t_cstyle t; t_ccolour := t_ccolour t;
     t_termname := t_termname t; t_term := t_term t; t_mode := t_mode t;
     t_rlower := t_rlower t; t_rupper := t_rupper t; t_cell := gc;
     t_fd := t_fd t; t_event := t_event t; t_flags := t_flags t;
     t_term_flags := t_term_flags t |}.

Definition set_mode (m : Z) (t : tty) : tty :=
  {| t_client := t_client t; t_sx := t_sx t; t_sy := t_sy t;
     t_cx := t_cx t; t_cy := t_cy t;
     t_cstyle := t_cstyle t; t_ccolour := t_ccolour t;
     t_termname := t_termname t; t_term := t_term t; t_mode := m;
     t_rlower := t_rlower t; t_rupper := t_rupper t; t_cell := t_cell t;
     t_fd := t_fd t; t_event := t_event t; t_flags := t_flags t;
     t_term_flags := t_term_flags t |}.

Definition set_cstyle (v : Z) (t : tty) : tty :=
  {| t_client := t_client t; t_sx := t_sx t; t_sy := t_sy t;
     t_cx := t_cx t; t_cy := t_cy t;
     t_cstyle := v; t_ccolour := t_ccolour t;
     t_termname := t_termname t; t_term := t_term t; t_mode := t_mode t;
     t_rlower := t_rlower t; t_rupper := t_rupper t; t_cell := t_cell t;
     t_fd := t_fd t; t_event := t_event t; t_flags := t_flags t;
     t_term_flags := t_term_flags t |}.

Definition set_ccolour (v : string) (t : tty) : tty :=
  {| t_client := t_client t; t_sx := t_sx t; t_sy := t_sy t;
     t_cx := t_cx t; t_cy := t_cy t;
     t_cstyle := t_cstyle t; t_ccolour := v;
     t_termname := t_termname t; t_term := t_term t; t_mode := t_mode t;
     t_rlower := t_rlower t; t_rupper := t_rupper t; t_cell := t_cell t;
     t_fd := t_fd t; t_event := t_event t; t_flags := t_flags t;
     t_term_flags := t_term_flags t |}.

Definition set_flags (v : Z) (t : tty) : tty :=
  {| t_client := t_client t; t_sx := t_sx t; t_sy := t_sy t;
     t_cx := t_cx t; t_cy := t_cy t;
     t_cstyle := t_cstyle t; t_ccolour := t_ccolour t;
     t_termname := t_termname t; t_term := t_term t; t_mode := t_mode t;
     t_rlower := t_rlower t; t_rupper := t_rupper t; t_cell := t_cell t;
     t_fd := t_fd t; t_event := t_event t; t_flags := v;
     t_term_flags := t_term_flags t |}.

Definition set_event (v : list payload) (t : tty) : tty :=
  {| t_client := t_client t; t_sx := t_sx t; t_sy := t_sy t;
     t_cx := t_cx t; t_cy := t_cy t;
     t_cstyle := t_cstyle t; t_ccolour := t_ccolour t;
     t_termname := t_termname t; t_term := t_term t; t_mode := t_mode t;
     t_rlower := t_rlower t; t_rupper := t_rupper t; t_cell := t_cell t;
     t_fd := t_fd t; t_event := v; t_flags := t_flags t;
     t_term_flags := t_term_flags t |}.

Definition with_tty (f : tty -> tty) (st : state) : state :=
  {| st_tty := f (st_tty st); st_window := st_window st;
     st_pane_flags := st_pane_flags st; tty_log_fd := tty_log_fd st;
     st_log := st_log st; st_fd_out := st_fd_out st |}.

Definition set_window (w : window) (st : state) : state :=
  {| st_tty := st_tty st; st_window := w;
     st_pane_flags := st_pane_flags st; tty_log_fd := tty_log_fd st;
     st_log := st_log st; st_fd_out := st_fd_out st |}.

Definition set_pane_flags (v : Z) (st : state) : state :=
  {| st_tty := st_tty st; st_window := st_window st;
     st_pane_flags := v; tty_log_fd := tty_log_fd st;
     st_log := st_log st; st_fd_out := st_fd_out st |}.

Definition set_log (l : list payload) (st : state) : state :=
  {| st_tty := st_tty st; st_window := st_window st;
     st_pane_flags := st_pane_flags st; tty_log_fd := tty_log_fd st;
     st_log := l; st_fd_out := st_fd_out st |}.

Definition set_fd_out (l : list string) (st : state) : state :=
  {| st_tty := st_tty st; st_window := st_window st;
     st_pane_flags := st_pane_flags st; tty_log_fd := tty_log_fd st;
     st_log := st_log st; st_fd_out := l |}.

(** Bounded repetition of a state transformer, for the counted loops. *)
Fixpoint repeat_st (n : nat) (f : state -> state) (st : state) : state :=
  match n with
  | O => st
  | S n' => repeat_st n' f (f st)
  end.

(** [for (i = from; ...; i++) body(i)] run [n] times. *)
Fixpoint for_st (n : nat) (from : Z) (body : Z -> state -> state)
                (st : state) : state :=
  match n with
  | O => st
  | S n' => for_st n' (from + 1) body (body from st)
  end.

(** The outcome of one [write(2)] on the terminal file descriptor. *)
Inductive write_result : Set :=
| Wrote (n : nat)
| WriteEagain
| WriteError.

Fixpoint string_drop (n : nat) (s : string) : string :=
  match n, s with
  | O, _ => s
  | S n', EmptyString => EmptyString
  | S n', String _ s' => string_drop n' s'
  end.

Section Engine.

Context {collab : Collaborators}.

(** ** Output sink *)

(** [bufferevent_write(tty->event, ...)]. *)
Definition bufferevent_write (p : payload) (st : state) : state :=
  with_tty (fun t => set_event (t_event t ++ [p]) t) st.

(** [if (tty_log_fd != -1) write(tty_log_fd, ...)]. *)
Definition log_write (p : payload) (st : state) : state :=
  if tty_log_fd st =? -1 then st else set_log (st_log st ++ [p]) st.

(** [tty_raw]: up to five direct writes to the file descriptor; [w i]
    is the outcome of the [i]-th call to [write]. *)
Fixpoint tty_raw_loop (tries : nat) (i : nat) (w : nat -> write_result)
                      (s : string) (st : state) : state :=
  match tries with
  | O => st
  | S tries' =>
      match w i with
      | Wrote n =>
          let st' := set_fd_out (st_fd_out st ++ [substring 0 n s]) st in
          let s' := string_drop n s in
          if string_empty s' then st'
          else tty_raw_loop tries' (S i) w s' st'
      | WriteEagain => tty_raw_loop tries' (S i) w s st
      | WriteError => st
      end
  end.

Definition tty_raw (w : nat -> write_result) (s : string) (st : state)
  : state :=
  tty_raw_loop 5 0 w s st.

(** [tty_puts]: nothing for an empty string, else the string goes to
    the buffer and, when the log is open, to the log. *)
Definition tty_puts (p : payload) (st : state) : state :=
  if string_empty (render1 (the_term (st_tty st)) p) then st
  else log_write p (bufferevent_write p st).

Definition tty_putcode (code : tty_code_code) (st : state) : state :=
  tty_puts (PCap code []) st.

Definition tty_putcode1 (code : tty_code_code) (a : Z) (st : state) : state :=
  if a <? 0 then st else tty_puts (PCap code [a]) st.

Definition tty_putcode2 (code : tty_code_code) (a b : Z) (st : state)
  : state :=
  if (a <? 0) || (b <? 0) then st else tty_puts (PCap code [a; b]) st.

Definition tty_putcode_ptr1 (code : tty_code_code) (a : option string)
                            (st : state) : state :=
  match a with
  | Some a' => tty_puts (PCapPtr code [a']) st
  | None => st
  end.

Definition tty_putcode_ptr2 (code : tty_code_code) (a b : option string)
                            (st : state) : state :=
  match a, b with
  | Some a', Some b' => tty_puts (PCapPtr code [a'; b']) st
  | _, _ => st
  end.

(** The payload [tty_putc] sends to the terminal for [ch]. *)
Definition putc_payload (t : tty) (ch : Z) : payload :=
  if has_bit (gc_attr (t_cell t)) GRID_ATTR_CHARSET then
    match tty_acs_get t ch with
    | Some acs => PAcs ch acs
    | None => PChar ch
    end
  else PChar ch.

(** The cursor accounting of [tty_putc] for a printable byte. *)
Definition putc_advance (t : tty) : tty :=
  let sx := if has_bit (tm_flags (the_term t)) TERM_EARLYWRAP
            then u32 (t_sx t - 1) else t_sx t in
  if t_cx t >=? sx then
    set_cursor 1 (if negb (t_cy t =? t_rlower t) then u32 (t_cy t + 1)
                  else t_cy t) t
  else set_cursor (u32 (t_cx t + 1)) (t_cy t) t.

Definition tty_putc (ch : Z) (st : state) : state :=
  let st1 := bufferevent_write (putc_payload (st_tty st) ch) st in
  let st2 := if (32 <=? ch) && negb (ch =? 127)
             then with_tty putc_advance st1 else st1 in
  log_write (PChar ch) st2.

Definition tty_putn (buf : list Z) (len width : Z) (st : state) : state :=
  let st1 := bufferevent_write (PData buf len) st in
  let st2 := log_write (PData buf len) st1 in
  with_tty (fun t => set_cursor (u32 (t_cx t + width)) (t_cy t) t) st2.

Definition tty_set_italics (st : state) : state :=
  let s := default_terminal in
  if tty_term_has (the_term (st_tty st)) TTYC_SITM
     && negb (String.eqb s "screen")
     && negb (String.prefix "screen-" s)
  then tty_putcode TTYC_SITM st
  else tty_putcode TTYC_SMSO st.

Definition tty_set_title (title : string) (st : state) : state :=
  let term := the_term (st_tty st) in
  if negb (tty_term_has term TTYC_TSL) || negb (tty_term_has term TTYC_FSL)
  then st
  else tty_putcode TTYC_FSL (tty_puts (PLit title) (tty_putcode TTYC_TSL st)).

Definition tty_force_cursor_colour (ccolour : string) (st : state) : state :=
  let st1 := if string_empty ccolour then tty_putcode TTYC_CR st
             else tty_putcode_ptr1 TTYC_CS (Some ccolour) st in
  with_tty (set_ccolour ccolour) st1.

Definition tty_update_mode (mode : Z) (s : option screen) (st : state)
  : state :=
  let st1 :=
    match s with
    | Some s' =>
        if negb (String.eqb (s_ccolour s') (t_ccolour (st_tty st)))
        then tty_force_cursor_colour (s_ccolour s') st else st
    | None => st
    end in
  let mode := if has_bit (t_flags (st_tty st1)) TTY_NOCURSOR
              then clear_bit mode MODE_CURSOR else mode in
  let old := t_mode (st_tty st1) in
  let term := the_term (st_tty st1) in
  let changed := Z.lxor mode old in
  let '(changed, st2) :=
    if has_bit changed MODE_BLINKING then
      (set_bit changed MODE_CURSOR,
       if tty_term_has term TTYC_CVVIS then tty_putcode TTYC_CVVIS st1
       else tty_putcode TTYC_CNORM st1)
    else (changed, st1) in
  let st3 :=
    if has_bit changed MODE_CURSOR then
      if has_bit mode MODE_CURSOR then tty_putcode TTYC_CNORM st2
      else tty_putcode TTYC_CIVIS st2
    else st2 in
  let st4 :=
    match s with
    | Some s' =>
        if negb (t_cstyle (st_tty st3) =? s_cstyle s') then
          let st' :=
            if tty_term_has term TTYC_SS then
              if (s_cstyle s' =? 0) && tty_term_has term TTYC_SE
              then tty_putcode TTYC_SE st3
              else tty_putcode1 TTYC_SS (to_int (s_cstyle s')) st3
            else st3 in
          with_tty (set_cstyle (s_cstyle s')) st'
        else st3
    | None => st3
    end in
  let st5 :=
    if has_bit changed ALL_MOUSE_MODES then
      if has_bit mode ALL_MOUSE_MODES then
        let st' := tty_puts (PLit (ESC ++ "[?1006h")) st4 in
        if has_bit mode MODE_MOUSE_BUTTON
        then tty_puts (PLit (ESC ++ "[?1002h")) st'
        else if has_bit mode MODE_MOUSE_STANDARD
        then tty_puts (PLit (ESC ++ "[?1000h")) st'
        else st'
      else
        let st' :=
          if has_bit old MODE_MOUSE_BUTTON
          then tty_puts (PLit (ESC ++ "[?1002l")) st4
          else if has_bit old MODE_MOUSE_STANDARD
          then tty_puts (PLit (ESC ++ "[?1000l")) st4
          else st4 in
        tty_puts (PLit (ESC ++ "[?1006l")) st'
    else st4 in
  let st6 :=
    if has_bit changed MODE_KKEYPAD then
      if has_bit mode MODE_KKEYPAD then tty_putcode TTYC_SMKX st5
      else tty_putcode TTYC_RMKX st5
    else st5 in
  let st7 :=
    if has_bit changed MODE_BRACKETPASTE then
      if has_bit mode MODE_BRACKETPASTE
      then tty_puts (PLit (ESC ++ "[?2004h")) st6
      else tty_puts (PLit (ESC ++ "[?2004l")) st6
    else st6 in
  with_tty (set_mode mode) st7.

Definition tty_emulate_repeat (code code1 : tty_code_code) (n : Z)
                              (st : state) : state :=
  if tty_term_has (the_term (st_tty st)) code
  then tty_putcode1 code (to_int n) st
  else repeat_st (Z.to_nat n) (tty_putcode code1) st.

Definition tty_repeat_space (n : Z) (st : state) : state :=
  repeat_st (Z.to_nat n) (tty_putc 32) st.

(** ** Default-colour resolver *)

(** The styles in force for a window: fetched from the options when
    [WINDOW_STYLECHANGED] is set, the cached copies otherwise. *)
Definition window_styles (w : window) : grid_cell * grid_cell :=
  if has_bit (w_flags w) WINDOW_STYLECHANGED
  then (opt_window_active_style (w_options w), opt_window_style (w_options w))
  else (w_active_style w, w_style w).

Definition tty_default_colours (gc : grid_cell) (wp : window_pane)
                               (st : state) : grid_cell * state :=
  let w := st_window st in
  let '(agc, wgc) := window_styles w in
  let st' :=
    if has_bit (w_flags w) WINDOW_STYLECHANGED then
      set_window {| w_flags := clear_bit (w_flags w) WINDOW_STYLECHANGED;
                    w_active := w_active w;
                    w_active_style := agc;
                    w_style := wgc;
                    w_options := w_options w |} st
    else st in
  let pgc := wp_colgc wp in
  let gc1 :=
    if gc_fg gc =? 8 then
      if negb (gc_fg pgc =? 8) then set_gc_fg gc (gc_fg pgc)
      else if (wp_id wp =? w_active w) && negb (gc_fg agc =? 8)
      then set_gc_fg gc (gc_fg agc)
      else set_gc_fg gc (gc_fg wgc)
    else gc in
  let gc2 :=
    if gc_bg gc1 =? 8 then
      if negb (gc_bg pgc =? 8) then set_gc_bg gc1 (gc_bg pgc)
      else if (wp_id wp =? w_active w) && negb (gc_bg agc =? 8)
      then set_gc_bg gc1 (gc_bg agc)
      else set_gc_bg gc1 (gc_bg wgc)
    else gc1 in
  (gc2, st').

(** [tty_fake_bce]: BCE is needed but the terminal does not have it. *)
Definition tty_fake_bce (wp : option window_pane) (st : state)
  : bool * state :=
  let '(gc, st') :=
    match wp with
    | Some wp' => tty_default_colours grid_default_cell wp' st
    | None => (grid_default_cell, st)
    end in
  if gc_bg gc =? 8 then (false, st')
  else (negb (tty_term_flag (the_term (st_tty st')) TTYC_BCE), st').

(** ** Attribute and colour engine *)

Definition tty_use_acs (t : tty) : bool :=
  tty_term_has (the_term t) TTYC_ACSC && negb (has_bit (t_flags t) TTY_UTF8).

Definition tty_reset (st : state) : state :=
  let gc := t_cell (st_tty st) in
  if grid_cells_equal gc grid_default_cell then st
  else
    let st1 := if has_bit (gc_attr gc) GRID_ATTR_CHARSET
                  && tty_use_acs (st_tty st)
               then tty_putcode TTYC_RMACS st else st in
    let st2 := tty_putcode TTYC_SGR0 st1 in
    with_tty (set_cell grid_default_cell) st2.

(** Is the terminal outside 256-colour mode (neither the terminal's own
    flag nor the user's override)? *)
Definition no_256 (t : tty) : bool :=
  negb (has_bit (tm_flags (the_term t)) TERM_256COLOURS)
  && negb (has_bit (t_term_flags t) TERM_256COLOURS).

(** [tty_check_fg] and [tty_check_bg].  The source keeps the number of
    colours in an [u_int]: the number is converted when it is read. *)
Definition tty_check_fg (t : tty) (gc : grid_cell) : grid_cell :=
  let term := the_term t in
  let rgb := has_bit (gc_fg gc) COLOUR_FLAG_RGB in
  if rgb && tty_term_flag term TTYC_TC then gc
  else
    let gc :=
      if rgb then
        let '(r, g, b) := colour_split_rgb (gc_fg gc) in
        set_gc_fg gc (colour_find_rgb r g b)
      else gc in
    let colours := u32 (tty_term_number term TTYC_COLORS) in
    if has_bit (gc_fg gc) COLOUR_FLAG_256 then
      if no_256 t then
        let gc := set_gc_fg gc (colour_256to16 (gc_fg gc)) in
        if has_bit (gc_fg gc) 8 then
          let gc := set_gc_fg gc (Z.land (gc_fg gc) 7) in
          if colours >=? 16 then set_gc_fg gc (gc_fg gc + 90)
          else set_gc_attr gc (set_bit (gc_attr gc) GRID_ATTR_BRIGHT)
        else set_gc_attr gc (clear_bit (gc_attr gc) GRID_ATTR_BRIGHT)
      else gc
    else if (gc_fg gc >=? 90) && (gc_fg gc <=? 97) && (colours <? 16) then
      set_gc_attr (set_gc_fg gc (gc_fg gc - 90))
                  (set_bit (gc_attr gc) GRID_ATTR_BRIGHT)
    else gc.

Definition tty_check_bg (t : tty) (gc : grid_cell) : grid_cell :=
  let term := the_term t in
  let rgb := has_bit (gc_bg gc) COLOUR_FLAG_RGB in
  if rgb && tty_term_flag term TTYC_TC then gc
  else
    let gc :=
      if rgb then
        let '(r, g, b) := colour_split_rgb (gc_bg gc) in
        set_gc_bg gc (colour_find_rgb r g b)
      else gc in
    let colours := u32 (tty_term_number term TTYC_COLORS) in
    if has_bit (gc_bg gc) COLOUR_FLAG_256 then
      if no_256 t then
        let gc := set_gc_bg gc (colour_256to16 (gc_bg gc)) in
        if has_bit (gc_bg gc) 8 then
          let gc := set_gc_bg gc (Z.land (gc_bg gc) 7) in
          if colours >=? 16 then set_gc_fg gc (gc_fg gc + 90)
          else gc
        else gc
      else gc
    else if (gc_bg gc >=? 90) && (gc_bg gc <=? 97) && (colours <? 16) then
      set_gc_bg gc (gc_bg gc - 90)
    else gc.

(** [tty_try_colour]: the result is [true] for the C return value 0. *)
Definition tty_try_colour (colour : Z) (type : string) (st : state)
  : bool * state :=
  let t := st_tty st in
  let term := the_term t in
  let fallback_256 := (true, tty_puts (P256 type (Z.land colour 255)) st) in
  if has_bit colour COLOUR_FLAG_256 then
    if has_bit (t_term_flags t) TERM_256COLOURS then fallback_256
    else if has_bit (tm_flags term) TERM_256COLOURS then
      if String.prefix "3" type then
        if negb (tty_term_has term TTYC_SETAF) then fallback_256
        else (true, tty_putcode1 TTYC_SETAF (Z.land colour 255) st)
      else
        if negb (tty_term_has term TTYC_SETAB) then fallback_256
        else (true, tty_putcode1 TTYC_SETAB (Z.land colour 255) st)
    else fallback_256
  else if has_bit colour COLOUR_FLAG_RGB then
    if negb (tty_term_flag term TTYC_TC) then (false, st)
    else
      let '(r, g, b) := colour_split_rgb (Z.land colour 16777215) in
      (true, tty_puts (PRgb type r g b) st)
  else (false, st).

Definition save_fg (v : Z) (st : state) : state :=
  with_tty (fun t => set_cell (set_gc_fg (t_cell t) v) t) st.

Definition save_bg (v : Z) (st : state) : state :=
  with_tty (fun t => set_cell (set_gc_bg (t_cell t) v) t) st.

Definition tty_colours_fg (gc : grid_cell) (st : state) : state :=
  if has_bit (gc_fg gc) COLOUR_FLAG_RGB || has_bit (gc_fg gc) COLOUR_FLAG_256
  then
    let '(ok, st') := tty_try_colour (gc_fg gc) "38" st in
    if ok then save_fg (gc_fg gc) st' else st'
  else if (gc_fg gc >=? 90) && (gc_fg gc <=? 97) then
    save_fg (gc_fg gc) (tty_puts (PSgr (gc_fg gc)) st)
  else save_fg (gc_fg gc) (tty_putcode1 TTYC_SETAF (gc_fg gc) st).

Definition tty_colours_bg (gc : grid_cell) (st : state) : state :=
  if has_bit (gc_bg gc) COLOUR_FLAG_RGB || has_bit (gc_bg gc) COLOUR_FLAG_256
  then
    let '(ok, st') := tty_try_colour (gc_bg gc) "48" st in
    if ok then save_bg (gc_bg gc) st' else st'
  else if (gc_bg gc >=? 90) && (gc_bg gc <=? 97) then
    save_bg (gc_bg gc) (tty_puts (PSgr (gc_bg gc + 10)) st)
  else save_bg (gc_bg gc) (tty_putcode1 TTYC_SETAB (gc_bg gc) st).

Definition tty_colours (gc : grid_cell) (st : state) : state :=
  let tc := t_cell (st_tty st) in
  if (gc_fg gc =? gc_fg tc) && (gc_bg gc =? gc_bg tc) then st
  else
    let term := the_term (st_tty st) in
    let st1 :=
      if (gc_fg gc =? 8) || (gc_bg gc =? 8) then
        let have_ax := tty_term_flag term TTYC_AX in
        if negb have_ax && tty_term_has term TTYC_OP then tty_reset st
        else
          let sa :=
            if (gc_fg gc =? 8) && negb (gc_fg tc =? 8) then
              save_fg 8
                (if have_ax then tty_puts (PLit (ESC ++ "[39m")) st
                 else if negb (gc_fg tc =? 7)
                 then tty_putcode1 TTYC_SETAF 7 st
                 else st)
            else st in
          let tca := t_cell (st_tty sa) in
          if (gc_bg gc =? 8) && negb (gc_bg tca =? 8) then
            save_bg 8
              (if have_ax then tty_puts (PLit (ESC ++ "[49m")) sa
               else if negb (gc_bg tca =? 0)
               then tty_putcode1 TTYC_SETAB 0 sa
               else sa)
          else sa
      else st in
    let st2 :=
      if negb (gc_fg gc =? 8)
         && negb (gc_fg gc =? gc_fg (t_cell (st_tty st1)))
      then tty_colours_fg gc st1 else st1 in
    if negb (gc_bg gc =? 8)
       && negb (gc_bg gc =? gc_bg (t_cell (st_tty st2)))
    then tty_colours_bg gc st2 else st2.

Definition tty_attributes (gc : grid_cell) (wp : option window_pane)
                          (st : state) : state :=
  let '(gc2, st0) :=
    match wp with
    | Some wp' => tty_default_colours gc wp' st
    | None => (gc, st)
    end in
  let term := the_term (st_tty st0) in
  let gc2 :=
    if negb (tty_term_has term TTYC_SETAB) then
      if has_bit (gc_attr gc2) GRID_ATTR_REVERSE then
        if negb (gc_fg gc2 =? 7) && negb (gc_fg gc2 =? 8)
        then set_gc_attr gc2 (clear_bit (gc_attr gc2) GRID_ATTR_REVERSE)
        else gc2
      else
        if negb (gc_bg gc2 =? 0) && negb (gc_bg gc2 =? 8)
        then set_gc_attr gc2 (set_bit (gc_attr gc2) GRID_ATTR_REVERSE)
        else gc2
    else gc2 in
  let gc2 := tty_check_fg (st_tty st0) gc2 in
  let gc2 := tty_check_bg (st_tty st0) gc2 in
  let st1 :=
    if negb (Z.land (gc_attr (t_cell (st_tty st0))) (Z.lnot (gc_attr gc2))
             =? 0)
    then tty_reset st0 else st0 in
  let st2 := tty_colours gc2 st1 in
  let changed :=
    u8 (Z.land (gc_attr gc2) (Z.lnot (gc_attr (t_cell (st_tty st2))))) in
  let st3 :=
    with_tty (fun t => set_cell (set_gc_attr (t_cell t) (gc_attr gc2)) t)
             st2 in
  let st4 := if has_bit changed GRID_ATTR_BRIGHT
             then tty_putcode TTYC_BOLD st3 else st3 in
  let st5 := if has_bit changed GRID_ATTR_DIM
             then tty_putcode TTYC_DIM st4 else st4 in
  let st6 := if has_bit changed GRID_ATTR_ITALICS
             then tty_set_italics st5 else st5 in
  let st7 := if has_bit changed GRID_ATTR_UNDERSCORE
             then tty_putcode TTYC_SMUL st6 else st6 in
  let st8 := if has_bit changed GRID_ATTR_BLINK
             then tty_putcode TTYC_BLINK st7 else st7 in
  let st9 :=
    if has_bit changed GRID_ATTR_REVERSE then
      if tty_term_has term TTYC_REV then tty_putcode TTYC_REV st8
      else if tty_term_has term TTYC_SMSO then tty_putcode TTYC_SMSO st8
      else st8
    else st8 in
  let st10 := if has_bit changed GRID_ATTR_HIDDEN
              then tty_putcode TTYC_INVIS st9 else st9 in
  if has_bit changed GRID_ATTR_CHARSET && tty_use_acs (st_tty st10)
  then tty_putcode TTYC_SMACS st10 else st10.

(** ** Cursor mover and region setter *)

(** The label [out:] of [tty_cursor]: record the new position. *)
Definition cursor_done (cx cy : Z) (st : state) : state :=
  with_tty (set_cursor cx cy) st.

(** The label [absolute:] of [tty_cursor]. *)
Definition cursor_absolute (cx cy : Z) (st : state) : state :=
  cursor_done cx cy (tty_putcode2 TTYC_CUP (to_int cy) (to_int cx) st).

(** Moving column only, row staying the same. *)
Definition cursor_same_row (cx cy : Z) (st : state) : state :=
  let t := st_tty st in
  let term := the_term t in
  let thisx := t_cx t in
  if cx =? 0 then cursor_done cx cy (tty_putc 13 st)
  else if (cx =? u32 (thisx - 1)) && tty_term_has term TTYC_CUB1
  then cursor_done cx cy (tty_putcode TTYC_CUB1 st)
  else if (cx =? u32 (thisx + 1)) && tty_term_has term TTYC_CUF1
  then cursor_done cx cy (tty_putcode TTYC_CUF1 st)
  else
    let change := to_int (thisx - cx) in
    if (u32 (Z.abs change) >? cx) && tty_term_has term TTYC_HPA
    then cursor_done cx cy (tty_putcode1 TTYC_HPA (to_int cx) st)
    else if (change >? 0) && tty_term_has term TTYC_CUB then
      if (change =? 2) && tty_term_has term TTYC_CUB1
      then cursor_done cx cy
             (tty_putcode TTYC_CUB1 (tty_putcode TTYC_CUB1 st))
      else cursor_done cx cy (tty_putcode1 TTYC_CUB change st)
    else if (change <? 0) && tty_term_has term TTYC_CUF
    then cursor_done cx cy (tty_putcode1 TTYC_CUF (- change) st)
    else cursor_absolute cx cy st.

(** Moving row only, column staying the same. *)
Definition cursor_same_column (cx cy : Z) (st : state) : state :=
  let t := st_tty st in
  let term := the_term t in
  let thisy := t_cy t in
  if negb (thisy =? t_rupper t) && (cy =? u32 (thisy - 1))
     && tty_term_has term TTYC_CUU1
  then cursor_done cx cy (tty_putcode TTYC_CUU1 st)
  else if negb (thisy =? t_rlower t) && (cy =? u32 (thisy + 1))
          && tty_term_has term TTYC_CUD1
  then cursor_done cx cy (tty_putcode TTYC_CUD1 st)
  else
    let change := to_int (thisy - cy) in
    if (u32 (Z.abs change) >? cy)
       || ((change <? 0) && (u32 (cy - change) >? t_rlower t))
       || ((change >? 0) && (u32 (cy - change) <? t_rupper t))
    then
      if tty_term_has term TTYC_VPA
      then cursor_done cx cy (tty_putcode1 TTYC_VPA (to_int cy) st)
      else cursor_absolute cx cy st
    else if (change >? 0) && tty_term_has term TTYC_CUU
    then cursor_done cx cy (tty_putcode1 TTYC_CUU change st)
    else if (change <? 0) && tty_term_has term TTYC_CUD
    then cursor_done cx cy (tty_putcode1 TTYC_CUD (- change) st)
    else cursor_absolute cx cy st.

(** The column [tty_cursor] aims at: [cx] clamped to [sx - 1]. *)
Definition clamp_cx (t : tty) (cx : Z) : Z :=
  if cx >? u32 (t_sx t - 1) then u32 (t_sx t - 1) else cx.

Definition tty_cursor (cx cy : Z) (st : state) : state :=
  let t := st_tty st in
  let term := the_term t in
  let cx := clamp_cx t cx in
  let thisx := t_cx t in
  let thisy := t_cy t in
  if (cx =? thisx) && (cy =? thisy) then st
  else if thisx >? u32 (t_sx t - 1) then cursor_absolute cx cy st
  else if (cx =? 0) && (cy =? 0) && tty_term_has term TTYC_HOME
  then cursor_done cx cy (tty_putcode TTYC_HOME st)
  else if (cx =? 0) && (cy =? u32 (thisy + 1))
          && negb (thisy =? t_rlower t)
  then cursor_done cx cy (tty_putc 10 (tty_putc 13 st))
  else if cy =? thisy then cursor_same_row cx cy st
  else if cx =? thisx then cursor_same_column cx cy st
  else cursor_absolute cx cy st.

Definition tty_cursor_pane (ctx : tty_ctx) (cx cy : Z) (st : state)
  : state :=
  tty_cursor (u32 (ctx_xoff ctx + cx)) (u32 (ctx_yoff ctx + cy)) st.

Definition tty_region (rupper rlower : Z) (st : state) : state :=
  let t := st_tty st in
  if (t_rlower t =? rlower) && (t_rupper t =? rupper) then st
  else if negb (tty_term_has (the_term t) TTYC_CSR) then st
  else
    let st1 := with_tty (set_region rupper rlower) st in
    let st2 := if t_cx (st_tty st1) >=? t_sx (st_tty st1)
               then tty_cursor 0 (t_cy (st_tty st1)) st1 else st1 in
    let st3 := tty_putcode2 TTYC_CSR (to_int (t_rupper (st_tty st2)))
                            (to_int (t_rlower (st_tty st2))) st2 in
    tty_cursor 0 0 st3.

Definition tty_region_pane (ctx : tty_ctx) (rupper rlower : Z) (st : state)
  : state :=
  tty_region (u32 (ctx_yoff ctx + rupper)) (u32 (ctx_yoff ctx + rlower)) st.

(** ** Cell emitter *)

Definition tty_cell (gc : grid_cell) (wp : option window_pane) (st : state)
  : state :=
  let t := st_tty st in
  if has_bit (tm_flags (the_term t)) TERM_EARLYWRAP
     && (t_cy t =? u32 (t_sy t - 1)) && (t_cx t =? u32 (t_sx t - 1))
  then st
  else if has_bit (gc_flags gc) GRID_FLAG_PADDING then st
  else
    let st1 := tty_attributes gc wp st in
    if ud_size (gc_data gc) =? 1 then
      if (first_byte gc <? 32) || (first_byte gc =? 127) then st1
      else tty_putc (first_byte gc) st1
    else if negb (has_bit (t_flags (st_tty st1)) TTY_UTF8) then
      repeat_st (Z.to_nat (ud_width (gc_data gc))) (tty_putc 95) st1
    else
      tty_putn (ud_data (gc_data gc)) (ud_size (gc_data gc))
               (ud_width (gc_data gc)) st1.

(** ** Line and region painter *)

Definition tty_pane_full_width (t : tty) (ctx : tty_ctx) : bool :=
  (ctx_xoff ctx =? 0)
  && (screen_size_x (wp_screen (ctx_wp ctx)) >=? t_sx t).

Definition tty_large_region (ctx : tty_ctx) : bool :=
  u32 (ctx_orlower ctx - ctx_orupper ctx)
  >=? screen_size_y (wp_screen (ctx_wp ctx)) / 2.

Definition draw_line_cell (wp : option window_pane) (s : screen) (py : Z)
                          (i : Z) (st : state) : state :=
  let gc := grid_view_get_cell (s_grid s) i py in
  if has_bit (gc_flags gc) GRID_FLAG_SELECTED
  then tty_cell (screen_select_cell s gc) wp st
  else tty_cell gc wp st.

Definition tty_draw_line (wp : option window_pane) (s : screen)
                         (py ox oy : Z) (st : state) : state :=
  let flags := Z.land (t_flags (st_tty st)) TTY_NOCURSOR in
  let st1 := with_tty (fun t => set_flags (set_bit (t_flags t) TTY_NOCURSOR) t)
                      st in
  let st2 := tty_update_mode (t_mode (st_tty st1)) (Some s) st1 in
  let g := s_grid s in
  let sx := screen_size_x s in
  let sx := if sx >? cellsize (gd_linedata g (u32 (gd_hsize g + py)))
            then cellsize (gd_linedata g (u32 (gd_hsize g + py))) else sx in
  let sx := if sx >? t_sx (st_tty st2) then t_sx (st_tty st2) else sx in
  let t2 := st_tty st2 in
  let st3 :=
    if (u32 (oy + py) =? 0)
       || (py =? 0)
       || negb (has_bit (gl_flags (gd_linedata g (u32 (gd_hsize g + py - 1))))
                        GRID_LINE_WRAPPED)
       || (t_cx t2 <? t_sx t2)
       || negb (ox =? 0)
       || (negb (u32 (oy + py) =? u32 (t_cy t2 + 1))
           && negb (t_cy t2 =? u32 (s_rlower s + oy)))
    then tty_cursor ox (u32 (oy + py)) st2 else st2 in
  let st4 := for_st (Z.to_nat sx) 0 (draw_line_cell wp s py) st3 in
  let st5 :=
    if sx <? t_sx (st_tty st4) then
      let sa := tty_attributes grid_default_cell wp st4 in
      let sb := tty_cursor (u32 (ox + sx)) (u32 (oy + py)) sa in
      if negb (sx =? screen_size_x s)
         && (u32 (ox + screen_size_x s) >=? t_sx (st_tty sb))
         && tty_term_has (the_term (st_tty sb)) TTYC_EL
      then
        let '(fake, sc) := tty_fake_bce wp sb in
        if negb fake then tty_putcode TTYC_EL sc
        else tty_repeat_space (u32 (screen_size_x s - sx)) sc
      else tty_repeat_space (u32 (screen_size_x s - sx)) sb
    else st4 in
  let st6 :=
    with_tty (fun t => set_flags (Z.lor (clear_bit (t_flags t) TTY_NOCURSOR)
                                        flags) t) st5 in
  tty_update_mode (t_mode (st_tty st6)) (Some s) st6.

Definition tty_draw_pane (wp : window_pane) (py ox oy : Z) (st : state)
  : state :=
  tty_draw_line (Some wp) (wp_screen wp) py ox oy st.

(** [tty_redraw_region].  The second loop runs while [i <= orlower];
    its trip count is [orlower + 1 - orupper], which is what the source
    does whenever [orlower] is below [UINT_MAX]. *)
Definition tty_redraw_region (ctx : tty_ctx) (st : state) : state :=
  let wp := ctx_wp ctx in
  let s := wp_screen wp in
  let row := fun i => tty_draw_pane wp i (ctx_xoff ctx) (ctx_yoff ctx) in
  if tty_large_region ctx
  then set_pane_flags (set_bit (st_pane_flags st) PANE_REDRAW) st
  else if (ctx_ocy ctx <? ctx_orupper ctx) || (ctx_ocy ctx >? ctx_orlower ctx)
  then for_st (Z.to_nat (screen_size_y s - ctx_ocy ctx)) (ctx_ocy ctx) row st
  else for_st (Z.to_nat (ctx_orlower ctx + 1 - ctx_orupper ctx))
              (ctx_orupper ctx) row st.

(** ** Command handlers *)

Definition tty_cmd_insertcharacter (ctx : tty_ctx) (st : state) : state :=
  let wp := ctx_wp ctx in
  if negb (tty_pane_full_width (st_tty st) ctx)
  then tty_draw_pane wp (ctx_ocy ctx) (ctx_xoff ctx) (ctx_yoff ctx) st
  else
    let st1 := tty_attributes grid_default_cell (Some wp) st in
    let st2 := tty_cursor_pane ctx (ctx_ocx ctx) (ctx_ocy ctx) st1 in
    let '(fake, st3) := tty_fake_bce (Some wp) st2 in
    let term := the_term (st_tty st3) in
    if negb fake
       && (tty_term_has term TTYC_ICH || tty_term_has term TTYC_ICH1)
    then tty_emulate_repeat TTYC_ICH TTYC_ICH1 (ctx_num ctx) st3
    else tty_draw_pane wp (ctx_ocy ctx) (ctx_xoff ctx) (ctx_yoff ctx) st3.

Definition tty_cmd_deletecharacter (ctx : tty_ctx) (st : state) : state :=
  let wp := ctx_wp ctx in
  let term := the_term (st_tty st) in
  let redraw :=
    tty_draw_pane wp (ctx_ocy ctx) (ctx_xoff ctx) (ctx_yoff ctx) in
  if negb (tty_pane_full_width (st_tty st) ctx) then redraw st
  else
    let '(fake, st0) := tty_fake_bce (Some wp) st in
    if fake
       || (negb (tty_term_has term TTYC_DCH)
           && negb (tty_term_has term TTYC_DCH1))
    then redraw st0
    else
      let st1 := tty_attributes grid_default_cell (Some wp) st0 in
      let st2 := tty_cursor_pane ctx (ctx_ocx ctx) (ctx_ocy ctx) st1 in
      if tty_term_has term TTYC_DCH || tty_term_has term TTYC_DCH1
      then tty_emulate_repeat TTYC_DCH TTYC_DCH1 (ctx_num ctx) st2
      else st2.

Definition tty_cmd_clearcharacter (ctx : tty_ctx) (st : state) : state :=
  let wp := ctx_wp ctx in
  let st1 := tty_attributes grid_default_cell (Some wp) st in
  let st2 := tty_cursor_pane ctx (ctx_ocx ctx) (ctx_ocy ctx) st1 in
  let spaces := repeat_st (Z.to_nat (ctx_num ctx)) (tty_putc 32) in
  if tty_term_has (the_term (st_tty st2)) TTYC_ECH then
    let '(fake, st3) := tty_fake_bce (Some wp) st2 in
    if negb fake then tty_putcode1 TTYC_ECH (to_int (ctx_num ctx)) st3
    else spaces st3
  else spaces st2.

(** The guard shared by [tty_cmd_insertline] and [tty_cmd_deleteline]:
    true when the region has to be redrawn.  [tty_fake_bce] is called
    only for a full-width pane. *)
Definition line_redraw_guard (code1 : tty_code_code) (ctx : tty_ctx)
                             (st : state) : bool * state :=
  let term := the_term (st_tty st) in
  if negb (tty_pane_full_width (st_tty st) ctx) then (true, st)
  else
    let '(fake, st0) := tty_fake_bce (Some (ctx_wp ctx)) st in
    (fake || negb (tty_term_has term TTYC_CSR)
          || negb (tty_term_has term code1), st0).

Definition tty_cmd_insertline (ctx : tty_ctx) (st : state) : state :=
  let '(redraw, st0) := line_redraw_guard TTYC_IL1 ctx st in
  if redraw then tty_redraw_region ctx st0
  else
    let st1 := tty_attributes grid_default_cell (Some (ctx_wp ctx)) st0 in
    let st2 := tty_region_pane ctx (ctx_orupper ctx) (ctx_orlower ctx) st1 in
    let st3 := tty_cursor_pane ctx (ctx_ocx ctx) (ctx_ocy ctx) st2 in
    tty_emulate_repeat TTYC_IL TTYC_IL1 (ctx_num ctx) st3.

Definition tty_cmd_deleteline (ctx : tty_ctx) (st : state) : state :=
  let '(redraw, st0) := line_redraw_guard TTYC_DL1 ctx st in
  if redraw then tty_redraw_region ctx st0
  else
    let st1 := tty_attributes grid_default_cell (Some (ctx_wp ctx)) st0 in
    let st2 := tty_region_pane ctx (ctx_orupper ctx) (ctx_orlower ctx) st1 in
    let st3 := tty_cursor_pane ctx (ctx_ocx ctx) (ctx_ocy ctx) st2 in
    tty_emulate_repeat TTYC_DL TTYC_DL1 (ctx_num ctx) st3.

Definition tty_cmd_clearline (ctx : tty_ctx) (st : state) : state :=
  let wp := ctx_wp ctx in
  let s := wp_screen wp in
  let st1 := tty_attributes grid_default_cell (Some wp) st in
  let st2 := tty_cursor_pane ctx 0 (ctx_ocy ctx) st1 in
  if tty_pane_full_width (st_tty st2) ctx then
    let '(fake, st3) := tty_fake_bce (Some wp) st2 in
    if negb fake && tty_term_has (the_term (st_tty st3)) TTYC_EL
    then tty_putcode TTYC_EL st3
    else tty_repeat_space (screen_size_x s) st3
  else tty_repeat_space (screen_size_x s) st2.

Definition tty_cmd_clearendofline (ctx : tty_ctx) (st : state) : state :=
  let wp := ctx_wp ctx in
  let s := wp_screen wp in
  let st1 := tty_attributes grid_default_cell (Some wp) st in
  let st2 := tty_cursor_pane ctx (ctx_ocx ctx) (ctx_ocy ctx) st1 in
  let n := u32 (screen_size_x s - ctx_ocx ctx) in
  if tty_pane_full_width (st_tty st2) ctx
     && tty_term_has (the_term (st_tty st2)) TTYC_EL
  then
    let '(fake, st3) := tty_fake_bce (Some wp) st2 in
    if negb fake then tty_putcode TTYC_EL st3
    else tty_repeat_space n st3
  else tty_repeat_space n st2.

Definition tty_cmd_clearstartofline (ctx : tty_ctx) (st : state) : state :=
  let wp := ctx_wp ctx in
  let st1 := tty_attributes grid_default_cell (Some wp) st in
  let paint := fun st' =>
    tty_repeat_space (u32 (ctx_ocx ctx + 1))
                     (tty_cursor_pane ctx 0 (ctx_ocy ctx) st') in
  if (ctx_xoff ctx =? 0) && tty_term_has (the_term (st_tty st1)) TTYC_EL1
  then
    let '(fake, st2) := tty_fake_bce (Some wp) st1 in
    if negb fake
    then tty_putcode TTYC_EL1
           (tty_cursor_pane ctx (ctx_ocx ctx) (ctx_ocy ctx) st2)
    else paint st2
  else paint st1.

Definition tty_cmd_reverseindex (ctx : tty_ctx) (st : state) : state :=
  if negb (ctx_ocy ctx =? ctx_orupper ctx) then st
  else
    let '(redraw, st0) := line_redraw_guard TTYC_RI ctx st in
    if redraw then tty_redraw_region ctx st0
    else
      let st1 := tty_attributes grid_default_cell (Some (ctx_wp ctx)) st0 in
      let st2 :=
        tty_region_pane ctx (ctx_orupper ctx) (ctx_orlower ctx) st1 in
      let st3 := tty_cursor_pane ctx (ctx_ocx ctx) (ctx_orupper ctx) st2 in
      tty_putcode TTYC_RI st3.

Definition tty_cmd_linefeed (ctx : tty_ctx) (st : state) : state :=
  let wp := ctx_wp ctx in
  let term := the_term (st_tty st) in
  if negb (ctx_ocy ctx =? ctx_orlower ctx) then st
  else
    let '(redraw, st0) :=
      if negb (tty_pane_full_width (st_tty st) ctx) then (true, st)
      else
        let '(fake, st') := tty_fake_bce (Some wp) st in
        (fake || negb (tty_term_has term TTYC_CSR), st') in
    if redraw then
      if tty_large_region ctx
      then set_pane_flags (set_bit (st_pane_flags st0) PANE_REDRAW) st0
      else tty_redraw_region ctx st0
    else if negb (ctx_num ctx =? 0)
            && negb (has_bit (tm_flags term) TERM_EARLYWRAP)
    then st0
    else
      let st1 := tty_attributes grid_default_cell (Some wp) st0 in
      let st2 :=
        tty_region_pane ctx (ctx_orupper ctx) (ctx_orlower ctx) st1 in
      let st3 := tty_cursor_pane ctx (ctx_ocx ctx) (ctx_ocy ctx) st2 in
      tty_putc 10 st3.

(** One row of the erase loops of the clear-screen handlers: [EL], then
    a move down unless [last], with the shadow row following. *)
Definition el_row (last : bool) (st : state) : state :=
  let st1 := tty_putcode TTYC_EL st in
  if last then st1
  else
    with_tty (fun t => set_cursor (t_cx t) (u32 (t_cy t + 1)) t)
             (tty_emulate_repeat TTYC_CUD TTYC_CUD1 1 st1).

(** One row of the painting loops: cursor to the row start, then a row
    of spaces. *)
Definition paint_row (ctx : tty_ctx) (j : Z) (st : state) : state :=
  tty_repeat_space (screen_size_x (wp_screen (ctx_wp ctx)))
                   (tty_cursor_pane ctx 0 j st).

Definition tty_cmd_clearendofscreen (ctx : tty_ctx) (st : state) : state :=
  let wp := ctx_wp ctx in
  let s := wp_screen wp in
  let sy := screen_size_y s in
  let st1 := tty_attributes grid_default_cell (Some wp) st in
  let st2 := tty_region_pane ctx 0 (u32 (sy - 1)) st1 in
  let st3 := tty_cursor_pane ctx (ctx_ocx ctx) (ctx_ocy ctx) st2 in
  let paint := fun st' =>
    for_st (Z.to_nat (sy - u32 (ctx_ocy ctx + 1))) (u32 (ctx_ocy ctx + 1))
           (paint_row ctx)
           (tty_repeat_space (u32 (screen_size_x s - ctx_ocx ctx)) st') in
  if tty_pane_full_width (st_tty st3) ctx
     && tty_term_has (the_term (st_tty st3)) TTYC_EL
  then
    let '(fake, st4) := tty_fake_bce (Some wp) st3 in
    if negb fake then
      let st5 := tty_putcode TTYC_EL st4 in
      if negb (ctx_ocy ctx =? u32 (sy - 1)) then
        let st6 := tty_cursor_pane ctx 0 (u32 (ctx_ocy ctx + 1)) st5 in
        for_st (Z.to_nat (sy - u32 (ctx_ocy ctx + 1)))
               (u32 (ctx_ocy ctx + 1))
               (fun i => el_row (i =? u32 (sy - 1))) st6
      else st5
    else paint st4
  else paint st3.

Definition tty_cmd_clearstartofscreen (ctx : tty_ctx) (st : state) : state :=
  let wp := ctx_wp ctx in
  let s := wp_screen wp in
  let sy := screen_size_y s in
  let st1 := tty_attributes grid_default_cell (Some wp) st in
  let st2 := tty_region_pane ctx 0 (u32 (sy - 1)) st1 in
  let st3 := tty_cursor_pane ctx 0 0 st2 in
  let paint := for_st (Z.to_nat (ctx_ocy ctx)) 0 (paint_row ctx) in
  let st5 :=
    if tty_pane_full_width (st_tty st3) ctx
       && tty_term_has (the_term (st_tty st3)) TTYC_EL
    then
      let '(fake, st4) := tty_fake_bce (Some wp) st3 in
      if negb fake
      then for_st (Z.to_nat (ctx_ocy ctx)) 0 (fun _ => el_row false) st4
      else paint st4
    else paint st3 in
  tty_repeat_space (u32 (ctx_ocx ctx + 1)) st5.

Definition tty_cmd_clearscreen (ctx : tty_ctx) (st : state) : state :=
  let wp := ctx_wp ctx in
  let s := wp_screen wp in
  let sy := screen_size_y s in
  let st1 := tty_attributes grid_default_cell (Some wp) st in
  let st2 := tty_region_pane ctx 0 (u32 (sy - 1)) st1 in
  let st3 := tty_cursor_pane ctx 0 0 st2 in
  let paint := for_st (Z.to_nat sy) 0 (paint_row ctx) in
  if tty_pane_full_width (st_tty st3) ctx
     && tty_term_has (the_term (st_tty st3)) TTYC_EL
  then
    let '(fake, st4) := tty_fake_bce (Some wp) st3 in
    if negb fake
    then for_st (Z.to_nat sy) 0 (fun i => el_row (i =? u32 (sy - 1))) st4
    else paint st4
  else paint st3.

Definition tty_cmd_utf8character (ctx : tty_ctx) (st : state) : state :=
  tty_draw_pane (ctx_wp ctx) (ctx_ocy ctx) (ctx_xoff ctx) (ctx_yoff ctx) st.

(** ** Lifecycle: [tty_init] *)

(** [tty_init]: the C return value and the terminal structure
    afterwards.  A NULL [term] is [None]; an empty one is [Some EmptyString]. *)
Definition tty_init (t : tty) (c : Z) (fd : Z) (term : option string)
  : Z * tty :=
  if negb (isatty fd) then (-1, t)
  else
    (0, {| t_client := c; t_sx := 0; t_sy := 0; t_cx := 0; t_cy := 0;
           t_cstyle := 0; t_ccolour := EmptyString;
           t_termname :=
             match term with
             | None => "unknown"%string
             | Some term' =>
                 if string_empty term' then "unknown"%string else term'
             end;
           t_term := None; t_mode := 0; t_rlower := 0; t_rupper := 0;
           t_cell := zero_cell; t_fd := fd; t_event := [];
           t_flags := 0; t_term_flags := 0 |}).

(** ** The handlers that have a bulk-erase branch *)

Inductive bce_command : Set :=
| CmdInsertCharacter | CmdDeleteCharacter | CmdClearCharacter
| CmdInsertLine | CmdDeleteLine
| CmdClearLine | CmdClearEndOfLine | CmdClearStartOfLine
| CmdClearEndOfScreen | CmdClearStartOfScreen | CmdClearScreen.

Definition run_command (cmd : bce_command) : tty_ctx -> state -> state :=
  match cmd with
  | CmdInsertCharacter => tty_cmd_insertcharacter
  | CmdDeleteCharacter => tty_cmd_deletecharacter
  | CmdClearCharacter => tty_cmd_clearcharacter
  | CmdInsertLine => tty_cmd_insertline
  | CmdDeleteLine => tty_cmd_deleteline
  | CmdClearLine => tty_cmd_clearline
  | CmdClearEndOfLine => tty_cmd_clearendofline
  | CmdClearStartOfLine => tty_cmd_clearstartofline
  | CmdClearEndOfScreen => tty_cmd_clearendofscreen
  | CmdClearStartOfScreen => tty_cmd_clearstartofscreen
  | CmdClearScreen => tty_cmd_clearscreen
  end.

End Engine.

(** ** Vocabulary of the properties *)

(** The bulk erase, insert and delete primitives. *)
Definition erase_code (c : tty_code_code) : bool :=
  match c with
  | TTYC_EL | TTYC_EL1 | TTYC_ED | TTYC_ECH
  | TTYC_IL | TTYC_IL1 | TTYC_DL | TTYC_DL1
  | TTYC_ICH | TTYC_ICH1 | TTYC_DCH | TTYC_DCH1 => true
  | _ => false
  end.

(** A payload that is not one of the bulk primitives. *)
Definition no_erase (p : payload) : Prop :=
  match p with
  | PCap c _ => erase_code c = false
  | _ => True
  end.

(** A payload that carries no character data: it was not written by
    [tty_putc] or [tty_putn]. *)
Definition no_chardata (p : payload) : Prop :=
  match p with
  | PChar _ | PAcs _ _ | PData _ _ => False
  | _ => True
  end.

(** The relative vertical moves, which a scroll region bounds. *)
Definition vertical_code (c : tty_code_code) : bool :=
  match c with
  | TTYC_CUU | TTYC_CUU1 | TTYC_CUD | TTYC_CUD1 => true
  | _ => false
  end.

Definition no_vertical (p : payload) : Prop :=
  match p with
  | PCap c _ => vertical_code c = false
  | _ => True
  end.

(** What [tty_puts] appends to the buffer for [p]. *)
Definition emit (t : tty) (p : payload) : list payload :=
  if string_empty (render1 (the_term t) p) then [] else [p].

(** The resolution rule of the spec for one default colour: the pane's
    own colour if set; else the active style's, for the active pane,
    if set; else the window style's. *)
Definition spec_resolve (own active_style style : Z) (is_active : bool) : Z :=
  if negb (own =? 8) then own
  else if is_active && negb (active_style =? 8) then active_style
  else style.

(** ** A concrete terminal, pane and window

    Used to run the definitions on explicit inputs.  The terminal has
    every capability, sixteen colours, no 256-colour mode and no BCE;
    the window's active style has a blue background, so bulk erase has
    to be emulated for its active pane. *)
Module Fixture.

Definition term : tty_term := {|
  tm_flags := 0;
  tty_term_has := fun _ => true;
  tty_term_flag := fun _ => false;
  tty_term_number := fun _ => 16;
  tty_term_string := fun _ _ => "<cap>"%string;
  tty_term_ptr := fun _ _ => "<cap>"%string
|}.

(** Stand-ins for the collaborators: the palette fold keeps the low
    four bits, the ACS table translates only [q] (to [-]), and every
    cell of a grid is an [x]. *)
Definition collab : Collaborators := {|
  isatty := fun fd => (0 <=? fd) && (fd <=? 2);
  colour_256to16 := fun c => Z.land c 15;
  colour_split_rgb := fun c =>
    (Z.land (Z.shiftr c 16) 255, Z.land (Z.shiftr c 8) 255, Z.land c 255);
  colour_find_rgb := fun _ _ _ => Z.lor COLOUR_FLAG_256 16;
  grid_cells_equal := fun a b =>
    (gc_fg a =? gc_fg b) && (gc_bg a =? gc_bg b)
    && (gc_attr a =? gc_attr b) && (gc_flags a =? gc_flags b);
  grid_view_get_cell := fun _ _ _ =>
    {| gc_flags := 0; gc_attr := 0; gc_fg := 8; gc_bg := 8;
       gc_data := {| ud_data := [120]; ud_have := 0; ud_size := 1;
                     ud_width := 1 |} |};
  screen_select_cell := fun _ gc => gc;
  tty_acs_get := fun _ ch => if ch =? 113 then Some "-"%string else None;
  default_terminal := "screen"%string
|}.

Definition the_tty : tty := {|
  t_client := 1; t_sx := 80; t_sy := 24; t_cx := 0; t_cy := 5;
  t_cstyle := 0; t_ccolour := EmptyString; t_termname := "xterm"%string;
  t_term := Some term; t_mode := MODE_CURSOR;
  t_rlower := 10; t_rupper := 3; t_cell := grid_default_cell;
  t_fd := 1; t_event := []; t_flags := TTY_STARTED; t_term_flags := 0
|}.

Definition blue_style : grid_cell := set_gc_bg grid_default_cell 4.

Definition the_window : window := {|
  w_flags := 0; w_active := 1;
  w_active_style := blue_style; w_style := grid_default_cell;
  w_options := {| opt_window_active_style := blue_style;
                  opt_window_style := grid_default_cell |}
|}.

Definition the_screen : screen := {|
  s_grid := {| gd_sx := 80; gd_sy := 24; gd_hsize := 0;
               gd_linedata := fun _ => {| cellsize := 80; gl_flags := 0 |} |};
  s_rlower := 23; s_ccolour := EmptyString; s_cstyle := 0
|}.

Definition the_pane : window_pane := {|
  wp_id := 1; wp_sx := 80; wp_xoff := 0; wp_yoff := 0;
  wp_colgc := grid_default_cell; wp_screen := the_screen
|}.

Definition the_ctx : tty_ctx := {|
  ctx_wp := the_pane; ctx_cell := grid_default_cell;
  ctx_last_cell := grid_default_cell; ctx_num := 1; ctx_ptr := [];
  ctx_ocx := 0; ctx_ocy := 10; ctx_orupper := 3; ctx_orlower := 10;
  ctx_xoff := 0; ctx_yoff := 0
|}.

Definition the_state : state := {|
  st_tty := the_tty; st_window := the_window; st_pane_flags := 0;
  tty_log_fd := 3; st_log := []; st_fd_out := []
|}.

(** The same state with a plain window: no style sets a background. *)
Definition plain_window : window := {|
  w_flags := 0; w_active := 1;
  w_active_style := grid_default_cell; w_style := grid_default_cell;
  w_options := {| opt_window_active_style := grid_default_cell;
                  opt_window_style := grid_default_cell |}
|}.

Definition plain_state : state := set_window plain_window the_state.

(** The cursor in the last column of its row. *)
Definition last_column_state : state := with_tty (set_cursor 79 5) the_state.

(** The shadow cell with the alternate character set switched on. *)
Definition acs_state : state :=
  with_tty (set_cell (set_gc_attr grid_default_cell GRID_ATTR_CHARSET))
           the_state.

(** A red cell on palette colour 9 (bright red) of the 256 palette. *)
Definition bright_bg_cell : grid_cell :=
  set_gc_bg (set_gc_fg grid_default_cell 1) (Z.lor COLOUR_FLAG_256 9).

(** A cell that holds the control byte BEL. *)
Definition bell_cell : grid_cell := {|
  gc_flags := 0; gc_attr := GRID_ATTR_BRIGHT; gc_fg := 2; gc_bg := 8;
  gc_data := {| ud_data := [7]; ud_have := 0; ud_size := 1; ud_width := 1 |}
|}.

End Fixture.

(** ** Two properties stated at one input

    Each is the statement of a property at one state and one argument,
    so that it can be evaluated there. *)
Section Statements.

Context {collab : Collaborators}.

(** A shadow coordinate is in range or holds the sentinel. *)
Definition cursor_in_screen (t : tty) : Prop :=
  (t_cx t = UINT_MAX \/ t_cx t < t_sx t)
  /\ (t_cy t = UINT_MAX \/ t_cy t < t_sy t).

(** "With STARTED set, the shadow cursor is inside the screen after
    [tty_putc]", at the state [st] and the byte [ch]. *)
Definition putc_keeps_cursor_in_screen_at (st : state) (ch : Z) : Prop :=
  has_bit (t_flags (st_tty st)) TTY_STARTED = true ->
  cursor_in_screen (st_tty st) ->
  cursor_in_screen (st_tty (tty_putc ch st)).

(** The shadow row is inside the shadow scroll region, which is known. *)
Definition row_in_region (t : tty) : Prop :=
  t_rupper t <> UINT_MAX /\ t_rlower t <> UINT_MAX
  /\ t_rupper t <= t_cy t <= t_rlower t.

Definition row_outside_region (t : tty) (cy : Z) : Prop :=
  cy < t_rupper t \/ t_rlower t < cy.

(** "A vertical move in the same column that leaves the scroll region
    is emitted as VPA when the terminal has VPA and as CUP otherwise",
    at the state [st] and the target [(cx, cy)]. *)
Definition crossing_uses_vpa_or_cup_at (st : state) (cx cy : Z) : Prop :=
  let t := st_tty st in
  cx = t_cx t -> cy <> t_cy t ->
  row_in_region t -> row_outside_region t cy ->
  t_event (st_tty (tty_cursor cx cy st))
  = t_event t
    ++ emit t (if tty_term_has (the_term t) TTYC_VPA
               then PCap TTYC_VPA [cy]
               else PCap TTYC_CUP [cy; cx]).

End Statements.

(** ** Vocabulary of the proofs *)

(** A state that differs from [st] only by further output. *)
Definition only_emits (st st' : state) : Prop :=
  exists items,
    st_tty st' = set_event (t_event (st_tty st) ++ items) (st_tty st).

(** After [out:], the shadow is the target and the rest is as before. *)
Definition moved_to (cx cy : Z) (st st' : state) : Prop :=
  exists items,
    st_tty st'
    = set_event (t_event (st_tty st) ++ items) (set_cursor cx cy (st_tty st)).

(** [env_of] gathers what no engine function changes and what decides
    [tty_fake_bce]: the terminal description, the styles in force for
    the window and its active pane.  [GInv P k e pre] says that the
    environment is [e], that the output is [pre] followed by payloads
    satisfying [P], and, when [k] is [Some (x, y)], that the shadow
    cursor is still at [(x, y)]. *)

Definition env : Type := (option tty_term * (grid_cell * grid_cell) * Z)%type.

Definition env_of (st : state) : env :=
  (t_term (st_tty st), window_styles (st_window st), w_active (st_window st)).

Definition pinned (k : option (Z * Z)) (t : tty) : Prop :=
  match k with
  | Some (x, y) => t_cx t = x /\ t_cy t = y
  | None => True
  end.

Definition GInv (P : payload -> Prop) (k : option (Z * Z)) (e : env)
                (pre : list payload) (st : state) : Prop :=
  env_of st = e
  /\ pinned k (st_tty st)
  /\ exists items, t_event (st_tty st) = pre ++ items /\ Forall P items.

(** A control sequence that is not a bulk primitive. *)
Definition ctl (p : payload) : Prop := no_erase p /\ no_chardata p.

(** ** Further engine functions: size, start and stop, more handlers *)

Definition set_size (sx sy : Z) (t : tty) : tty :=
  {| t_client := t_client t; t_sx := sx; t_sy := sy;
     t_cx := t_cx t; t_cy := t_cy t;
     t_cstyle := t_cstyle t; t_ccolour := t_ccolour t;
     t_termname := t_termname t; t_term := t_term t; t_mode := t_mode t;
     t_rlower := t_rlower t; t_rupper := t_rupper t; t_cell := t_cell t;
     t_fd := t_fd t; t_event := t_event t; t_flags := t_flags t;
     t_term_flags := t_term_flags t |}.

(** The escape sequence that switches every mouse mode off. *)
Definition mouse_off : string :=
  (ESC ++ "[?1000l" ++ ESC ++ "[?1002l" ++ ESC ++ "[?1006l"
       ++ ESC ++ "[?1005l")%string.

Section Lifecycle.

Context {collab : Collaborators}.

(** [tty_set_size]: the result is [true] for the C return value 1. *)
Definition tty_set_size (sx sy : Z) (st : state) : bool * state :=
  if (sx =? t_sx (st_tty st)) && (sy =? t_sy (st_tty st)) then (false, st)
  else (true, with_tty (set_size sx sy) st).

(** [tty_resize].  [ws] is what [ioctl(TIOCGWINSZ)] reports:
    [Some (ws_col, ws_row)], or [None] when it fails. *)
Definition tty_resize (ws : option (Z * Z)) (st : state) : bool * state :=
  let '(sx, sy) :=
    match ws with
    | Some (col, row) =>
        (if col =? 0 then 80 else col, if row =? 0 then 24 else row)
    | None => (80, 24)
    end in
  let '(changed, st1) := tty_set_size sx sy st in
  if negb changed then (false, st1)
  else
    let st2 := with_tty (set_cursor UINT_MAX UINT_MAX) st1 in
    let st3 := with_tty (set_region UINT_MAX UINT_MAX) st2 in
    if has_bit (t_flags (st_tty st3)) TTY_STARTED then
      let st4 := tty_cursor 0 0 st3 in
      (true, tty_region 0 (u32 (t_sy (st_tty st4) - 1)) st4)
    else (true, st3).

(** [tty_start_tty], on the state the engine keeps.  The line
    discipline set by [tty_init_termios] is outside that state;
    [focus_events] is the global option of that name. *)
Definition tty_start_tty (focus_events : bool) (st : state) : state :=
  let st1 := tty_putcode TTYC_SMCUP st in
  let st2 := tty_putcode TTYC_SGR0 st1 in
  let st3 := with_tty (set_cell grid_default_cell) st2 in
  let st4 := tty_putcode TTYC_RMKX st3 in
  let st5 := if tty_use_acs (st_tty st4)
             then tty_putcode TTYC_ENACS st4 else st4 in
  let st6 := tty_putcode TTYC_CLEAR st5 in
  let st7 := tty_putcode TTYC_CNORM st6 in
  let st8 := if tty_term_has (the_term (st_tty st7)) TTYC_KMOUS
             then tty_puts (PLit mouse_off) st7 else st7 in
  let st9 :=
    if tty_term_flag (the_term (st_tty st8)) TTYC_XT && focus_events then
      tty_puts (PLit (ESC ++ "[?1004h"))
        (with_tty (fun t => set_flags (set_bit (t_flags t) TTY_FOCUS) t) st8)
    else st8 in
  let st10 := with_tty (set_cursor UINT_MAX UINT_MAX) st9 in
  let st11 := with_tty (set_region UINT_MAX UINT_MAX) st10 in
  let st12 := with_tty (set_mode MODE_CURSOR) st11 in
  let st13 :=
    with_tty (fun t => set_flags (set_bit (t_flags t) TTY_STARTED) t) st12 in
  tty_force_cursor_colour EmptyString st13.

(** The strings [tty_stop_tty] hands to [tty_raw], in order; [row] is
    the [ws_row] that [ioctl] reported. *)
Definition stop_sequence (row : Z) (t : tty) : list string :=
  let term := the_term t in
  [tty_term_string term TTYC_CSR [0; row - 1]]
  ++ (if tty_use_acs t then [tty_term_string term TTYC_RMACS []] else [])
  ++ [tty_term_string term TTYC_SGR0 []; tty_term_string term TTYC_RMKX [];
      tty_term_string term TTYC_CLEAR []]
  ++ (if tty_term_has term TTYC_SS && negb (t_cstyle t =? 0) then
        if tty_term_has term TTYC_SE then [tty_term_string term TTYC_SE []]
        else [tty_term_string term TTYC_SS [0]]
      else [])
  ++ (if has_bit (t_mode t) MODE_BRACKETPASTE
      then [(ESC ++ "[?2004l")%string] else [])
  ++ [tty_term_string term TTYC_CR []; tty_term_string term TTYC_CNORM []]
  ++ (if tty_term_has term TTYC_KMOUS then [mouse_off] else [])
  ++ (if tty_term_flag term TTYC_XT && has_bit (t_flags t) TTY_FOCUS
      then [(ESC ++ "[?1004l")%string] else [])
  ++ [tty_term_string term TTYC_RMCUP []].

(** The successive [tty_raw] calls; [w n] gives the outcomes of the
    writes of the [n]-th call. *)
Fixpoint raw_all (n : nat) (w : nat -> nat -> write_result)
                 (l : list string) (st : state) : state :=
  match l with
  | [] => st
  | s :: l' => raw_all (S n) w l' (tty_raw (w n) s st)
  end.

(** [tty_stop_tty].  [ioctl] is the row count reported by
    [ioctl(TIOCGWINSZ)], or [None] when it fails; [tcsetattr_ok] tells
    whether restoring the line discipline succeeded. *)
Definition tty_stop_tty (ioctl : option Z) (tcsetattr_ok : bool)
                        (w : nat -> nat -> write_result) (st : state)
  : state :=
  if negb (has_bit (t_flags (st_tty st)) TTY_STARTED) then st
  else
    let st1 :=
      with_tty (fun t => set_flags (clear_bit (t_flags t) TTY_STARTED) t) st in
    match ioctl with
    | None => st1
    | Some row =>
        if negb tcsetattr_ok then st1
        else
          let t := st_tty st1 in
          let st2 := raw_all 0 w (stop_sequence row t) st1 in
          if tty_term_flag (the_term t) TTYC_XT
             && has_bit (t_flags t) TTY_FOCUS
          then with_tty (fun t' => set_flags (clear_bit (t_flags t') TTY_FOCUS)
                                             t') st2
          else st2
    end.

Definition tty_cmd_alignmenttest (ctx : tty_ctx) (st : state) : state :=
  let wp := ctx_wp ctx in
  let s := wp_screen wp in
  let st1 := tty_attributes grid_default_cell (Some wp) st in
  let st2 := tty_region_pane ctx 0 (u32 (screen_size_y s - 1)) st1 in
  for_st (Z.to_nat (screen_size_y s)) 0
         (fun j st' =>
            repeat_st (Z.to_nat (screen_size_x s)) (tty_putc 69)
                      (tty_cursor_pane ctx 0 j st'))
         st2.

Definition tty_cmd_cell (ctx : tty_ctx) (st : state) : state :=
  let wp := ctx_wp ctx in
  let s := wp_screen wp in
  let st1 := if ctx_ocy ctx =? ctx_orlower ctx
             then tty_region_pane ctx (ctx_orupper ctx) (ctx_orlower ctx) st
             else st in
  let width := ud_width (gc_data (ctx_cell ctx)) in
  let st2 :=
    if ctx_ocx ctx >? u32 (wp_sx wp - width) then
      if negb (ctx_xoff ctx =? 0) || negb (wp_sx wp =? t_sx (st_tty st1)) then
        if negb (ctx_ocy ctx =? u32 (wp_yoff wp + s_rlower s))
        then tty_cursor_pane ctx 0 (u32 (ctx_ocy ctx + 1)) st1
        else tty_cursor_pane ctx 0 (ctx_ocy ctx) st1
      else if t_cx (st_tty st1) <? t_sx (st_tty st1) then
        let cx := u32 (screen_size_x s
                       - ud_width (gc_data (ctx_last_cell ctx))) in
        tty_cell (ctx_last_cell ctx) (Some wp)
                 (tty_cursor_pane ctx cx (ctx_ocy ctx) st1)
      else st1
    else tty_cursor_pane ctx (ctx_ocx ctx) (ctx_ocy ctx) st1 in
  tty_cell (ctx_cell ctx) (Some wp) st2.

Definition tty_cmd_rawstring (ctx : tty_ctx) (st : state) : state :=
  let st1 := for_st (Z.to_nat (ctx_num ctx)) 0
                    (fun i => tty_putc (nth (Z.to_nat i) (ctx_ptr ctx) 0)) st in
  let st2 := with_tty (set_cursor UINT_MAX UINT_MAX) st1 in
  let st3 := with_tty (set_region UINT_MAX UINT_MAX) st2 in
  let st4 := tty_attributes grid_default_cell (Some (ctx_wp ctx)) st3 in
  tty_cursor 0 0 st4.

(** [tty_cmd_setselection].  [b64] stands for [b64_ntop] of the C
    library, which encodes the [num] bytes of the selection. *)
Definition tty_cmd_setselection (b64 : list Z -> Z -> string)
                                (ctx : tty_ctx) (st : state) : state :=
  if negb (tty_term_has (the_term (st_tty st)) TTYC_MS) then st
  else tty_putcode_ptr2 TTYC_MS (Some EmptyString)
                        (Some (b64 (ctx_ptr ctx) (ctx_num ctx))) st.

(** The cell that [tty_attributes] reconciles the shadow with: the
    desired cell after default-colour resolution, the reverse fix-up for
    terminals without SETAB, and the colour downgrade. *)
Definition effective_cell (t : tty) (gc2 : grid_cell) : grid_cell :=
  let term := the_term t in
  let gc2 :=
    if negb (tty_term_has term TTYC_SETAB) then
      if has_bit (gc_attr gc2) GRID_ATTR_REVERSE then
        if negb (gc_fg gc2 =? 7) && negb (gc_fg gc2 =? 8)
        then set_gc_attr gc2 (clear_bit (gc_attr gc2) GRID_ATTR_REVERSE)
        else gc2
      else
        if negb (gc_bg gc2 =? 0) && negb (gc_bg gc2 =? 8)
        then set_gc_attr gc2 (set_bit (gc_attr gc2) GRID_ATTR_REVERSE)
        else gc2
    else gc2 in
  tty_check_bg t (tty_check_fg t gc2).

End Lifecycle.

(** ** What stays when the engine runs *)

(** The members of the terminal that no output operation is meant to
    touch. *)
Definition static_of (t : tty)
  : Z * Z * Z * string * option tty_term * Z * Z * Z :=
  (t_client t, t_sx t, t_sy t, t_termname t, t_term t, t_fd t, t_flags t,
   t_term_flags t).

(** Everything of the terminal but the shadow cell and the output. *)
Definition frame_of (t : tty)
  : (Z * Z * Z * string * option tty_term * Z * Z * Z)
    * Z * Z * Z * Z * Z * Z * string :=
  (static_of t, t_cx t, t_cy t, t_rupper t, t_rlower t, t_mode t,
   t_cstyle t, t_ccolour t).

(** The view [view] of the terminal has the value [v]. *)
Definition Keeps (V : Type) (view : tty -> V) (v : V) (st : state) : Prop :=
  view (st_tty st) = v.

(** One character cell of output: a byte from [tty_putc], translated
    or not. *)
Definition is_char (ch : Z) (p : payload) : Prop :=
  match p with
  | PChar c => c = ch
  | PAcs c _ => c = ch
  | _ => False
  end.

(** String prefix, as a proposition. *)
Definition is_prefix (p s : string) : Prop :=
  exists rest, s = (p ++ rest)%string.

(** A second terminal for the examples: started, UTF-8, with the
    cursor position unknown. *)
Module Fixture2.

Definition unknown_state : state :=
  with_tty (fun t => set_flags (Z.lor TTY_STARTED TTY_UTF8)
                       (set_cursor UINT_MAX UINT_MAX t))
           Fixture.plain_state.

(** A wide cell: one character of three bytes and two columns. *)
Definition wide_cell : grid_cell := {|
  gc_flags := 0; gc_attr := 0; gc_fg := 8; gc_bg := 8;
  gc_data := {| ud_data := [227; 129; 130]; ud_have := 3; ud_size := 3;
                ud_width := 2 |}
|}.

(** A cell with a 24-bit foreground. *)
Definition rgb_cell : grid_cell :=
  set_gc_fg grid_default_cell (Z.lor COLOUR_FLAG_RGB 16711680).

(** The description of a plain terminal: eight colours, no scroll
    region and none of the parametrised insert and delete capabilities. *)
Definition term8 : tty_term := {|
  tm_flags := 0;
  tty_term_has := fun c =>
    match c with
    | TTYC_CSR | TTYC_ICH | TTYC_DCH | TTYC_IL | TTYC_DL => false
    | _ => true
    end;
  tty_term_flag := fun _ => false;
  tty_term_number := fun _ => 8;
  tty_term_string := fun _ _ => "<cap>"%string;
  tty_term_ptr := fun _ _ => "<cap>"%string
|}.

Definition tty8 : tty := {|
  t_client := 1; t_sx := 80; t_sy := 24; t_cx := 0; t_cy := 0;
  t_cstyle := 0; t_ccolour := EmptyString; t_termname := "vt100"%string;
  t_term := Some term8; t_mode := MODE_CURSOR;
  t_rlower := 23; t_rupper := 0; t_cell := grid_default_cell;
  t_fd := 1; t_event := []; t_flags := TTY_STARTED; t_term_flags := 0
|}.

Definition state8 : state := {|
  st_tty := tty8; st_window := Fixture.plain_window; st_pane_flags := 0;
  tty_log_fd := 3; st_log := []; st_fd_out := []
|}.

(** The fixture terminal in UTF-8 mode. *)
Definition utf8_state : state :=
  with_tty (fun t => set_flags (Z.lor TTY_STARTED TTY_UTF8) t)
           Fixture.plain_state.

(** A raw string of two bytes, ESC and [c]. *)
Definition raw_ctx : tty_ctx := {|
  ctx_wp := Fixture.the_pane; ctx_cell := grid_default_cell;
  ctx_last_cell := grid_default_cell; ctx_num := 2; ctx_ptr := [27; 99];
  ctx_ocx := 0; ctx_ocy := 10; ctx_orupper := 3; ctx_orlower := 10;
  ctx_xoff := 0; ctx_yoff := 0
|}.

(** The cursor in the last column of row 5, the scroll region on the
    whole screen. *)
Definition whole_region_state : state :=
  with_tty (set_region 0 23) Fixture.last_column_state.

(** The cursor past the last column of the last row, below the scroll
    region 3..10. *)
Definition bottom_state : state :=
  with_tty (set_cursor 80 23) Fixture.the_state.

(** The UTF-8 terminal with the cursor in the last column of row 5. *)
Definition utf8_last_column_state : state :=
  with_tty (set_cursor 79 5) utf8_state.

(** A context whose row is below the pane. *)
Definition low_ctx : tty_ctx := {|
  ctx_wp := Fixture.the_pane; ctx_cell := grid_default_cell;
  ctx_last_cell := grid_default_cell; ctx_num := 1; ctx_ptr := [];
  ctx_ocx := 0; ctx_ocy := 30; ctx_orupper := 3; ctx_orlower := 10;
  ctx_xoff := 0; ctx_yoff := 0
|}.

(** A terminal that wraps early, its scroll region 3..10, and a pane
    whose screen has the same region, with the context on the last
    row. *)
Definition early_term : tty_term := {|
  tm_flags := TERM_EARLYWRAP;
  tty_term_has := fun _ => true;
  tty_term_flag := fun _ => false;
  tty_term_number := fun _ => 16;
  tty_term_string := fun _ _ => "<cap>"%string;
  tty_term_ptr := fun _ _ => "<cap>"%string
|}.

Definition early_state : state := {|
  st_tty := {| t_client := 1; t_sx := 80; t_sy := 24; t_cx := 0; t_cy := 5;
               t_cstyle := 0; t_ccolour := EmptyString;
               t_termname := "xterm"%string;
               t_term := Some early_term; t_mode := MODE_CURSOR;
               t_rlower := 10; t_rupper := 3; t_cell := grid_default_cell;
               t_fd := 1; t_event := []; t_flags := TTY_STARTED;
               t_term_flags := 0 |};
  st_window := Fixture.the_window; st_pane_flags := 0;
  tty_log_fd := 3; st_log := []; st_fd_out := []
|}.

Definition region_pane : window_pane := {|
  wp_id := 1; wp_sx := 80; wp_xoff := 0; wp_yoff := 0;
  wp_colgc := grid_default_cell;
  wp_screen := {| s_grid := s_grid Fixture.the_screen; s_rlower := 10;
                  s_ccolour := EmptyString; s_cstyle := 0 |}
|}.

Definition bottom_ctx : tty_ctx := {|
  ctx_wp := region_pane; ctx_cell := grid_default_cell;
  ctx_last_cell := grid_default_cell; ctx_num := 1; ctx_ptr := [];
  ctx_ocx := 0; ctx_ocy := 23; ctx_orupper := 3; ctx_orlower := 10;
  ctx_xoff := 0; ctx_yoff := 0
|}.

End Fixture2.

(** Every command handler of tty.c but [tty_cmd_setselection], which
    takes the encoder as well. *)
Inductive any_command : Set :=
| CmdBce (cmd : bce_command)
| CmdReverseIndex | CmdLineFeed | CmdAlignmentTest | CmdCell
| CmdUtf8Character | CmdRawString.

Definition run_any {collab : Collaborators} (cmd : any_command)
  : tty_ctx -> state -> state :=
  match cmd with
  | CmdBce c => run_command c
  | CmdReverseIndex => tty_cmd_reverseindex
  | CmdLineFeed => tty_cmd_linefeed
  | CmdAlignmentTest => tty_cmd_alignmenttest
  | CmdCell => tty_cmd_cell
  | CmdUtf8Character => tty_cmd_utf8character
  | CmdRawString => tty_cmd_rawstring
  end.

(** A colour that [tty_try_colour] can send: a palette colour, or a
    colour without the RGB tag, or an RGB colour on a terminal with
    direct colour. *)
Definition colour_sendable (t : tty) (c : Z) : Prop :=
  has_bit c COLOUR_FLAG_256 = true
  \/ has_bit c COLOUR_FLAG_RGB = false
  \/ tty_term_flag (the_term t) TTYC_TC = true.

(** The attribute mask and the two colours of the shadow cell. *)
Definition shadow_style (t : tty) : Z * Z * Z :=
  (gc_attr (t_cell t), gc_fg (t_cell t), gc_bg (t_cell t)).

(** ** What is painted: the characters on the wire

    A second reading of the output: only the characters that are
    written into cells of the terminal, without the control sequences
    around them.  [printable] is the test of [tty_putc] and [tty_cell]
    for a byte that occupies a cell. *)

Definition printable (ch : Z) : bool := (32 <=? ch) && negb (ch =? 127).

Definition text_of_payload (p : payload) : list Z :=
  match p with
  | PChar c | PAcs c _ => if printable c then [c] else []
  | PData buf len => firstn (Z.to_nat len) buf
  | _ => []
  end.

Definition text_of (items : list payload) : list Z :=
  flat_map text_of_payload items.

(** A payload that neither erases in bulk nor writes into a cell. *)
Definition quiet (p : payload) : Prop :=
  no_erase p /\ text_of_payload p = [].

(** [f from ++ f (from + 1) ++ ...], [n] terms. *)
Fixpoint texts (n : nat) (from : Z) (f : Z -> list Z) : list Z :=
  match n with
  | O => []
  | S n' => f from ++ texts n' (from + 1) f
  end.

(** [n] rows of [k] spaces. *)
Definition space_rows (n k : nat) : list Z := repeat 32 (n * k).

Section Painted.

Context {collab : Collaborators}.

(** The characters one cell puts on a terminal that is not early-wrap:
    nothing for padding and for control bytes, the byte of a one-byte
    cell, the bytes of a longer one on a UTF-8 terminal, and one
    underscore per column otherwise. *)
Definition cell_text (t : tty) (gc : grid_cell) : list Z :=
  if has_bit (gc_flags gc) GRID_FLAG_PADDING then []
  else if ud_size (gc_data gc) =? 1 then
    if printable (first_byte gc) then [first_byte gc] else []
  else if has_bit (t_flags t) TTY_UTF8
  then firstn (Z.to_nat (ud_size (gc_data gc))) (ud_data (gc_data gc))
  else repeat 95 (Z.to_nat (ud_width (gc_data gc))).

(** The cell of column [i] of row [py], as it is shown. *)
Definition line_cell (s : screen) (py i : Z) : grid_cell :=
  let gc := grid_view_get_cell (s_grid s) i py in
  if has_bit (gc_flags gc) GRID_FLAG_SELECTED
  then screen_select_cell s gc else gc.

(** The number of cells of row [py] that are drawn: the width of the
    screen, cut to the cells the row has and to the terminal. *)
Definition line_width (t : tty) (s : screen) (py : Z) : Z :=
  let g := s_grid s in
  let sx := screen_size_x s in
  let sx := if sx >? cellsize (gd_linedata g (u32 (gd_hsize g + py)))
            then cellsize (gd_linedata g (u32 (gd_hsize g + py))) else sx in
  if sx >? t_sx t then t_sx t else sx.

(** A row redrawn while bulk erase is emulated: its cells, then spaces
    up to the width of the screen when the row is shorter than the
    terminal. *)
Definition line_text (t : tty) (s : screen) (py : Z) : list Z :=
  let sx := line_width t s py in
  texts (Z.to_nat sx) 0 (fun i => cell_text t (line_cell s py i))
  ++ (if sx <? t_sx t
      then repeat 32 (Z.to_nat (u32 (screen_size_x s - sx))) else []).

(** The rows [redraw_region] redraws; none when the region is large
    and the whole pane is left to be redrawn. *)
Definition region_text (t : tty) (ctx : tty_ctx) : list Z :=
  let s := wp_screen (ctx_wp ctx) in
  if tty_large_region ctx then []
  else if (ctx_ocy ctx <? ctx_orupper ctx) || (ctx_ocy ctx >? ctx_orlower ctx)
  then texts (Z.to_nat (screen_size_y s - ctx_ocy ctx)) (ctx_ocy ctx)
             (line_text t s)
  else texts (Z.to_nat (ctx_orlower ctx + 1 - ctx_orupper ctx))
             (ctx_orupper ctx) (line_text t s).

(** What each handler with a bulk-erase branch paints in place of the
    bulk primitive: the row or the region again for the insert and
    delete handlers, spaces for the clear handlers. *)
Definition painted (cmd : bce_command) (ctx : tty_ctx) (t : tty) : list Z :=
  let s := wp_screen (ctx_wp ctx) in
  let sx := Z.to_nat (screen_size_x s) in
  match cmd with
  | CmdInsertCharacter | CmdDeleteCharacter => line_text t s (ctx_ocy ctx)
  | CmdInsertLine | CmdDeleteLine => region_text t ctx
  | CmdClearCharacter => repeat 32 (Z.to_nat (ctx_num ctx))
  | CmdClearLine => repeat 32 sx
  | CmdClearEndOfLine =>
      repeat 32 (Z.to_nat (u32 (screen_size_x s - ctx_ocx ctx)))
  | CmdClearStartOfLine => repeat 32 (Z.to_nat (u32 (ctx_ocx ctx + 1)))
  | CmdClearEndOfScreen =>
      repeat 32 (Z.to_nat (u32 (screen_size_x s - ctx_ocx ctx)))
      ++ space_rows (Z.to_nat (screen_size_y s - u32 (ctx_ocy ctx + 1))) sx
  | CmdClearStartOfScreen =>
      space_rows (Z.to_nat (ctx_ocy ctx)) sx
      ++ repeat 32 (Z.to_nat (u32 (ctx_ocx ctx + 1)))
  | CmdClearScreen => space_rows (Z.to_nat (screen_size_y s)) sx
  end.

(** The handlers that redraw from the grid. *)
Definition redraws (cmd : bce_command) : bool :=
  match cmd with
  | CmdInsertCharacter | CmdDeleteCharacter
  | CmdInsertLine | CmdDeleteLine => true
  | _ => false
  end.

(** The handlers that leave a large region to a redraw of the pane. *)
Definition defers (cmd : bce_command) (ctx : tty_ctx) : bool :=
  match cmd with
  | CmdInsertLine | CmdDeleteLine => tty_large_region ctx
  | _ => false
  end.

End Painted.

(** [Txt e v pre txt]: the environment is [e], the static members of
    the terminal are [v], and the output is [pre] followed by items
    whose characters are [txt]. *)
Definition Txt (e : env)
               (v : Z * Z * Z * string * option tty_term * Z * Z * Z)
               (pre : list payload) (txt : list Z) (st : state) : Prop :=
  env_of st = e
  /\ static_of (st_tty st) = v
  /\ exists items, t_event (st_tty st) = pre ++ items /\ text_of items = txt.

(** ** The shadow cursor on the screen

    What the size of the terminal, the position of the shadow cursor
    and the context of a command have to do with each other. *)

(** The terminal has a column and a row, and its size fits an [int]. *)
Definition sizes_ok (t : tty) : Prop :=
  1 <= t_sx t < 2147483648 /\ 1 <= t_sy t < 2147483648.

(** Each shadow coordinate is unknown or on the screen, the column
    [sx] itself being the position after the last column was
    written. *)
Definition cursor_bounded (t : tty) : Prop :=
  (t_cx t = UINT_MAX \/ 0 <= t_cx t <= t_sx t)
  /\ (t_cy t = UINT_MAX \/ 0 <= t_cy t < t_sy t).

(** The test of [tty_putc] for a character that wraps. *)
Definition wraps (t : tty) : bool :=
  t_cx t >=? (if has_bit (tm_flags (the_term t)) TERM_EARLYWRAP
              then u32 (t_sx t - 1) else t_sx t).

(** A wrap leaves the shadow row on the screen: the row is the lower
    edge of the scroll region, where it stays, or there is a row below
    it, or it is unknown. *)
Definition wrap_ok (t : tty) : Prop :=
  t_cy t = t_rlower t \/ t_cy t + 1 < t_sy t \/ t_cy t = UINT_MAX.

(** There is room for [k] more characters: there is none to write, or
    they fit into the row, or they fit into a row and the one wrap they
    take is harmless. *)
Definition room (t : tty) (k : Z) : Prop :=
  k <= 0 \/ t_cx t + k <= t_sx t \/ (k <= t_sx t /\ wrap_ok t).

(** What the engine never changes of the terminal, as far as the
    cursor is concerned. *)
Definition sview (t : tty) : Z * Z * option tty_term * bool :=
  (t_sx t, t_sy t, t_term t, has_bit (t_flags t) TTY_UTF8).

(** What stays when nothing moves. *)
Definition cview (t : tty) : (Z * Z * option tty_term * bool) * Z * Z * Z :=
  (sview t, t_rlower t, t_cx t, t_cy t).

(** [Fit t0 r k]: the terminal is of the kind of [t0], the lower edge
    of its scroll region is [r], its cursor is on the screen and has
    room for [k] characters. *)
Definition Fit (t0 : tty) (r : Z) (k : Z) (st : state) : Prop :=
  sview (st_tty st) = sview t0
  /\ t_rlower (st_tty st) = r
  /\ cursor_bounded (st_tty st)
  /\ room (st_tty st) k.

(** A cell that [tty_cell] writes through [tty_putc], one column at
    most. *)
Definition narrow (t : tty) (gc : grid_cell) : Prop :=
  ud_size (gc_data gc) = 1
  \/ (has_bit (t_flags t) TTY_UTF8 = false /\ 0 <= ud_width (gc_data gc) <= 1).

Section Placement.

Context {collab : Collaborators}.

(** The pane of a context lies on the terminal, the position and the
    region of the context lie on the pane, no row of the grid has a
    negative number of cells, and the cells of the pane are narrow. *)
Definition ctx_on_screen (ctx : tty_ctx) (t : tty) : Prop :=
  let s := wp_screen (ctx_wp ctx) in
  0 <= ctx_xoff ctx /\ 0 <= ctx_yoff ctx
  /\ 1 <= screen_size_x s /\ 1 <= screen_size_y s
  /\ ctx_xoff ctx + screen_size_x s <= t_sx t
  /\ ctx_yoff ctx + screen_size_y s <= t_sy t
  /\ 0 <= ctx_ocx ctx < screen_size_x s
  /\ 0 <= ctx_ocy ctx < screen_size_y s
  /\ 0 <= ctx_orupper ctx <= ctx_orlower ctx
  /\ ctx_orlower ctx < screen_size_y s
  /\ 0 <= s_rlower s < screen_size_y s
  /\ (forall l, 0 <= cellsize (gd_linedata (s_grid s) l))
  /\ (forall py i, narrow t (line_cell s py i))
  /\ narrow t (ctx_cell ctx) /\ narrow t (ctx_last_cell ctx).

(** What single handlers ask for on top of that: the characters
    [clearcharacter] clears, and the cell [cell] writes, end in the
    row of the pane. *)
Definition cmd_on_screen (cmd : any_command) (ctx : tty_ctx) : Prop :=
  match cmd with
  | CmdBce CmdClearCharacter =>
      0 <= ctx_num ctx
      /\ ctx_ocx ctx + ctx_num ctx
         <= screen_size_x (wp_screen (ctx_wp ctx))
  | CmdCell =>
      0 <= ud_width (gc_data (ctx_cell ctx))
      /\ ctx_ocx ctx + ud_width (gc_data (ctx_cell ctx))
         <= wp_sx (ctx_wp ctx)
      /\ wp_sx (ctx_wp ctx) < 2147483648
  | _ => True
  end.

(** A redrawn row that continues the row above it wraps at the lower
    edge of the screen's scroll region: the terminal's region ends
    there too, or there is a row of the terminal below it. *)
Definition region_on_screen (ctx : tty_ctx) (t : tty) : Prop :=
  t_rlower t = ctx_yoff ctx + s_rlower (wp_screen (ctx_wp ctx))
  \/ ctx_yoff ctx + s_rlower (wp_screen (ctx_wp ctx)) + 1 < t_sy t.

End Placement.

(** [At t0 r x y]: the terminal is of the kind of [t0], the lower edge
    of its scroll region is [r] and its shadow cursor is at [(x, y)]. *)
Definition At (t0 : tty) (r x y : Z) (st : state) : Prop :=
  sview (st_tty st) = sview t0
  /\ t_rlower (st_tty st) = r
  /\ t_cx (st_tty st) = x
  /\ t_cy (st_tty st) = y.

(** [Kind t0 r]: the terminal is of the kind of [t0] and the lower edge
    of its scroll region is [r]. *)
Definition Kind (t0 : tty) (r : Z) (st : state) : Prop :=
  sview (st_tty st) = sview t0 /\ t_rlower (st_tty st) = r.

(** [Bounded t0]: the terminal is of the kind of [t0] and its shadow
    cursor is unknown or on the screen. *)
Definition Bounded (t0 : tty) (st : state) : Prop :=
  sview (st_tty st) = sview t0 /\ cursor_bounded (st_tty st).

(** "The operation [f] keeps a shadow cursor that is unknown or on the
    screen unknown or on the screen", at the state [st]. *)
Definition keeps_cursor_bounded_at (f : state -> state) (st : state) : Prop :=
  cursor_bounded (st_tty st) -> cursor_bounded (st_tty (f st)).

(** * Properties *)

(** ** Bit masks and field updates *)

Lemma clear_bit_off (x m : Z) : has_bit (clear_bit x m) m = false.
Proof.
  unfold has_bit, clear_bit.
  rewrite <- Z.land_assoc, (Z.land_comm (Z.lnot m) m), Z.land_lnot_diag.
  now rewrite Z.land_0_r.
Qed.

Lemma set_event_same (t : tty) : set_event (t_event t ++ []) t = t.
Proof. destruct t; unfold set_event; simpl; now rewrite app_nil_r. Qed.

Lemma with_tty_same (st : state) : with_tty (fun t => t) st = st.
Proof. now destruct st. Qed.

#[local] Arguments u32 : simpl never.
#[local] Arguments to_int : simpl never.
#[local] Arguments Z.land : simpl never.
#[local] Arguments Z.lor : simpl never.
#[local] Arguments Z.lnot : simpl never.

Section Properties.

Context {collab : Collaborators}.

(** ** The default-colour resolver *)

(** C8.  For a cell whose foreground and background are both 8, the
    resolver returns the pane's own colour if that is not 8; otherwise,
    for the window's active pane, the active style's colour if that is
    not 8; otherwise the window style's colour.  This holds for the
    foreground and, symmetrically, for the background; the styles are
    the ones in force for the window (fetched from the options when the
    style-changed flag is set), and the other fields of the cell are
    returned as they were. *)
Theorem tty_default_colours_resolves :
  forall (gc : grid_cell) (wp : window_pane) (st : state),
    gc_fg gc = 8 -> gc_bg gc = 8 ->
    let w := st_window st in
    let agc := fst (window_styles w) in
    let wgc := snd (window_styles w) in
    let active := wp_id wp =? w_active w in
    let gc' := fst (tty_default_colours gc wp st) in
    gc_fg gc' = spec_resolve (gc_fg (wp_colgc wp)) (gc_fg agc) (gc_fg wgc) active
    /\ gc_bg gc' = spec_resolve (gc_bg (wp_colgc wp)) (gc_bg agc) (gc_bg wgc) active
    /\ gc_attr gc' = gc_attr gc /\ gc_flags gc' = gc_flags gc
    /\ gc_data gc' = gc_data gc.
Proof.
  intros gc wp st Hfg Hbg; cbv zeta.
  unfold tty_default_colours, spec_resolve.
  destruct (window_styles (st_window st)) as [agc wgc]; cbn [fst snd].
  rewrite Hfg; cbn [Z.eqb Pos.eqb].
  destruct (gc_fg (wp_colgc wp) =? 8), (gc_bg (wp_colgc wp) =? 8),
    (wp_id wp =? w_active (st_window st)),
    (gc_fg agc =? 8), (gc_bg agc =? 8);
    cbn [negb andb fst set_gc_fg set_gc_bg gc_fg gc_bg gc_attr gc_flags gc_data];
    rewrite Hbg; cbn [Z.eqb Pos.eqb gc_fg gc_bg gc_attr gc_flags gc_data];
    repeat split; reflexivity.
Qed.

(** ** Initialisation *)

(** C9.  [tty_init] fails (returns -1) exactly when the descriptor is
    not a terminal.  On failure the structure is left as it was; on
    success the result is 0, the shadow state (size, cursor, region,
    cell, mode, cursor style, flags) is zero, no terminal description
    is attached, the descriptor and the client are stored, the cursor
    colour is the empty string and the terminal name is the one given,
    or "unknown" when none or an empty one is given. *)
Theorem tty_init_spec :
  forall (t : tty) (c fd : Z) (term : option string),
    let r := fst (tty_init t c fd term) in
    let t' := snd (tty_init t c fd term) in
    (r =? -1) = negb (isatty fd)
    /\ if isatty fd then
         r = 0
         /\ t_sx t' = 0 /\ t_sy t' = 0 /\ t_cx t' = 0 /\ t_cy t' = 0
         /\ t_rupper t' = 0 /\ t_rlower t' = 0 /\ t_cell t' = zero_cell
         /\ t_mode t' = 0 /\ t_cstyle t' = 0
         /\ t_flags t' = 0 /\ t_term_flags t' = 0
         /\ t_term t' = None /\ t_event t' = []
         /\ t_fd t' = fd /\ t_client t' = c
         /\ t_ccolour t' = EmptyString
         /\ t_termname t'
            = match term with
              | None => "unknown"%string
              | Some EmptyString => "unknown"%string
              | Some name => name
              end
       else t' = t.
Proof.
  intros t c fd term; cbv zeta; unfold tty_init.
  destruct (isatty fd); cbn [negb fst snd].
  - split; [reflexivity|].
    repeat (split; [reflexivity|]).
    cbn [t_termname]. destruct term as [[|a name]|]; reflexivity.
  - split; reflexivity.
Qed.

(** ** Colour downgrade of the background *)

(** What [tty_check_bg] does get right on the 256-to-16 path: given a
    fold into 0..15, the background lands in 0..7 and the attributes,
    flags and data of the cell are untouched. *)
Lemma tty_check_bg_256_base_range :
  forall (t : tty) (gc : grid_cell),
    (forall c, 0 <= colour_256to16 c <= 15) ->
    has_bit (gc_bg gc) COLOUR_FLAG_RGB = false ->
    has_bit (gc_bg gc) COLOUR_FLAG_256 = true ->
    no_256 t = true ->
    let gc' := tty_check_bg t gc in
    0 <= gc_bg gc' <= 7
    /\ gc_attr gc' = gc_attr gc /\ gc_flags gc' = gc_flags gc
    /\ gc_data gc' = gc_data gc.
Proof.
  intros t gc Hrange Hrgb H256 Hno; cbv zeta.
  unfold tty_check_bg. rewrite Hrgb; cbn [andb]. rewrite H256, Hno.
  cbn [set_gc_bg gc_bg gc_fg gc_attr gc_flags gc_data].
  specialize (Hrange (gc_bg gc)).
  destruct (has_bit (colour_256to16 (gc_bg gc)) 8) eqn:Hbit.
  - assert (Hb : 0 <= Z.land (colour_256to16 (gc_bg gc)) 7 <= 7).
    { change 7 with (Z.ones 3). rewrite Z.land_ones by lia.
      change (2 ^ 3) with 8.
      pose proof (Z.mod_pos_bound (colour_256to16 (gc_bg gc)) 8 eq_refl).
      change (Z.ones 3) with 7. lia. }
    destruct (u32 (tty_term_number (the_term t) TTYC_COLORS) >=? 16);
      cbn [set_gc_fg set_gc_bg gc_bg gc_attr gc_flags gc_data]; auto.
  - cbn [set_gc_bg gc_bg gc_attr gc_flags gc_data]. split; [|auto].
    unfold has_bit in Hbit. apply negb_false_iff, Z.eqb_eq in Hbit.
    assert (Hlt : colour_256to16 (gc_bg gc) < 8).
    { destruct (Z_lt_ge_dec (colour_256to16 (gc_bg gc)) 8) as [|Hge]; auto.
      exfalso.
      assert (Hcases : colour_256to16 (gc_bg gc) = 8
                       \/ colour_256to16 (gc_bg gc) = 9
                       \/ colour_256to16 (gc_bg gc) = 10
                       \/ colour_256to16 (gc_bg gc) = 11
                       \/ colour_256to16 (gc_bg gc) = 12
                       \/ colour_256to16 (gc_bg gc) = 13
                       \/ colour_256to16 (gc_bg gc) = 14
                       \/ colour_256to16 (gc_bg gc) = 15) by lia.
      repeat (destruct Hcases as [Hc|Hcases];
              [rewrite Hc in Hbit; discriminate|]).
      rewrite Hcases in Hbit; discriminate. }
    lia.
Qed.

(** C1.  On the 256-to-16 path of [tty_check_bg], when the folded
    colour has the bright bit and the terminal declares sixteen colours
    or more (the number as the code reads it, into an [u_int]), the
    code adds 90 to the FOREGROUND of the cell: the foreground does
    not stay as it was. *)
Theorem tty_check_bg_256_bright_moves_fg :
  forall (t : tty) (gc : grid_cell),
    has_bit (gc_bg gc) COLOUR_FLAG_RGB = false ->
    has_bit (gc_bg gc) COLOUR_FLAG_256 = true ->
    no_256 t = true ->
    has_bit (colour_256to16 (gc_bg gc)) 8 = true ->
    16 <= u32 (tty_term_number (the_term t) TTYC_COLORS) ->
    gc_fg (tty_check_bg t gc) = gc_fg gc + 90
    /\ gc_bg (tty_check_bg t gc) = Z.land (colour_256to16 (gc_bg gc)) 7.
Proof.
  intros t gc Hrgb H256 Hno Hbit Hcol.
  unfold tty_check_bg. rewrite Hrgb; cbn [andb]. rewrite H256, Hno.
  cbn [set_gc_bg gc_bg]. rewrite Hbit.
  apply Z.geb_le in Hcol. rewrite Hcol.
  cbn [set_gc_fg set_gc_bg gc_bg gc_fg]. auto.
Qed.

(** ** The output sink *)

Lemma log_write_tty (p : payload) (st : state) :
  st_tty (log_write p st) = st_tty st.
Proof. unfold log_write; now destruct (tty_log_fd st =? -1). Qed.

Lemma log_write_log (p : payload) (st : state) :
  st_log (log_write p st)
  = st_log st ++ (if tty_log_fd st =? -1 then [] else [p]).
Proof.
  unfold log_write; destruct (tty_log_fd st =? -1); cbn [st_log set_log];
    [now rewrite app_nil_r | reflexivity].
Qed.

Lemma tty_puts_tty (p : payload) (st : state) :
  st_tty (tty_puts p st)
  = set_event (t_event (st_tty st) ++ emit (st_tty st) p) (st_tty st).
Proof.
  unfold tty_puts, emit.
  destruct (string_empty (render1 (the_term (st_tty st)) p)).
  - now rewrite set_event_same.
  - now rewrite log_write_tty.
Qed.

Lemma tty_puts_log (p : payload) (st : state) :
  st_log (tty_puts p st)
  = st_log st ++ (if tty_log_fd st =? -1 then [] else emit (st_tty st) p).
Proof.
  unfold tty_puts, emit.
  destruct (string_empty (render1 (the_term (st_tty st)) p)).
  - destruct (tty_log_fd st =? -1); now rewrite app_nil_r.
  - now rewrite log_write_log.
Qed.

(** [tty_puts] copies what it emits to the log when the log is open. *)
Lemma tty_puts_mirrors (p : payload) (st : state) :
  tty_log_fd st <> -1 ->
  exists items,
    t_event (st_tty (tty_puts p st)) = t_event (st_tty st) ++ items
    /\ st_log (tty_puts p st) = st_log st ++ items.
Proof.
  intros Hfd. exists (emit (st_tty st) p).
  rewrite tty_puts_tty, tty_puts_log.
  apply Z.eqb_neq in Hfd. now rewrite Hfd.
Qed.

(** So does [tty_putn]. *)
Lemma tty_putn_mirrors (buf : list Z) (len width : Z) (st : state) :
  tty_log_fd st <> -1 ->
  t_event (st_tty (tty_putn buf len width st))
  = t_event (st_tty st) ++ [PData buf len]
  /\ st_log (tty_putn buf len width st) = st_log st ++ [PData buf len].
Proof.
  intros Hfd. apply Z.eqb_neq in Hfd. unfold tty_putn, log_write.
  cbn [bufferevent_write with_tty tty_log_fd]. rewrite Hfd.
  split; reflexivity.
Qed.

(** And [tty_putc], as long as the byte is not ACS-translated. *)
Lemma tty_putc_plain_mirrors (ch : Z) (st : state) :
  tty_log_fd st <> -1 ->
  putc_payload (st_tty st) ch = PChar ch ->
  t_event (st_tty (tty_putc ch st)) = t_event (st_tty st) ++ [PChar ch]
  /\ st_log (tty_putc ch st) = st_log st ++ [PChar ch].
Proof.
  intros Hfd Hp. apply Z.eqb_neq in Hfd. unfold tty_putc. rewrite Hp.
  rewrite log_write_tty, log_write_log.
  destruct ((32 <=? ch) && negb (ch =? 127));
    cbn [bufferevent_write with_tty tty_log_fd st_tty st_log];
    rewrite Hfd; split; try reflexivity.
  unfold putc_advance.
  repeat match goal with
         | |- context [if ?c then _ else _] => destruct c
         end; reflexivity.
Qed.

(** The teardown path never writes to the log or to the buffer. *)
Lemma tty_raw_loop_keeps_log (w : nat -> write_result) :
  forall (tries i : nat) (s : string) (st : state),
    st_log (tty_raw_loop tries i w s st) = st_log st
    /\ st_tty (tty_raw_loop tries i w s st) = st_tty st.
Proof.
  induction tries as [|tries IH]; intros i s st; cbn [tty_raw_loop].
  - split; reflexivity.
  - destruct (w i) as [n| |].
    + destruct (string_empty (string_drop n s)).
      * split; reflexivity.
      * destruct (IH (S i) (string_drop n s)
                     (set_fd_out (st_fd_out st ++ [substring 0 n s]) st))
          as [Hl Ht].
        rewrite Hl, Ht. split; reflexivity.
    + apply IH.
    + split; reflexivity.
Qed.

Lemma tty_raw_keeps_log (w : nat -> write_result) (s : string) (st : state) :
  st_log (tty_raw w s st) = st_log st
  /\ t_event (st_tty (tty_raw w s st)) = t_event (st_tty st).
Proof.
  unfold tty_raw. destruct (tty_raw_loop_keeps_log w 5 0 s st) as [Hl Ht].
  now rewrite Hl, Ht.
Qed.

(** C7.  For a byte that [tty_putc] translates through the ACS table,
    with the log open, the buffer receives the ACS string while the log
    receives the untranslated byte: the log is not a copy of what was
    emitted whenever the two differ. *)
Theorem tty_putc_acs_logs_untranslated_byte :
  forall (st : state) (ch : Z) (acs : string),
    tty_log_fd st <> -1 ->
    has_bit (gc_attr (t_cell (st_tty st))) GRID_ATTR_CHARSET = true ->
    tty_acs_get (st_tty st) ch = Some acs ->
    t_event (st_tty (tty_putc ch st)) = t_event (st_tty st) ++ [PAcs ch acs]
    /\ st_log (tty_putc ch st) = st_log st ++ [PChar ch]
    /\ render1 (the_term (st_tty st)) (PAcs ch acs) = acs
    /\ render1 (the_term (st_tty st)) (PChar ch) = byte_string ch.
Proof.
  intros st ch acs Hfd Hattr Hacs. apply Z.eqb_neq in Hfd.
  unfold tty_putc, putc_payload. rewrite Hattr, Hacs.
  rewrite log_write_tty, log_write_log.
  destruct ((32 <=? ch) && negb (ch =? 127));
    cbn [bufferevent_write with_tty tty_log_fd st_tty st_log];
    rewrite Hfd; repeat split; try reflexivity.
  unfold putc_advance.
  repeat match goal with
         | |- context [if ?c then _ else _] => destruct c
         end; reflexivity.
Qed.

(** ** Machine arithmetic within range *)

Lemma u32_small (x : Z) : 0 <= x <= UINT_MAX -> u32 x = x.
Proof. unfold u32, UINT_MAX; intros; apply Z.mod_small; lia. Qed.

Lemma to_int_small (x : Z) :
  -2147483648 <= x < 2147483648 -> to_int x = x.
Proof.
  unfold to_int; intros Hx; cbv zeta.
  destruct (Z.ltb_spec (x mod 4294967296) 2147483648);
    Z.div_mod_to_equations; lia.
Qed.

(** Boolean tests of the code, read as propositions. *)
Ltac zbool :=
  repeat match goal with
         | H : (_ && _) = true |- _ => apply andb_true_iff in H; destruct H
         | H : (_ || _) = false |- _ => apply orb_false_iff in H; destruct H
         | H : negb _ = true |- _ => apply negb_true_iff in H
         | H : negb _ = false |- _ => apply negb_false_iff in H
         | H : (_ =? _) = true |- _ => apply Z.eqb_eq in H
         | H : (_ =? _) = false |- _ => apply Z.eqb_neq in H
         | H : (_ <? _) = true |- _ => apply Z.ltb_lt in H
         | H : (_ <? _) = false |- _ => apply Z.ltb_ge in H
         | H : (_ <=? _) = true |- _ => apply Z.leb_le in H
         | H : (_ <=? _) = false |- _ => apply Z.leb_gt in H
         | H : (_ >? _) = true |- _ => rewrite Z.gtb_ltb in H
         | H : (_ >? _) = false |- _ => rewrite Z.gtb_ltb in H
         | H : (_ >=? _) = true |- _ => rewrite Z.geb_leb in H
         | H : (_ >=? _) = false |- _ => rewrite Z.geb_leb in H
         end.

Ltac zbool_split :=
  zbool;
  repeat match goal with
         | H : (_ && _) = false |- _ =>
             apply andb_false_iff in H; destruct H; zbool
         | H : (_ || _) = true |- _ =>
             apply orb_true_iff in H; destruct H; zbool
         end.

Ltac case_if :=
  match goal with
  | |- context [if ?c then _ else _] => destruct c eqn:?
  end.

(** ** The cursor mover *)


Lemma only_emits_refl (st : state) : only_emits st st.
Proof. exists []. now rewrite set_event_same. Qed.

Lemma only_emits_trans (a b c : state) :
  only_emits a b -> only_emits b c -> only_emits a c.
Proof.
  intros [i Hi] [j Hj]. exists (i ++ j). rewrite Hj, Hi.
  cbn [set_event t_event]. now rewrite app_assoc.
Qed.

Lemma tty_puts_only_emits (p : payload) (st : state) :
  only_emits st (tty_puts p st).
Proof. exists (emit (st_tty st) p). apply tty_puts_tty. Qed.

Lemma tty_putcode_only_emits (c : tty_code_code) (st : state) :
  only_emits st (tty_putcode c st).
Proof. apply tty_puts_only_emits. Qed.

Lemma tty_putcode1_only_emits (c : tty_code_code) (a : Z) (st : state) :
  only_emits st (tty_putcode1 c a st).
Proof.
  unfold tty_putcode1; destruct (a <? 0);
    [apply only_emits_refl | apply tty_puts_only_emits].
Qed.

Lemma tty_putcode2_only_emits (c : tty_code_code) (a b : Z) (st : state) :
  only_emits st (tty_putcode2 c a b st).
Proof.
  unfold tty_putcode2; destruct ((a <? 0) || (b <? 0));
    [apply only_emits_refl | apply tty_puts_only_emits].
Qed.

(** A control byte leaves the shadow cursor alone. *)
Lemma tty_putc_control_only_emits (ch : Z) (st : state) :
  ch < 32 -> only_emits st (tty_putc ch st).
Proof.
  intros Hch. exists [putc_payload (st_tty st) ch].
  unfold tty_putc. rewrite log_write_tty.
  apply Z.leb_gt in Hch. rewrite Hch. reflexivity.
Qed.

Create HintDb emits.

#[local] Hint Resolve only_emits_refl tty_puts_only_emits
  tty_putcode_only_emits tty_putcode1_only_emits tty_putcode2_only_emits
  : emits.


Lemma cursor_done_moved (cx cy : Z) (st mid : state) :
  only_emits st mid -> moved_to cx cy st (cursor_done cx cy mid).
Proof.
  intros [items H]. exists items. unfold cursor_done.
  cbn [with_tty st_tty]. now rewrite H.
Qed.

Lemma cursor_absolute_moved (cx cy : Z) (st : state) :
  moved_to cx cy st (cursor_absolute cx cy st).
Proof. apply cursor_done_moved; auto with emits. Qed.

Lemma cursor_same_row_moved (cx cy : Z) (st : state) :
  moved_to cx cy st (cursor_same_row cx cy st).
Proof.
  unfold cursor_same_row.
  repeat case_if;
    first [ apply cursor_absolute_moved
          | apply cursor_done_moved;
            solve [ apply tty_putc_control_only_emits; lia
                  | eapply only_emits_trans;
                    [|apply tty_putcode_only_emits]; auto with emits
                  | auto with emits ] ].
Qed.

Lemma cursor_same_column_moved (cx cy : Z) (st : state) :
  moved_to cx cy st (cursor_same_column cx cy st).
Proof.
  unfold cursor_same_column.
  repeat case_if;
    first [ apply cursor_absolute_moved
          | apply cursor_done_moved; auto with emits ].
Qed.

(** What [tty_cursor] leaves behind: the shadow cursor is the target
    with its column clamped, and nothing else has changed but the
    output. *)
Lemma tty_cursor_moved (cx cy : Z) (st : state) :
  moved_to (clamp_cx (st_tty st) cx) cy st (tty_cursor cx cy st).
Proof.
  unfold tty_cursor.
  destruct ((clamp_cx (st_tty st) cx =? t_cx (st_tty st))
            && (cy =? t_cy (st_tty st))) eqn:Hsame.
  - apply andb_true_iff in Hsame. destruct Hsame as [Hx Hy].
    apply Z.eqb_eq in Hx, Hy. exists []. rewrite Hx, Hy.
    destruct (st_tty st); unfold set_event, set_cursor; cbn.
    now rewrite app_nil_r.
  - repeat case_if;
      first [ apply cursor_absolute_moved
            | apply cursor_same_row_moved
            | apply cursor_same_column_moved
            | apply cursor_done_moved;
              solve [ eapply only_emits_trans;
                      apply tty_putc_control_only_emits; lia
                    | auto with emits ] ].
Qed.

(** C5.  [tty_cursor] is idempotent: called a second time with the
    same target, it returns the state the first call produced, so it
    emits nothing, logs nothing and leaves the shadow state as it is;
    this includes targets whose column is clamped to [sx - 1]. *)
Theorem tty_cursor_idempotent :
  forall (cx cy : Z) (st : state),
    tty_cursor cx cy (tty_cursor cx cy st) = tty_cursor cx cy st.
Proof.
  intros cx cy st.
  destruct (tty_cursor_moved cx cy st) as [items H].
  remember (tty_cursor cx cy st) as st' eqn:Hst'.
  unfold tty_cursor at 1.
  assert (Hclamp : clamp_cx (st_tty st') cx = clamp_cx (st_tty st) cx).
  { unfold clamp_cx. now rewrite H. }
  rewrite Hclamp. rewrite H at 1 2. cbn [t_cx t_cy set_event set_cursor].
  now rewrite !Z.eqb_refl.
Qed.

Lemma u32_le (x : Z) : 0 <= x -> u32 x <= x.
Proof. intros; unfold u32; apply Z.mod_le; lia. Qed.

Lemma clamp_cx_le (t : tty) (cx : Z) : clamp_cx t cx <= u32 (t_sx t - 1).
Proof.
  unfold clamp_cx. destruct (cx >? u32 (t_sx t - 1)) eqn:H; zbool; lia.
Qed.

Lemma cursor_done_puts_event (cx cy : Z) (p : payload) (st : state) :
  st_tty (cursor_done cx cy (tty_puts p st))
  = set_cursor cx cy
      (set_event (t_event (st_tty st) ++ emit (st_tty st) p) (st_tty st)).
Proof. unfold cursor_done. cbn [with_tty st_tty]. now rewrite tty_puts_tty. Qed.

(** C3 (amended).  A [tty_cursor] call whose clamped target column is
    the shadow column, whose shadow row lies inside the shadow scroll
    region and whose target row lies outside it (rows, columns and
    region fitting a C [int]) emits the expansion of exactly one
    capability, and never CUU1, CUD1, CUU or CUD: HOME when the target
    is the origin and the terminal has HOME; otherwise VPA when the
    terminal has VPA; otherwise the absolute CUP.  The shadow cursor
    becomes the target. *)
Theorem tty_cursor_crossing_region :
  forall (cx cy : Z) (st : state),
    let t := st_tty st in
    let sent :=
      emit t (if (t_cx t =? 0) && (cy =? 0)
                 && tty_term_has (the_term t) TTYC_HOME
              then PCap TTYC_HOME []
              else if tty_term_has (the_term t) TTYC_VPA
                   then PCap TTYC_VPA [cy]
                   else PCap TTYC_CUP [cy; t_cx t]) in
    clamp_cx t cx = t_cx t ->
    0 <= t_cx t < 2147483648 ->
    0 <= t_rupper t -> t_rlower t < 2147483648 ->
    t_rupper t <= t_cy t <= t_rlower t ->
    0 <= cy < 2147483648 ->
    row_outside_region t cy ->
    t_event (st_tty (tty_cursor cx cy st)) = t_event t ++ sent
    /\ Forall no_vertical sent
    /\ t_cx (st_tty (tty_cursor cx cy st)) = t_cx t
    /\ t_cy (st_tty (tty_cursor cx cy st)) = cy.
Proof.
  intros cx cy st t sent Hcol Hx Hup Hlow Hin Hcy Hout.
  assert (Hvert : Forall no_vertical sent).
  { unfold sent, emit.
    repeat case_if; repeat constructor. }
  assert (Hev : st_tty (tty_cursor cx cy st)
                = set_cursor (t_cx t) cy (set_event (t_event t ++ sent) t)).
  { unfold sent. clear sent Hvert. unfold row_outside_region in Hout.
    pose proof (clamp_cx_le t cx) as Hle. rewrite Hcol in Hle.
    unfold tty_cursor. fold t. rewrite Hcol.
    assert (Hne : (cy =? t_cy t) = false) by (apply Z.eqb_neq; lia).
    rewrite Z.eqb_refl, Hne. cbn [andb].
    replace (t_cx t >? u32 (t_sx t - 1)) with false
      by (symmetry; rewrite Z.gtb_ltb; apply Z.ltb_ge; lia).
    destruct ((t_cx t =? 0) && (cy =? 0)
              && tty_term_has (the_term t) TTYC_HOME) eqn:Hhome.
    { unfold tty_putcode. apply cursor_done_puts_event. }
    replace ((t_cx t =? 0) && (cy =? u32 (t_cy t + 1))
             && negb (t_cy t =? t_rlower t)) with false.
    2:{ symmetry. rewrite u32_small by (unfold UINT_MAX; lia).
        destruct (t_cx t =? 0); [cbn [andb]|reflexivity].
        destruct (cy =? t_cy t + 1) eqn:H1; [cbn [andb]|reflexivity].
        destruct (t_cy t =? t_rlower t) eqn:H2; [reflexivity|].
        zbool; lia. }
    unfold cursor_same_column. fold t.
    replace (negb (t_cy t =? t_rupper t) && (cy =? u32 (t_cy t - 1))
             && tty_term_has (the_term t) TTYC_CUU1) with false.
    2:{ symmetry.
        destruct (t_cy t =? t_rupper t) eqn:H1; [reflexivity|cbn [negb andb]].
        rewrite u32_small by (unfold UINT_MAX; zbool; lia).
        destruct (cy =? t_cy t - 1) eqn:H2; [|reflexivity].
        zbool; lia. }
    replace (negb (t_cy t =? t_rlower t) && (cy =? u32 (t_cy t + 1))
             && tty_term_has (the_term t) TTYC_CUD1) with false.
    2:{ symmetry.
        destruct (t_cy t =? t_rlower t) eqn:H1; [reflexivity|cbn [negb andb]].
        rewrite u32_small by (unfold UINT_MAX; lia).
        destruct (cy =? t_cy t + 1) eqn:H2; [|reflexivity].
        zbool; lia. }
    rewrite (to_int_small (t_cy t - cy)) by lia.
    replace ((u32 (Z.abs (t_cy t - cy)) >? cy)
             || ((t_cy t - cy <? 0)
                 && (u32 (cy - (t_cy t - cy)) >? t_rlower t))
             || ((t_cy t - cy >? 0)
                 && (u32 (cy - (t_cy t - cy)) <? t_rupper t))) with true.
    2:{ symmetry. rewrite !Z.gtb_ltb.
        rewrite (u32_small (Z.abs (t_cy t - cy))) by (unfold UINT_MAX; lia).
        destruct Hout as [Hout|Hout].
        - (* upwards, above the region *)
          destruct (Z_lt_ge_dec cy (Z.abs (t_cy t - cy))) as [Hbig|Hsmall].
          + apply Z.ltb_lt in Hbig. rewrite Hbig. reflexivity.
          + rewrite u32_small by (unfold UINT_MAX; lia).
            apply orb_true_iff; right.
            apply andb_true_iff; split; apply Z.ltb_lt; lia.
        - (* downwards, below the region *)
          rewrite (u32_small (cy - (t_cy t - cy))) by (unfold UINT_MAX; lia).
          apply orb_true_iff; left. apply orb_true_iff; right.
          apply andb_true_iff; split; apply Z.ltb_lt; lia. }
    destruct (tty_term_has (the_term t) TTYC_VPA).
    - unfold tty_putcode1. rewrite to_int_small by lia.
      replace (cy <? 0) with false by (symmetry; apply Z.ltb_ge; lia).
      apply cursor_done_puts_event.
    - unfold cursor_absolute, tty_putcode2.
      rewrite !to_int_small by lia.
      replace (cy <? 0) with false by (symmetry; apply Z.ltb_ge; lia).
      replace (t_cx t <? 0) with false by (symmetry; apply Z.ltb_ge; lia).
      apply cursor_done_puts_event. }
  rewrite Hev. cbn [t_event t_cx t_cy set_cursor set_event]. auto.
Qed.

(** ** Style resolution touches the window only *)

Lemma tty_default_colours_frame (gc : grid_cell) (wp : window_pane)
                                (st : state) :
  let st' := snd (tty_default_colours gc wp st) in
  st_tty st' = st_tty st /\ st_log st' = st_log st
  /\ st_pane_flags st' = st_pane_flags st /\ st_fd_out st' = st_fd_out st
  /\ tty_log_fd st' = tty_log_fd st.
Proof.
  unfold tty_default_colours.
  destruct (window_styles (st_window st)) as [agc wgc].
  destruct (has_bit (w_flags (st_window st)) WINDOW_STYLECHANGED);
    cbn [snd]; repeat split; reflexivity.
Qed.

Lemma tty_fake_bce_frame (wp : option window_pane) (st : state) :
  let st' := snd (tty_fake_bce wp st) in
  st_tty st' = st_tty st /\ st_log st' = st_log st
  /\ st_pane_flags st' = st_pane_flags st /\ st_fd_out st' = st_fd_out st
  /\ tty_log_fd st' = tty_log_fd st.
Proof.
  unfold tty_fake_bce. destruct wp as [wp|].
  - pose proof (tty_default_colours_frame grid_default_cell wp st) as H.
    destruct (tty_default_colours grid_default_cell wp st) as [gc st'].
    cbn [snd] in H. destruct (gc_bg gc =? 8); exact H.
  - destruct (gc_bg grid_default_cell =? 8); repeat split; reflexivity.
Qed.

(** ** Line feed *)

(** C6.  [tty_cmd_linefeed] emits nothing and leaves the terminal's
    shadow state (cursor, region, attribute cell, modes, flags and the
    pending output), the log and the pane's flags as they were, when
    the original cursor row is not the original region bottom, and
    also when the native conditions hold (full-width pane, no emulated
    BCE, CSR present), [ctx.num] is nonzero and the terminal is not
    early-wrap. *)
Theorem tty_cmd_linefeed_noop :
  forall (ctx : tty_ctx) (st : state),
    ctx_ocy ctx <> ctx_orlower ctx
    \/ (tty_pane_full_width (st_tty st) ctx = true
        /\ fst (tty_fake_bce (Some (ctx_wp ctx)) st) = false
        /\ tty_term_has (the_term (st_tty st)) TTYC_CSR = true
        /\ ctx_num ctx <> 0
        /\ has_bit (tm_flags (the_term (st_tty st))) TERM_EARLYWRAP = false) ->
    st_tty (tty_cmd_linefeed ctx st) = st_tty st
    /\ st_log (tty_cmd_linefeed ctx st) = st_log st
    /\ st_pane_flags (tty_cmd_linefeed ctx st) = st_pane_flags st
    /\ st_fd_out (tty_cmd_linefeed ctx st) = st_fd_out st.
Proof.
  intros ctx st H. unfold tty_cmd_linefeed.
  destruct (ctx_ocy ctx =? ctx_orlower ctx) eqn:Hrow; cbn [negb].
  2:{ repeat split; reflexivity. }
  destruct H as [H|(Hfull & Hfake & Hcsr & Hnum & Hwrap)].
  { apply Z.eqb_eq in Hrow. contradiction. }
  rewrite Hfull; cbn [negb].
  pose proof (tty_fake_bce_frame (Some (ctx_wp ctx)) st) as Hframe.
  destruct (tty_fake_bce (Some (ctx_wp ctx)) st) as [fake st'].
  cbn [fst snd] in Hfake, Hframe. subst fake.
  rewrite Hcsr, Hwrap. cbn [negb orb].
  apply Z.eqb_neq in Hnum. rewrite Hnum. cbn [negb andb].
  destruct Hframe as (Ht & Hl & Hp & Hf & _). auto.
Qed.

(** ** Invariants of the emission path *)

Lemma ginv_start (P : payload -> Prop) (st : state) :
  GInv P (Some (t_cx (st_tty st), t_cy (st_tty st))) (env_of st)
       (t_event (st_tty st)) st.
Proof.
  split; [reflexivity|]. split; [split; reflexivity|].
  exists []. split; [now rewrite app_nil_r | constructor].
Qed.

Lemma ginv_unpin (P : payload -> Prop) k e pre st :
  GInv P k e pre st -> GInv P None e pre st.
Proof. intros (He & _ & Hev). split; [exact He|]. split; [exact I|exact Hev]. Qed.

Lemma ginv_weaken (P Q : payload -> Prop) k e pre st :
  (forall p, P p -> Q p) -> GInv P k e pre st -> GInv Q k e pre st.
Proof.
  intros HPQ (He & Hk & items & Hev & HP).
  split; [exact He|]. split; [exact Hk|].
  exists items. split; [exact Hev|]. eapply Forall_impl; eauto.
Qed.

Lemma ginv_let_state (P : payload -> Prop) k e pre
                     (v : state) (b : state -> state) :
  GInv P k e pre v ->
  (forall x, GInv P k e pre x -> GInv P k e pre (b x)) ->
  GInv P k e pre (let y := v in b y).
Proof. intros Hv Hb. apply Hb, Hv. Qed.

Lemma ginv_let_value (P : payload -> Prop) k e pre
                     (A : Type) (v : A) (b : A -> state) :
  (forall x, x = v -> GInv P k e pre (b x)) ->
  GInv P k e pre (let y := v in b y).
Proof. intros Hb. now apply Hb. Qed.

Create HintDb ginv.

(** Goals about a field update: the environment and the output are
    untouched by computation. *)
Ltac ginv_struct :=
  lazymatch goal with
  | H : GInv ?P ?k ?e ?pre ?s |- GInv ?P ?k ?e ?pre _ =>
      let He := fresh in
      let Hk := fresh in
      let Hev := fresh in
      destruct H as (He & Hk & Hev);
      split; [exact He|];
      split; [destruct k as [[? ?]|]; [exact Hk | exact I] | exact Hev]
  end.

Ltac ginv_let :=
  lazymatch goal with
  | |- GInv ?P ?k ?e ?pre ?t =>
      lazymatch t with
      | let y := ?v in @?b y =>
          lazymatch type of v with
          | state =>
              refine (ginv_let_state P k e pre v b _ _);
              [ | intros ? ?; cbv beta ]
          | _ =>
              let x := fresh "v" in
              let Hx := fresh "Hv" in
              refine (ginv_let_value P k e pre _ v b _);
              intros x Hx; subst x; cbv beta
          end
      end
  end.

Ltac ginv_case :=
  lazymatch goal with
  | |- GInv _ _ _ _ (if ?c then _ else _) => destruct c eqn:?
  | |- GInv _ _ _ _ (match ?o with Some _ => _ | None => _ end) =>
      destruct o eqn:?
  end.

#[local] Hint Extern 1 (GInv _ _ _ _ (let y := _ in _)) => ginv_let : ginv.
#[local] Hint Extern 1 (GInv _ _ _ _ (if _ then _ else _)) => ginv_case : ginv.
#[local] Hint Extern 1 (GInv _ _ _ _ (match _ with Some _ => _ | None => _ end))
  => ginv_case : ginv.
#[local] Hint Extern 1 (no_erase _) => (cbn; first [exact I | reflexivity]) : ginv.
#[local] Hint Extern 1 (ctl _) => (split; cbn; first [exact I | reflexivity]) : ginv.

Ltac ginv := solve [eauto 200 with ginv nocore].

Section Sink.

Variable P : payload -> Prop.
Variable k : option (Z * Z).
Variable e : env.
Variable pre : list payload.

Lemma bufferevent_write_ginv (p : payload) (st : state) :
  P p -> GInv P k e pre st -> GInv P k e pre (bufferevent_write p st).
Proof.
  intros Hp (He & Hk & items & Hev & HP).
  split; [exact He|].
  split; [destruct k as [[? ?]|]; [exact Hk | exact I]|].
  exists (items ++ [p]). cbn [bufferevent_write with_tty st_tty set_event t_event].
  rewrite Hev, app_assoc. split; [reflexivity|].
  apply Forall_app; split; [exact HP | repeat constructor; exact Hp].
Qed.

Lemma log_write_ginv (p : payload) (st : state) :
  GInv P k e pre st -> GInv P k e pre (log_write p st).
Proof.
  intros H. unfold log_write. destruct (tty_log_fd st =? -1);
    [exact H | ginv_struct].
Qed.

Hint Resolve bufferevent_write_ginv log_write_ginv : ginv.

Lemma tty_puts_ginv (p : payload) (st : state) :
  P p -> GInv P k e pre st -> GInv P k e pre (tty_puts p st).
Proof. intros Hp H. cbv beta delta [tty_puts]. ginv. Qed.

Hint Resolve tty_puts_ginv : ginv.

Lemma tty_putcode_ginv (c : tty_code_code) (st : state) :
  P (PCap c []) -> GInv P k e pre st -> GInv P k e pre (tty_putcode c st).
Proof. intros Hp H. cbv beta delta [tty_putcode]. ginv. Qed.

Lemma tty_putcode1_ginv (c : tty_code_code) (a : Z) (st : state) :
  P (PCap c [a]) -> GInv P k e pre st -> GInv P k e pre (tty_putcode1 c a st).
Proof. intros Hp H. cbv beta delta [tty_putcode1]. ginv. Qed.

Lemma tty_putcode2_ginv (c : tty_code_code) (a b : Z) (st : state) :
  P (PCap c [a; b]) -> GInv P k e pre st ->
  GInv P k e pre (tty_putcode2 c a b st).
Proof. intros Hp H. cbv beta delta [tty_putcode2]. ginv. Qed.

Lemma tty_putcode_ptr1_ginv (c : tty_code_code) (a : option string)
                            (st : state) :
  (forall args, P (PCapPtr c args)) -> GInv P k e pre st ->
  GInv P k e pre (tty_putcode_ptr1 c a st).
Proof. intros Hp H. cbv beta delta [tty_putcode_ptr1]. ginv. Qed.

End Sink.

#[local] Hint Resolve bufferevent_write_ginv log_write_ginv tty_puts_ginv
  tty_putcode_ginv tty_putcode1_ginv tty_putcode2_ginv tty_putcode_ptr1_ginv
  : ginv.

Lemma with_tty_ginv (P : payload -> Prop) k e pre (g : tty -> tty)
                    (st : state) :
  (forall t, t_term (g t) = t_term t) ->
  (forall t, t_event (g t) = t_event t) ->
  (forall t, pinned k t -> pinned k (g t)) ->
  GInv P k e pre st -> GInv P k e pre (with_tty g st).
Proof.
  intros Hterm Hevent Hpin (He & Hk & Hev).
  split; [|split].
  - unfold env_of in *. cbn [with_tty st_tty st_window]. now rewrite Hterm.
  - cbn [with_tty st_tty]. auto.
  - cbn [with_tty st_tty]. now rewrite Hevent.
Qed.

#[local] Hint Extern 1 (GInv _ _ _ _ (with_tty _ _)) =>
  (apply with_tty_ginv;
   [ intros ?; reflexivity | intros ?; reflexivity
   | let Hp := fresh in intros ? Hp; first [exact Hp | exact I] | ]) : ginv.

(** Destructs the pair returned by a call, given the invariant lemma of
    its state component. *)
Ltac ginv_pair lem :=
  lazymatch goal with
  | |- GInv ?P ?k ?e ?pre (match ?pr with pair _ _ => _ end) =>
      let H := fresh "Hpair" in
      assert (H : GInv P k e pre (snd pr)) by (apply lem; ginv);
      destruct pr as [? ?]; cbn [snd] in H
  end.

(** ** The attribute engine moves nothing and paints nothing *)

Section Attributes.

Variable x y : Z.
Variable e : env.
Variable pre : list payload.

#[local] Abbreviation AInv := (GInv ctl (Some (x, y)) e pre).

Lemma tty_set_italics_ginv (st : state) :
  AInv st -> AInv (tty_set_italics st).
Proof. intros H. cbv beta delta [tty_set_italics]. ginv. Qed.

Lemma tty_reset_ginv (st : state) : AInv st -> AInv (tty_reset st).
Proof. intros H. cbv beta delta [tty_reset]. ginv. Qed.

Hint Resolve tty_set_italics_ginv tty_reset_ginv : ginv.

Lemma tty_try_colour_ginv (colour : Z) (type : string) (st : state) :
  AInv st -> AInv (snd (tty_try_colour colour type st)).
Proof.
  intros H. unfold tty_try_colour.
  repeat case_if; cbn [snd]; try ginv.
  destruct (colour_split_rgb (Z.land colour 16777215)) as [[r g] b].
  cbn [snd]. ginv.
Qed.

Hint Extern 1 (GInv _ _ _ _
                 (match tty_try_colour _ _ _ with pair _ _ => _ end)) =>
  ginv_pair tty_try_colour_ginv : ginv.

Lemma tty_colours_fg_ginv (gc : grid_cell) (st : state) :
  AInv st -> AInv (tty_colours_fg gc st).
Proof. intros H. cbv beta delta [tty_colours_fg save_fg]. ginv. Qed.

Lemma tty_colours_bg_ginv (gc : grid_cell) (st : state) :
  AInv st -> AInv (tty_colours_bg gc st).
Proof. intros H. cbv beta delta [tty_colours_bg save_bg]. ginv. Qed.

Hint Resolve tty_colours_fg_ginv tty_colours_bg_ginv : ginv.

Lemma tty_colours_ginv (gc : grid_cell) (st : state) :
  AInv st -> AInv (tty_colours gc st).
Proof. intros H. cbv beta delta [tty_colours save_fg save_bg]. ginv. Qed.

Hint Resolve tty_colours_ginv : ginv.

Lemma tty_default_colours_ginv (P : payload -> Prop) k
                               (gc : grid_cell) (wp : window_pane)
                               (st : state) :
  GInv P k e pre st -> GInv P k e pre (snd (tty_default_colours gc wp st)).
Proof.
  intros (He & Hk & Hev). unfold tty_default_colours.
  destruct (window_styles (st_window st)) as [agc wgc] eqn:Hstyles.
  destruct (has_bit (w_flags (st_window st)) WINDOW_STYLECHANGED) eqn:Hflag;
    cbn [snd].
  - split; [|split; [exact Hk | exact Hev]].
    rewrite <- He. unfold env_of.
    cbn [set_window st_tty st_window w_active]. f_equal. f_equal.
    rewrite Hstyles. unfold window_styles. cbn [w_flags].
    now rewrite clear_bit_off.
  - split; [exact He | split; [exact Hk | exact Hev]].
Qed.

Hint Extern 1 (GInv _ _ _ _
                 (match tty_default_colours _ _ _ with pair _ _ => _ end)) =>
  ginv_pair tty_default_colours_ginv : ginv.

Lemma tty_attributes_ginv (gc : grid_cell) (wp : option window_pane)
                          (st : state) :
  AInv st -> AInv (tty_attributes gc wp st).
Proof.
  intros H. cbv beta delta [tty_attributes].
  destruct wp as [wp|].
  - ginv_pair tty_default_colours_ginv. ginv.
  - ginv.
Qed.

End Attributes.

(** ** Painting emits no bulk primitive *)

Lemma ctl_no_erase (p : payload) : ctl p -> no_erase p.
Proof. now intros [H _]. Qed.

Lemma ctl_no_chardata (p : payload) : ctl p -> no_chardata p.
Proof. now intros [_ H]. Qed.

Lemma putc_payload_no_erase (t : tty) (ch : Z) : no_erase (putc_payload t ch).
Proof.
  unfold putc_payload.
  destruct (has_bit (gc_attr (t_cell t)) GRID_ATTR_CHARSET); [|exact I].
  destruct (tty_acs_get t ch); exact I.
Qed.

Lemma putc_advance_term (t : tty) : t_term (putc_advance t) = t_term t.
Proof. unfold putc_advance. repeat case_if; reflexivity. Qed.

Lemma putc_advance_event (t : tty) : t_event (putc_advance t) = t_event t.
Proof. unfold putc_advance. repeat case_if; reflexivity. Qed.

(** The value of [tty_fake_bce] depends on the environment only. *)
Lemma tty_fake_bce_env (wp : option window_pane) (s s' : state) :
  env_of s = env_of s' ->
  fst (tty_fake_bce wp s) = fst (tty_fake_bce wp s').
Proof.
  unfold env_of. intros He. injection He as Hterm Hstyles Hactive.
  unfold tty_fake_bce. destruct wp as [wp|]; [|reflexivity].
  unfold tty_default_colours. rewrite Hstyles, Hactive.
  destruct (window_styles (st_window s')) as [agc wgc].
  assert (Hsame : forall w w' : window,
             the_term (st_tty (if has_bit (w_flags (st_window s))
                                          WINDOW_STYLECHANGED
                                then set_window w s else s))
             = the_term (st_tty (if has_bit (w_flags (st_window s'))
                                            WINDOW_STYLECHANGED
                                  then set_window w' s' else s'))).
  { intros w w'. unfold the_term.
    destruct (has_bit (w_flags (st_window s)) WINDOW_STYLECHANGED),
      (has_bit (w_flags (st_window s')) WINDOW_STYLECHANGED);
      cbn [set_window st_tty]; now rewrite Hterm. }
  cbv zeta.
  match goal with
  | |- fst (if ?c then _ else _) = fst (if ?c then _ else _) =>
      destruct c; cbn [fst]; [reflexivity|]
  end.
  do 2 f_equal. apply Hsame.
Qed.

Section Painting.

Variable ctx : tty_ctx.
Variable e : env.
Variable pre : list payload.

#[local] Abbreviation Inv := (GInv no_erase None e pre).

(** Bulk erase has to be emulated for the pane of [ctx]. *)
Hypothesis Hfake :
  forall s, env_of s = e -> fst (tty_fake_bce (Some (ctx_wp ctx)) s) = true.

Lemma repeat_st_ginv (n : nat) (f : state -> state) :
  (forall s, Inv s -> Inv (f s)) ->
  forall st, Inv st -> Inv (repeat_st n f st).
Proof.
  intros Hf. induction n as [|n IH]; intros st H; cbn [repeat_st]; auto.
Qed.

Lemma for_st_ginv (n : nat) (body : Z -> state -> state) :
  (forall i s, Inv s -> Inv (body i s)) ->
  forall from st, Inv st -> Inv (for_st n from body st).
Proof.
  intros Hb. induction n as [|n IH]; intros from st H; cbn [for_st]; auto.
Qed.

Hint Extern 1 (GInv _ _ _ _ (repeat_st _ _ _)) =>
  (apply repeat_st_ginv; [intros ? ?; cbv beta | ]) : ginv.
Hint Extern 1 (GInv _ _ _ _ (for_st _ _ _ _)) =>
  (apply for_st_ginv; [intros ? ? ?; cbv beta | ]) : ginv.

Lemma tty_attributes_inv (gc : grid_cell) (wp : option window_pane)
                         (st : state) :
  Inv st -> Inv (tty_attributes gc wp st).
Proof.
  intros (He & _ & items & Hev & HP).
  pose proof (ginv_start ctl st) as H0. rewrite He in H0.
  apply (tty_attributes_ginv _ _ _ _ gc wp) in H0.
  destruct H0 as (He' & _ & items' & Hev' & HP').
  split; [exact He'|]. split; [exact I|].
  exists (items ++ items'). rewrite Hev', Hev, app_assoc.
  split; [reflexivity|].
  apply Forall_app; split; [exact HP|].
  eapply Forall_impl; [apply ctl_no_erase | exact HP'].
Qed.

Lemma tty_putc_inv (ch : Z) (st : state) : Inv st -> Inv (tty_putc ch st).
Proof.
  intros H. cbv beta delta [tty_putc].
  assert (H1 : Inv (bufferevent_write (putc_payload (st_tty st) ch) st))
    by (apply bufferevent_write_ginv; [apply putc_payload_no_erase | exact H]).
  assert (H2 : Inv (with_tty putc_advance
                      (bufferevent_write (putc_payload (st_tty st) ch) st))).
  { apply with_tty_ginv; auto using putc_advance_term, putc_advance_event. }
  cbv zeta. destruct ((32 <=? ch) && negb (ch =? 127));
    apply log_write_ginv; assumption.
Qed.

Lemma tty_putn_inv (buf : list Z) (len width : Z) (st : state) :
  Inv st -> Inv (tty_putn buf len width st).
Proof. intros H. cbv beta delta [tty_putn]. ginv. Qed.

Hint Resolve tty_attributes_inv tty_putc_inv tty_putn_inv : ginv.

Lemma tty_repeat_space_inv (n : Z) (st : state) :
  Inv st -> Inv (tty_repeat_space n st).
Proof. intros H. cbv beta delta [tty_repeat_space]. ginv. Qed.

Lemma tty_force_cursor_colour_inv (c : string) (st : state) :
  Inv st -> Inv (tty_force_cursor_colour c st).
Proof. intros H. cbv beta delta [tty_force_cursor_colour]. ginv. Qed.

Hint Resolve tty_repeat_space_inv tty_force_cursor_colour_inv : ginv.

Lemma tty_update_mode_inv (mode : Z) (s : option screen) (st : state) :
  Inv st -> Inv (tty_update_mode mode s st).
Proof.
  intros H. cbv beta delta [tty_update_mode].
  ginv_let; [ginv|]. do 4 ginv_let.
  case_if; cbv iota beta; ginv.
Qed.

Lemma cursor_done_inv (cx cy : Z) (st : state) :
  Inv st -> Inv (cursor_done cx cy st).
Proof. intros H. cbv beta delta [cursor_done]. ginv. Qed.

Hint Resolve tty_update_mode_inv cursor_done_inv : ginv.

Lemma cursor_absolute_inv (cx cy : Z) (st : state) :
  Inv st -> Inv (cursor_absolute cx cy st).
Proof. intros H. cbv beta delta [cursor_absolute]. ginv. Qed.

Hint Resolve cursor_absolute_inv : ginv.

Lemma cursor_same_row_inv (cx cy : Z) (st : state) :
  Inv st -> Inv (cursor_same_row cx cy st).
Proof. intros H. cbv beta delta [cursor_same_row]. ginv. Qed.

Lemma cursor_same_column_inv (cx cy : Z) (st : state) :
  Inv st -> Inv (cursor_same_column cx cy st).
Proof. intros H. cbv beta delta [cursor_same_column]. ginv. Qed.

Hint Resolve cursor_same_row_inv cursor_same_column_inv : ginv.

Lemma tty_cursor_inv (cx cy : Z) (st : state) :
  Inv st -> Inv (tty_cursor cx cy st).
Proof. intros H. cbv beta delta [tty_cursor]. ginv. Qed.

Hint Resolve tty_cursor_inv : ginv.

Lemma tty_cursor_pane_inv (c : tty_ctx) (cx cy : Z) (st : state) :
  Inv st -> Inv (tty_cursor_pane c cx cy st).
Proof. intros H. cbv beta delta [tty_cursor_pane]. ginv. Qed.

Lemma tty_region_inv (rupper rlower : Z) (st : state) :
  Inv st -> Inv (tty_region rupper rlower st).
Proof. intros H. cbv beta delta [tty_region]. ginv. Qed.

Hint Resolve tty_cursor_pane_inv tty_region_inv : ginv.

Lemma tty_region_pane_inv (c : tty_ctx) (rupper rlower : Z) (st : state) :
  Inv st -> Inv (tty_region_pane c rupper rlower st).
Proof. intros H. cbv beta delta [tty_region_pane]. ginv. Qed.

Lemma tty_cell_inv (gc : grid_cell) (wp : option window_pane) (st : state) :
  Inv st -> Inv (tty_cell gc wp st).
Proof. intros H. cbv beta delta [tty_cell]. ginv. Qed.

Hint Resolve tty_region_pane_inv tty_cell_inv : ginv.

Lemma draw_line_cell_inv (wp : option window_pane) (s : screen) (py i : Z)
                         (st : state) :
  Inv st -> Inv (draw_line_cell wp s py i st).
Proof. intros H. cbv beta delta [draw_line_cell]. ginv. Qed.

Hint Resolve draw_line_cell_inv : ginv.

Lemma tty_fake_bce_inv (wp : option window_pane) (st : state) :
  Inv st -> Inv (snd (tty_fake_bce wp st)).
Proof.
  intros H. unfold tty_fake_bce. destruct wp as [wp|].
  - pose proof (tty_default_colours_ginv e pre no_erase None
                  grid_default_cell wp st H) as H'.
    destruct (tty_default_colours grid_default_cell wp st) as [gc st'].
    cbn [snd] in H'. destruct (gc_bg gc =? 8); exact H'.
  - destruct (gc_bg grid_default_cell =? 8); exact H.
Qed.

(** Under the hypothesis of the section, a call to [tty_fake_bce] for
    the pane of [ctx] answers [true] and keeps the invariant. *)
Ltac ginv_fake :=
  lazymatch goal with
  | |- GInv ?P ?k ?e' ?pre' (match tty_fake_bce ?wp ?s with pair _ _ => _ end) =>
      let Hs := fresh "Hs" in
      let Hv := fresh "Hv" in
      let Hn := fresh "Hn" in
      assert (Hs : GInv P k e' pre' s) by ginv;
      pose proof (Hfake s (proj1 Hs)) as Hv;
      pose proof (tty_fake_bce_inv wp s Hs) as Hn;
      destruct (tty_fake_bce wp s) as [? ?];
      cbn [fst snd] in Hv, Hn; subst;
      cbn [negb andb orb]
  end.

Hint Extern 1 (GInv _ _ _ _
                 (match tty_fake_bce _ _ with pair _ _ => _ end)) =>
  ginv_fake : ginv.

Lemma tty_draw_line_inv (s : screen) (py ox oy : Z) (st : state) :
  Inv st -> Inv (tty_draw_line (Some (ctx_wp ctx)) s py ox oy st).
Proof. intros H. cbv beta delta [tty_draw_line]. ginv. Qed.

Hint Resolve tty_draw_line_inv : ginv.

Lemma tty_draw_pane_inv (py ox oy : Z) (st : state) :
  Inv st -> Inv (tty_draw_pane (ctx_wp ctx) py ox oy st).
Proof. intros H. cbv beta delta [tty_draw_pane]. ginv. Qed.

Hint Resolve tty_draw_pane_inv : ginv.

Lemma set_pane_flags_inv (v : Z) (st : state) :
  Inv st -> Inv (set_pane_flags v st).
Proof. intros H. ginv_struct. Qed.

Hint Resolve set_pane_flags_inv : ginv.

Lemma tty_redraw_region_inv (st : state) :
  Inv st -> Inv (tty_redraw_region ctx st).
Proof. intros H. unfold tty_redraw_region. ginv. Qed.

Hint Resolve tty_redraw_region_inv : ginv.

Lemma line_redraw_guard_inv (code1 : tty_code_code) (st : state) :
  Inv st ->
  fst (line_redraw_guard code1 ctx st) = true
  /\ Inv (snd (line_redraw_guard code1 ctx st)).
Proof.
  intros H. unfold line_redraw_guard.
  destruct (tty_pane_full_width (st_tty st) ctx); cbn [negb fst snd].
  - pose proof (Hfake st (proj1 H)) as Hv.
    pose proof (tty_fake_bce_inv (Some (ctx_wp ctx)) st H) as Hn.
    destruct (tty_fake_bce (Some (ctx_wp ctx)) st) as [fake st'].
    cbn [fst snd] in *. subst fake. split; [reflexivity | exact Hn].
  - split; [reflexivity | exact H].
Qed.

Ltac ginv_guard :=
  lazymatch goal with
  | |- GInv ?P ?k ?e' ?pre'
         (match line_redraw_guard ?c ?x ?s with pair _ _ => _ end) =>
      let Hs := fresh "Hs" in
      let Hg := fresh "Hg" in
      assert (Hs : GInv P k e' pre' s) by ginv;
      pose proof (line_redraw_guard_inv c s Hs) as Hg;
      destruct (line_redraw_guard c x s) as [? ?];
      cbn [fst snd] in Hg; destruct Hg as [? Hg]; subst
  end.

Hint Extern 1 (GInv _ _ _ _
                 (match line_redraw_guard _ _ _ with pair _ _ => _ end)) =>
  ginv_guard : ginv.

Lemma paint_row_inv (j : Z) (st : state) : Inv st -> Inv (paint_row ctx j st).
Proof. intros H. cbv beta delta [paint_row]. ginv. Qed.

Hint Resolve paint_row_inv : ginv.

Lemma tty_cmd_insertcharacter_inv (st : state) :
  Inv st -> Inv (tty_cmd_insertcharacter ctx st).
Proof. intros H. cbv beta delta [tty_cmd_insertcharacter]. ginv. Qed.

Lemma tty_cmd_deletecharacter_inv (st : state) :
  Inv st -> Inv (tty_cmd_deletecharacter ctx st).
Proof. intros H. unfold tty_cmd_deletecharacter. ginv. Qed.

Lemma tty_cmd_clearcharacter_inv (st : state) :
  Inv st -> Inv (tty_cmd_clearcharacter ctx st).
Proof. intros H. unfold tty_cmd_clearcharacter. ginv. Qed.

Lemma tty_cmd_insertline_inv (st : state) :
  Inv st -> Inv (tty_cmd_insertline ctx st).
Proof. intros H. cbv beta delta [tty_cmd_insertline]. ginv. Qed.

Lemma tty_cmd_deleteline_inv (st : state) :
  Inv st -> Inv (tty_cmd_deleteline ctx st).
Proof. intros H. cbv beta delta [tty_cmd_deleteline]. ginv. Qed.

Lemma tty_cmd_clearline_inv (st : state) :
  Inv st -> Inv (tty_cmd_clearline ctx st).
Proof. intros H. cbv beta delta [tty_cmd_clearline]. ginv. Qed.

Lemma tty_cmd_clearendofline_inv (st : state) :
  Inv st -> Inv (tty_cmd_clearendofline ctx st).
Proof. intros H. cbv beta delta [tty_cmd_clearendofline]. ginv. Qed.

Lemma tty_cmd_clearstartofline_inv (st : state) :
  Inv st -> Inv (tty_cmd_clearstartofline ctx st).
Proof. intros H. unfold tty_cmd_clearstartofline. ginv. Qed.

Lemma tty_cmd_clearendofscreen_inv (st : state) :
  Inv st -> Inv (tty_cmd_clearendofscreen ctx st).
Proof. intros H. unfold tty_cmd_clearendofscreen. ginv. Qed.

Lemma tty_cmd_clearstartofscreen_inv (st : state) :
  Inv st -> Inv (tty_cmd_clearstartofscreen ctx st).
Proof. intros H. unfold tty_cmd_clearstartofscreen. ginv. Qed.

Lemma tty_cmd_clearscreen_inv (st : state) :
  Inv st -> Inv (tty_cmd_clearscreen ctx st).
Proof. intros H. unfold tty_cmd_clearscreen. ginv. Qed.

End Painting.

(** The fake-BCE predicate: after default-colour resolution the
    background of the default cell is not 8, and the terminal's BCE
    flag is off. *)
Lemma tty_fake_bce_spec (wp : window_pane) (st : state) :
  fst (tty_fake_bce (Some wp) st)
  = negb (gc_bg (fst (tty_default_colours grid_default_cell wp st)) =? 8)
    && negb (tty_term_flag (the_term (st_tty st)) TTYC_BCE).
Proof.
  unfold tty_fake_bce.
  pose proof (tty_default_colours_frame grid_default_cell wp st) as Hf.
  destruct (tty_default_colours grid_default_cell wp st) as [gc st'].
  cbn [fst snd] in *. destruct Hf as (Ht & _).
  destruct (gc_bg gc =? 8); cbn [fst negb andb]; [reflexivity|].
  now rewrite Ht.
Qed.

(** C10.  For a padding cell, and for a single-byte cell whose byte is
    a control character (below 0x20, or 0x7f), [tty_cell] writes no
    character data (nothing it appends comes from [tty_putc] or
    [tty_putn]) and leaves the shadow cursor where it was; for a
    padding cell the whole state, the shadow attribute cell included,
    is as before. *)
Theorem tty_cell_skips_padding_and_control :
  forall (gc : grid_cell) (wp : option window_pane) (st : state),
    has_bit (gc_flags gc) GRID_FLAG_PADDING = true
    \/ (ud_size (gc_data gc) = 1
        /\ (first_byte gc < 32 \/ first_byte gc = 127)) ->
    (exists items,
        t_event (st_tty (tty_cell gc wp st)) = t_event (st_tty st) ++ items
        /\ Forall no_chardata items)
    /\ t_cx (st_tty (tty_cell gc wp st)) = t_cx (st_tty st)
    /\ t_cy (st_tty (tty_cell gc wp st)) = t_cy (st_tty st)
    /\ (has_bit (gc_flags gc) GRID_FLAG_PADDING = true ->
        tty_cell gc wp st = st).
Proof.
  intros gc wp st Hcell.
  assert (Hnoop : (exists items,
                      t_event (st_tty st) = t_event (st_tty st) ++ items
                      /\ Forall no_chardata items)
                  /\ t_cx (st_tty st) = t_cx (st_tty st)
                  /\ t_cy (st_tty st) = t_cy (st_tty st)).
  { split; [|split; reflexivity].
    exists []. split; [now rewrite app_nil_r | constructor]. }
  unfold tty_cell.
  destruct (has_bit (tm_flags (the_term (st_tty st))) TERM_EARLYWRAP
            && (t_cy (st_tty st) =? u32 (t_sy (st_tty st) - 1))
            && (t_cx (st_tty st) =? u32 (t_sx (st_tty st) - 1))).
  { destruct Hnoop as (Ha & Hb & Hc). auto. }
  destruct (has_bit (gc_flags gc) GRID_FLAG_PADDING) eqn:Hpad.
  { destruct Hnoop as (Ha & Hb & Hc). auto. }
  destruct Hcell as [Hcell|(Hsize & Hbyte)]; [discriminate|].
  rewrite Hsize. cbn [Z.eqb Pos.eqb].
  replace ((first_byte gc <? 32) || (first_byte gc =? 127)) with true.
  2:{ symmetry. apply orb_true_iff.
      destruct Hbyte; [left; apply Z.ltb_lt | right; apply Z.eqb_eq]; auto. }
  pose proof (tty_attributes_ginv _ _ _ _ gc wp st (ginv_start ctl st)) as H.
  destruct H as (_ & (Hx & Hy) & items & Hev & Hctl).
  split; [|split; [exact Hx | split; [exact Hy | discriminate]]].
  exists items. split; [exact Hev|].
  eapply Forall_impl; [apply ctl_no_chardata | exact Hctl].
Qed.

(** ** Members of the terminal that the engine keeps *)

Lemma keeps_let_state (V : Type) (view : tty -> V) (v : V)
                      (e : state) (b : state -> state) :
  Keeps V view v e ->
  (forall x, Keeps V view v x -> Keeps V view v (b x)) ->
  Keeps V view v (let y := e in b y).
Proof. intros He Hb. apply Hb, He. Qed.

Lemma keeps_let_value (V : Type) (view : tty -> V) (v : V)
                      (A : Type) (e : A) (b : A -> state) :
  (forall x, x = e -> Keeps V view v (b x)) ->
  Keeps V view v (let y := e in b y).
Proof. intros Hb. now apply Hb. Qed.

Create HintDb keeps.

Ltac keeps_let :=
  lazymatch goal with
  | |- Keeps ?V ?view ?v ?t =>
      lazymatch t with
      | let y := ?e in @?b y =>
          lazymatch type of e with
          | state =>
              refine (keeps_let_state V view v e b _ _);
              [ | intros ? ?; cbv beta ]
          | _ =>
              let x := fresh "v" in
              let Hx := fresh "Hv" in
              refine (keeps_let_value V view v _ e b _);
              intros x Hx; subst x; cbv beta
          end
      end
  end.

Ltac keeps_case :=
  lazymatch goal with
  | |- Keeps _ _ _ (if ?c then _ else _) => destruct c eqn:?
  | |- Keeps _ _ _ (match ?o with Some _ => _ | None => _ end) =>
      destruct o eqn:?
  end.

(** Destructs the pair returned by a call, given the lemma about its
    state component. *)
Ltac keeps_pair lem :=
  lazymatch goal with
  | |- Keeps ?V ?view ?v (match ?pr with pair _ _ => _ end) =>
      let H := fresh "Hpair" in
      assert (H : Keeps V view v (snd pr))
        by (apply lem; solve [eauto 200 with keeps nocore]);
      destruct pr as [? ?]; cbn [snd] in H
  end.

#[local] Hint Extern 1 (Keeps _ _ _ (let y := _ in _)) => keeps_let : keeps.
#[local] Hint Extern 1 (Keeps _ _ _ (if _ then _ else _)) => keeps_case : keeps.
#[local] Hint Extern 1 (Keeps _ _ _ (match _ with Some _ => _ | None => _ end))
  => keeps_case : keeps.

Ltac keeps := solve [eauto 200 with keeps nocore].

Lemma keeps_with_tty (V : Type) (view : tty -> V) (v : V) (g : tty -> tty)
                     (st : state) :
  (forall t, view (g t) = view t) ->
  Keeps V view v st -> Keeps V view v (with_tty g st).
Proof. unfold Keeps. intros Hg H. cbn [with_tty st_tty]. now rewrite Hg. Qed.

Section View.

Variable V : Type.
Variable view : tty -> V.
Variable v : V.

#[local] Abbreviation K := (Keeps V view v).

Hypothesis view_event : forall e t, view (set_event e t) = view t.

Lemma bufferevent_write_keeps (p : payload) (st : state) :
  K st -> K (bufferevent_write p st).
Proof.
  intros H. apply keeps_with_tty; [|exact H]. intros t. apply view_event.
Qed.

Lemma set_log_keeps (l : list payload) (st : state) : K st -> K (set_log l st).
Proof. intros H. exact H. Qed.

Lemma set_pane_flags_keeps (f : Z) (st : state) :
  K st -> K (set_pane_flags f st).
Proof. intros H. exact H. Qed.

Lemma set_window_keeps (w : window) (st : state) : K st -> K (set_window w st).
Proof. intros H. exact H. Qed.

Hint Resolve bufferevent_write_keeps set_log_keeps set_pane_flags_keeps
  set_window_keeps : keeps.

Lemma log_write_keeps (p : payload) (st : state) : K st -> K (log_write p st).
Proof. intros H. cbv beta delta [log_write]. keeps. Qed.

Hint Resolve log_write_keeps : keeps.

Lemma tty_puts_keeps (p : payload) (st : state) : K st -> K (tty_puts p st).
Proof. intros H. cbv beta delta [tty_puts]. keeps. Qed.

Hint Resolve tty_puts_keeps : keeps.

Lemma tty_putcode_keeps (c : tty_code_code) (st : state) :
  K st -> K (tty_putcode c st).
Proof. intros H. cbv beta delta [tty_putcode]. keeps. Qed.

Lemma tty_putcode1_keeps (c : tty_code_code) (a : Z) (st : state) :
  K st -> K (tty_putcode1 c a st).
Proof. intros H. cbv beta delta [tty_putcode1]. keeps. Qed.

Lemma tty_putcode2_keeps (c : tty_code_code) (a b : Z) (st : state) :
  K st -> K (tty_putcode2 c a b st).
Proof. intros H. cbv beta delta [tty_putcode2]. keeps. Qed.

Lemma tty_putcode_ptr1_keeps (c : tty_code_code) (a : option string)
                             (st : state) :
  K st -> K (tty_putcode_ptr1 c a st).
Proof. intros H. cbv beta delta [tty_putcode_ptr1]. keeps. Qed.

Hint Resolve tty_putcode_keeps tty_putcode1_keeps tty_putcode2_keeps
  tty_putcode_ptr1_keeps : keeps.

Lemma tty_set_italics_keeps (st : state) : K st -> K (tty_set_italics st).
Proof. intros H. cbv beta delta [tty_set_italics]. keeps. Qed.

Lemma repeat_st_keeps (n : nat) (f : state -> state) :
  (forall s, K s -> K (f s)) -> forall st, K st -> K (repeat_st n f st).
Proof.
  intros Hf. induction n as [|n IH]; intros st H; cbn [repeat_st]; auto.
Qed.

Lemma for_st_keeps (n : nat) (body : Z -> state -> state) :
  (forall i s, K s -> K (body i s)) ->
  forall from st, K st -> K (for_st n from body st).
Proof.
  intros Hb. induction n as [|n IH]; intros from st H; cbn [for_st]; auto.
Qed.

Hint Extern 1 (Keeps _ _ _ (repeat_st _ _ _)) =>
  (apply repeat_st_keeps; [intros ? ?; cbv beta | ]) : keeps.
Hint Extern 1 (Keeps _ _ _ (for_st _ _ _ _)) =>
  (apply for_st_keeps; [intros ? ? ?; cbv beta | ]) : keeps.

Lemma tty_emulate_repeat_keeps (c c1 : tty_code_code) (n : Z) (st : state) :
  K st -> K (tty_emulate_repeat c c1 n st).
Proof. intros H. cbv beta delta [tty_emulate_repeat]. keeps. Qed.

Lemma tty_try_colour_keeps (colour : Z) (type : string) (st : state) :
  K st -> K (snd (tty_try_colour colour type st)).
Proof.
  intros H. unfold tty_try_colour.
  repeat case_if; cbn [snd]; try keeps.
  destruct (colour_split_rgb (Z.land colour 16777215)) as [[r g] b].
  cbn [snd]. keeps.
Qed.

Lemma tty_default_colours_keeps (gc : grid_cell) (wp : window_pane)
                                (st : state) :
  K st -> K (snd (tty_default_colours gc wp st)).
Proof.
  intros H. unfold Keeps.
  destruct (tty_default_colours_frame gc wp st) as (Ht & _).
  now rewrite Ht.
Qed.

Lemma tty_fake_bce_keeps (wp : option window_pane) (st : state) :
  K st -> K (snd (tty_fake_bce wp st)).
Proof.
  intros H. unfold Keeps.
  destruct (tty_fake_bce_frame wp st) as (Ht & _).
  now rewrite Ht.
Qed.

Hint Resolve tty_set_italics_keeps tty_emulate_repeat_keeps : keeps.

Hint Extern 1 (Keeps _ _ _ (match tty_try_colour _ _ _ with pair _ _ => _ end))
  => keeps_pair tty_try_colour_keeps : keeps.
Hint Extern 1 (Keeps _ _ _
                 (match tty_default_colours _ _ _ with pair _ _ => _ end))
  => keeps_pair tty_default_colours_keeps : keeps.
Hint Extern 1 (Keeps _ _ _ (match tty_fake_bce _ _ with pair _ _ => _ end))
  => keeps_pair tty_fake_bce_keeps : keeps.

Section ViewCell.

Hypothesis view_cell : forall c t, view (set_cell c t) = view t.

Hint Extern 1 (Keeps _ _ _ (with_tty _ _)) =>
  (apply keeps_with_tty; [intros ?; apply view_cell | ]) : keeps.

Lemma tty_reset_keeps (st : state) : K st -> K (tty_reset st).
Proof. intros H. cbv beta delta [tty_reset]. keeps. Qed.

Hint Resolve tty_reset_keeps : keeps.

Lemma tty_colours_fg_keeps (gc : grid_cell) (st : state) :
  K st -> K (tty_colours_fg gc st).
Proof. intros H. cbv beta delta [tty_colours_fg save_fg]. keeps. Qed.

Lemma tty_colours_bg_keeps (gc : grid_cell) (st : state) :
  K st -> K (tty_colours_bg gc st).
Proof. intros H. cbv beta delta [tty_colours_bg save_bg]. keeps. Qed.

Hint Resolve tty_colours_fg_keeps tty_colours_bg_keeps : keeps.

Lemma tty_colours_keeps (gc : grid_cell) (st : state) :
  K st -> K (tty_colours gc st).
Proof. intros H. cbv beta delta [tty_colours save_fg save_bg]. keeps. Qed.

Hint Resolve tty_colours_keeps : keeps.

Lemma tty_attributes_keeps (gc : grid_cell) (wp : option window_pane)
                           (st : state) :
  K st -> K (tty_attributes gc wp st).
Proof.
  intros H. cbv beta delta [tty_attributes].
  destruct wp as [wp|].
  - keeps_pair tty_default_colours_keeps. keeps.
  - keeps.
Qed.

End ViewCell.

End View.

#[local] Hint Resolve bufferevent_write_keeps set_log_keeps
  set_pane_flags_keeps set_window_keeps log_write_keeps tty_puts_keeps
  tty_putcode_keeps tty_putcode1_keeps tty_putcode2_keeps
  tty_putcode_ptr1_keeps tty_set_italics_keeps tty_emulate_repeat_keeps
  tty_reset_keeps tty_colours_fg_keeps tty_colours_bg_keeps
  tty_colours_keeps tty_attributes_keeps : keeps.

#[local] Hint Extern 1 (Keeps _ _ _ (repeat_st _ _ _)) =>
  (apply repeat_st_keeps; [intros ? ?; cbv beta | ]) : keeps.
#[local] Hint Extern 1 (Keeps _ _ _ (for_st _ _ _ _)) =>
  (apply for_st_keeps; [intros ? ? ?; cbv beta | ]) : keeps.
#[local] Hint Extern 1
  (Keeps _ _ _ (match tty_fake_bce _ _ with pair _ _ => _ end))
  => keeps_pair tty_fake_bce_keeps : keeps.
#[local] Hint Extern 1 (forall (e : list payload) (t : tty), _ = _) =>
  (intros ? ?; reflexivity) : keeps.
#[local] Hint Extern 1 (forall (c : grid_cell) (t : tty), _ = _) =>
  (intros ? ?; reflexivity) : keeps.
#[local] Hint Extern 1 (Keeps _ _ _ (with_tty _ _)) =>
  (apply keeps_with_tty; [intros ?; reflexivity | ]) : keeps.

Lemma flags_restore (f : Z) :
  Z.lor (clear_bit (set_bit f TTY_NOCURSOR) TTY_NOCURSOR)
        (Z.land f TTY_NOCURSOR) = f.
Proof.
  unfold clear_bit, set_bit. apply Z.bits_inj'. intros n Hn.
  rewrite Z.lor_spec, !Z.land_spec, Z.lor_spec, Z.lnot_spec by exact Hn.
  destruct (Z.testbit f n), (Z.testbit TTY_NOCURSOR n); reflexivity.
Qed.

Section Static.

Variable v : Z * Z * Z * string * option tty_term * Z * Z * Z.

#[local] Abbreviation S := (Keeps _ static_of v).

Lemma putc_advance_static (t : tty) :
  static_of (putc_advance t) = static_of t.
Proof. unfold putc_advance. repeat case_if; reflexivity. Qed.

Lemma tty_putc_keeps (ch : Z) (st : state) : S st -> S (tty_putc ch st).
Proof.
  intros H. cbv beta delta [tty_putc].
  keeps_let; [keeps|]. keeps_let.
  - keeps_case; [|assumption].
    apply keeps_with_tty; [apply putc_advance_static | assumption].
  - keeps.
Qed.

Lemma tty_putn_keeps (buf : list Z) (len width : Z) (st : state) :
  S st -> S (tty_putn buf len width st).
Proof. intros H. cbv beta delta [tty_putn]. keeps. Qed.

Hint Resolve tty_putc_keeps tty_putn_keeps : keeps.

Lemma tty_repeat_space_keeps (n : Z) (st : state) :
  S st -> S (tty_repeat_space n st).
Proof. intros H. cbv beta delta [tty_repeat_space]. keeps. Qed.

Lemma tty_force_cursor_colour_keeps (c : string) (st : state) :
  S st -> S (tty_force_cursor_colour c st).
Proof. intros H. cbv beta delta [tty_force_cursor_colour]. keeps. Qed.

Hint Resolve tty_repeat_space_keeps tty_force_cursor_colour_keeps : keeps.

Lemma tty_update_mode_keeps (mode : Z) (s : option screen) (st : state) :
  S st -> S (tty_update_mode mode s st).
Proof.
  intros H. cbv beta delta [tty_update_mode].
  keeps_let; [keeps|]. do 4 keeps_let.
  case_if; cbv iota beta; keeps.
Qed.

Lemma cursor_done_keeps (cx cy : Z) (st : state) :
  S st -> S (cursor_done cx cy st).
Proof. intros H. cbv beta delta [cursor_done]. keeps. Qed.

Hint Resolve tty_update_mode_keeps cursor_done_keeps : keeps.

Lemma cursor_absolute_keeps (cx cy : Z) (st : state) :
  S st -> S (cursor_absolute cx cy st).
Proof. intros H. cbv beta delta [cursor_absolute]. keeps. Qed.

Hint Resolve cursor_absolute_keeps : keeps.

Lemma cursor_same_row_keeps (cx cy : Z) (st : state) :
  S st -> S (cursor_same_row cx cy st).
Proof. intros H. cbv beta delta [cursor_same_row]. keeps. Qed.

Lemma cursor_same_column_keeps (cx cy : Z) (st : state) :
  S st -> S (cursor_same_column cx cy st).
Proof. intros H. cbv beta delta [cursor_same_column]. keeps. Qed.

Hint Resolve cursor_same_row_keeps cursor_same_column_keeps : keeps.

Lemma tty_cursor_keeps (cx cy : Z) (st : state) :
  S st -> S (tty_cursor cx cy st).
Proof. intros H. cbv beta delta [tty_cursor]. keeps. Qed.

Hint Resolve tty_cursor_keeps : keeps.

Lemma tty_cursor_pane_keeps (c : tty_ctx) (cx cy : Z) (st : state) :
  S st -> S (tty_cursor_pane c cx cy st).
Proof. intros H. cbv beta delta [tty_cursor_pane]. keeps. Qed.

Lemma tty_region_keeps (rupper rlower : Z) (st : state) :
  S st -> S (tty_region rupper rlower st).
Proof. intros H. cbv beta delta [tty_region]. keeps. Qed.

Hint Resolve tty_cursor_pane_keeps tty_region_keeps : keeps.

Lemma tty_region_pane_keeps (c : tty_ctx) (rupper rlower : Z) (st : state) :
  S st -> S (tty_region_pane c rupper rlower st).
Proof. intros H. cbv beta delta [tty_region_pane]. keeps. Qed.

Lemma tty_cell_keeps (gc : grid_cell) (wp : option window_pane) (st : state) :
  S st -> S (tty_cell gc wp st).
Proof. intros H. cbv beta delta [tty_cell]. keeps. Qed.

Hint Resolve tty_region_pane_keeps tty_cell_keeps : keeps.

Lemma draw_line_cell_keeps (wp : option window_pane) (s : screen) (py i : Z)
                           (st : state) :
  S st -> S (draw_line_cell wp s py i st).
Proof. intros H. cbv beta delta [draw_line_cell]. keeps. Qed.

End Static.

#[local] Hint Resolve tty_putc_keeps tty_putn_keeps tty_repeat_space_keeps
  tty_force_cursor_colour_keeps tty_update_mode_keeps cursor_done_keeps
  cursor_absolute_keeps cursor_same_row_keeps cursor_same_column_keeps
  tty_cursor_keeps tty_cursor_pane_keeps tty_region_keeps
  tty_region_pane_keeps tty_cell_keeps draw_line_cell_keeps : keeps.

Lemma keeps_let_carry (V : Type) (view : tty -> V) (v v' : V)
                      (e : state) (b : state -> state) :
  Keeps V view v' e ->
  (forall x, Keeps V view v' x -> Keeps V view v (b x)) ->
  Keeps V view v (let y := e in b y).
Proof. intros He Hb. apply Hb, He. Qed.

(** Steps over one [let] of a body whose invariant is [v'] while the
    goal is about [v]. *)
Ltac carry v' :=
  lazymatch goal with
  | |- Keeps ?V ?view ?v ?t =>
      lazymatch t with
      | let y := ?e in @?b y =>
          lazymatch type of e with
          | state =>
              refine (keeps_let_carry V view v v' e b _ _);
              [ | intros ? ?; cbv beta ]
          | _ =>
              let x := fresh "v" in
              let Hx := fresh "Hv" in
              refine (keeps_let_value V view v _ e b _);
              intros x Hx; subst x; cbv beta
          end
      end
  end.

Lemma tty_draw_line_keeps v (wp : option window_pane) (s : screen)
                          (py ox oy : Z) (st : state) :
  Keeps _ static_of v st -> Keeps _ static_of v (tty_draw_line wp s py ox oy st).
Proof.
  intros H. cbv beta delta [tty_draw_line].
  keeps_let.
  pose (v1 := static_of
                (set_flags (set_bit (t_flags (st_tty st)) TTY_NOCURSOR)
                           (st_tty st))).
  carry v1; [reflexivity|].
  carry v1; [keeps|].
  do 5 carry v1.
  carry v1; [keeps|].
  carry v1; [keeps|].
  carry v1; [keeps|].
  keeps_let; [|keeps].
  unfold Keeps in *. cbn [with_tty st_tty]. subst v1.
  unfold static_of in *. cbn [set_flags t_client t_sx t_sy t_termname t_term
                               t_fd t_flags t_term_flags] in *.
  match goal with
  | Hx : _ = (_, _, _, _, _, _, set_bit _ _, _) |- _ =>
      injection Hx as -> -> -> -> -> -> -> ->
  end.
  now rewrite flags_restore.
Qed.

#[local] Hint Resolve tty_draw_line_keeps : keeps.

Section StaticHandlers.

Variable v : Z * Z * Z * string * option tty_term * Z * Z * Z.
Variable ctx : tty_ctx.

#[local] Abbreviation S := (Keeps _ static_of v).

Lemma tty_draw_pane_keeps (wp : window_pane) (py ox oy : Z) (st : state) :
  S st -> S (tty_draw_pane wp py ox oy st).
Proof. intros H. cbv beta delta [tty_draw_pane]. keeps. Qed.

Hint Resolve tty_draw_pane_keeps : keeps.

Lemma tty_redraw_region_keeps (st : state) : S st -> S (tty_redraw_region ctx st).
Proof. intros H. unfold tty_redraw_region. keeps. Qed.

Lemma el_row_keeps (last : bool) (st : state) : S st -> S (el_row last st).
Proof. intros H. cbv beta delta [el_row]. keeps. Qed.

Lemma paint_row_keeps (j : Z) (st : state) : S st -> S (paint_row ctx j st).
Proof. intros H. cbv beta delta [paint_row]. keeps. Qed.

Lemma line_redraw_guard_keeps (c : tty_code_code) (st : state) :
  S st -> S (snd (line_redraw_guard c ctx st)).
Proof.
  intros H. unfold line_redraw_guard.
  case_if; cbn [snd]; [exact H|].
  pose proof (tty_fake_bce_keeps _ static_of v (Some (ctx_wp ctx)) st H) as Hf.
  destruct (tty_fake_bce (Some (ctx_wp ctx)) st). exact Hf.
Qed.

Hint Resolve tty_redraw_region_keeps el_row_keeps paint_row_keeps : keeps.
Hint Extern 1
  (Keeps _ _ _ (match line_redraw_guard _ _ _ with pair _ _ => _ end))
  => keeps_pair line_redraw_guard_keeps : keeps.

Lemma run_command_keeps (cmd : bce_command) (st : state) :
  S st -> S (run_command cmd ctx st).
Proof.
  intros H. destruct cmd; cbn [run_command].
  - unfold tty_cmd_insertcharacter. keeps.
  - unfold tty_cmd_deletecharacter. keeps.
  - unfold tty_cmd_clearcharacter. keeps.
  - cbv beta delta [tty_cmd_insertline]. keeps.
  - cbv beta delta [tty_cmd_deleteline]. keeps.
  - unfold tty_cmd_clearline. keeps.
  - unfold tty_cmd_clearendofline. keeps.
  - unfold tty_cmd_clearstartofline. keeps.
  - unfold tty_cmd_clearendofscreen. keeps.
  - unfold tty_cmd_clearstartofscreen. keeps.
  - unfold tty_cmd_clearscreen. keeps.
Qed.

Lemma run_any_keeps (cmd : any_command) (st : state) :
  S st -> S (run_any cmd ctx st).
Proof.
  intros H. destruct cmd as [cmd| | | | | |]; cbn [run_any].
  - now apply run_command_keeps.
  - cbv beta delta [tty_cmd_reverseindex]. keeps.
  - cbv beta delta [tty_cmd_linefeed]. do 2 keeps_let.
    keeps_case; [exact H|].
    destruct (tty_pane_full_width (st_tty st) ctx); cbn [negb]; cbv iota beta.
    + pose proof (tty_fake_bce_keeps _ static_of v (Some (ctx_wp ctx)) st H)
        as Hf.
      destruct (tty_fake_bce (Some (ctx_wp ctx)) st) as [fake st'].
      cbn [snd] in Hf. keeps.
    + keeps.
  - unfold tty_cmd_alignmenttest. keeps.
  - unfold tty_cmd_cell. keeps.
  - unfold tty_cmd_utf8character. keeps.
  - unfold tty_cmd_rawstring. keeps.
Qed.

End StaticHandlers.

(** X1.  No command handler changes the terminal's size, flags, flag
    overrides, description, name, descriptor or client: whatever a
    handler does to the cursor, region, cell, modes and output, those
    members are afterwards what they were. *)
Theorem handlers_keep_static :
  forall (cmd : any_command) (ctx : tty_ctx) (st : state),
    static_of (st_tty (run_any cmd ctx st)) = static_of (st_tty st).
Proof.
  intros cmd ctx st.
  exact (run_any_keeps (static_of (st_tty st)) ctx cmd st eq_refl).
Qed.

(** X2.  After [tty_draw_line] the terminal's flags, TTY_NOCURSOR
    included, and its other static members (client, size, terminal
    name and description, file descriptor, user terminal flags) are
    exactly what they were before the line was drawn, whatever the
    value of TTY_NOCURSOR was on entry. *)
Theorem tty_draw_line_restores_flags :
  forall (wp : option window_pane) (s : screen) (py ox oy : Z) (st : state),
    static_of (st_tty (tty_draw_line wp s py ox oy st))
    = static_of (st_tty st).
Proof.
  intros wp s py ox oy st.
  exact (tty_draw_line_keeps (static_of (st_tty st)) wp s py ox oy st
           eq_refl).
Qed.

(** X3.  [tty_attributes] changes nothing of the terminal but the
    shadow cell and the output: the cursor, the scroll region, the
    size, the modes, the cursor style and colour and the flags are
    afterwards what they were. *)
Theorem tty_attributes_frame :
  forall (gc : grid_cell) (wp : option window_pane) (st : state),
    frame_of (st_tty (tty_attributes gc wp st)) = frame_of (st_tty st).
Proof.
  intros gc wp st.
  apply (tty_attributes_keeps _ frame_of (frame_of (st_tty st))).
  - intros e t. reflexivity.
  - intros c t. reflexivity.
  - reflexivity.
Qed.

(** ** The region setter *)

Lemma moved_to_tty (cx cy : Z) (st st' : state) :
  moved_to cx cy st st' ->
  t_cx (st_tty st') = cx /\ t_cy (st_tty st') = cy
  /\ t_rupper (st_tty st') = t_rupper (st_tty st)
  /\ t_rlower (st_tty st') = t_rlower (st_tty st)
  /\ t_sx (st_tty st') = t_sx (st_tty st)
  /\ t_term (st_tty st') = t_term (st_tty st).
Proof. intros [items H]. rewrite H. repeat split; reflexivity. Qed.

Lemma only_emits_tty (st st' : state) :
  only_emits st st' ->
  t_cx (st_tty st') = t_cx (st_tty st) /\ t_cy (st_tty st') = t_cy (st_tty st)
  /\ t_rupper (st_tty st') = t_rupper (st_tty st)
  /\ t_rlower (st_tty st') = t_rlower (st_tty st)
  /\ t_sx (st_tty st') = t_sx (st_tty st)
  /\ t_term (st_tty st') = t_term (st_tty st).
Proof. intros [items H]. rewrite H. repeat split; reflexivity. Qed.

Lemma clamp_cx_zero (t : tty) : clamp_cx t 0 = 0.
Proof.
  unfold clamp_cx. destruct (0 >? u32 (t_sx t - 1)) eqn:H; [|reflexivity].
  zbool. unfold u32 in *.
  pose proof (Z.mod_pos_bound (t_sx t - 1) 4294967296 eq_refl). lia.
Qed.

(** What [tty_region] leaves when it does program the region. *)
Lemma tty_region_programmed (rupper rlower : Z) (st : state) :
  (t_rlower (st_tty st) =? rlower) && (t_rupper (st_tty st) =? rupper) = false ->
  tty_term_has (the_term (st_tty st)) TTYC_CSR = true ->
  let st' := tty_region rupper rlower st in
  t_rupper (st_tty st') = rupper /\ t_rlower (st_tty st') = rlower
  /\ t_cx (st_tty st') = 0 /\ t_cy (st_tty st') = 0.
Proof.
  intros Hne Hcsr. cbv zeta. unfold tty_region. rewrite Hne, Hcsr. cbn [negb].
  set (st1 := with_tty (set_region rupper rlower) st).
  set (st2 := if t_cx (st_tty st1) >=? t_sx (st_tty st1)
              then tty_cursor 0 (t_cy (st_tty st1)) st1 else st1).
  assert (H2 : t_rupper (st_tty st2) = rupper /\ t_rlower (st_tty st2) = rlower).
  { subst st2. case_if; [|split; reflexivity].
    destruct (moved_to_tty _ _ _ _
                (tty_cursor_moved 0 (t_cy (st_tty st1)) st1))
      as (_ & _ & Hu & Hl & _).
    rewrite Hu, Hl. split; reflexivity. }
  destruct H2 as [Hu2 Hl2].
  set (st3 := tty_putcode2 TTYC_CSR (to_int (t_rupper (st_tty st2)))
                           (to_int (t_rlower (st_tty st2))) st2).
  destruct (only_emits_tty st2 st3 (tty_putcode2_only_emits _ _ _ st2))
    as (_ & _ & Hu3 & Hl3 & _).
  destruct (moved_to_tty _ _ _ _ (tty_cursor_moved 0 0 st3))
    as (Hx & Hy & Hu & Hl & _).
  rewrite Hx, Hy, Hu, Hl, Hu3, Hl3, clamp_cx_zero. auto.
Qed.

(** X4.  [tty_region] is idempotent: a second call with the same
    bounds returns the state the first call produced, on every
    terminal, with or without CSR. *)
Theorem tty_region_idempotent :
  forall (rupper rlower : Z) (st : state),
    tty_region rupper rlower (tty_region rupper rlower st)
    = tty_region rupper rlower st.
Proof.
  intros rupper rlower st.
  destruct ((t_rlower (st_tty st) =? rlower)
            && (t_rupper (st_tty st) =? rupper)) eqn:Hsame.
  { unfold tty_region. rewrite Hsame. now rewrite Hsame. }
  destruct (tty_term_has (the_term (st_tty st)) TTYC_CSR) eqn:Hcsr.
  2:{ unfold tty_region. rewrite Hsame, Hcsr. cbn [negb].
      now rewrite Hsame, Hcsr. }
  destruct (tty_region_programmed rupper rlower st Hsame Hcsr)
    as (Hu & Hl & _).
  remember (tty_region rupper rlower st) as st' eqn:Hst'.
  unfold tty_region at 1. now rewrite Hu, Hl, !Z.eqb_refl.
Qed.

(** X5.  On a terminal with CSR, [tty_region] called with bounds that
    differ from the shadow region records the new bounds and leaves the
    shadow cursor at the origin, where CSR parks the real cursor. *)
Theorem tty_region_parks_cursor :
  forall (rupper rlower : Z) (st : state),
    tty_term_has (the_term (st_tty st)) TTYC_CSR = true ->
    t_rupper (st_tty st) <> rupper \/ t_rlower (st_tty st) <> rlower ->
    t_rupper (st_tty (tty_region rupper rlower st)) = rupper
    /\ t_rlower (st_tty (tty_region rupper rlower st)) = rlower
    /\ t_cx (st_tty (tty_region rupper rlower st)) = 0
    /\ t_cy (st_tty (tty_region rupper rlower st)) = 0.
Proof.
  intros rupper rlower st Hcsr Hne.
  apply tty_region_programmed; [|exact Hcsr].
  apply andb_false_iff.
  destruct Hne as [Hne|Hne]; [right|left]; now apply Z.eqb_neq.
Qed.

(** ** Moving from an unknown or pending-wrap position *)

Lemma tty_cursor_beyond (cx cy : Z) (st : state) :
  u32 (t_sx (st_tty st) - 1) < t_cx (st_tty st) ->
  tty_cursor cx cy st = cursor_absolute (clamp_cx (st_tty st) cx) cy st.
Proof.
  intros Hwrap. pose proof (clamp_cx_le (st_tty st) cx) as Hle.
  unfold tty_cursor.
  replace (clamp_cx (st_tty st) cx =? t_cx (st_tty st)) with false
    by (symmetry; apply Z.eqb_neq; lia).
  cbn [andb].
  replace (t_cx (st_tty st) >? u32 (t_sx (st_tty st) - 1)) with true
    by (symmetry; rewrite Z.gtb_ltb; apply Z.ltb_lt; lia).
  reflexivity.
Qed.

(** X6.  When the shadow column is beyond the last column (after a
    write into the last column, or as the "unknown" sentinel) and the
    target row and the clamped target column fit a C [int] (they are
    below 2^31), [tty_cursor] never uses a relative move: it emits
    exactly the absolute CUP for the target row and the clamped target
    column, and records that position. *)
Theorem tty_cursor_absolute_after_wrap :
  forall (cx cy : Z) (st : state),
    let t := st_tty st in
    u32 (t_sx t - 1) < t_cx t ->
    0 <= cy < 2147483648 ->
    0 <= clamp_cx t cx < 2147483648 ->
    t_event (st_tty (tty_cursor cx cy st))
    = t_event t ++ emit t (PCap TTYC_CUP [cy; clamp_cx t cx])
    /\ t_cx (st_tty (tty_cursor cx cy st)) = clamp_cx t cx
    /\ t_cy (st_tty (tty_cursor cx cy st)) = cy.
Proof.
  intros cx cy st t Hwrap Hcy Hcx.
  rewrite (tty_cursor_beyond cx cy st Hwrap). fold t.
  unfold cursor_absolute, tty_putcode2.
  rewrite !to_int_small by lia.
  replace (cy <? 0) with false by (symmetry; apply Z.ltb_ge; lia).
  replace (clamp_cx t cx <? 0) with false by (symmetry; apply Z.ltb_ge; lia).
  cbn [orb]. rewrite cursor_done_puts_event.
  repeat split; reflexivity.
Qed.

(** ** Style cache *)

(** X7.  Resolving default colours refreshes the window's style cache
    at most once: a second resolution of the same cell returns the
    same cell and leaves the state, the window included, as the first
    one left it. *)
Theorem tty_default_colours_settles :
  forall (gc : grid_cell) (wp : window_pane) (st : state),
    tty_default_colours gc wp (snd (tty_default_colours gc wp st))
    = tty_default_colours gc wp st.
Proof.
  intros gc wp st. unfold tty_default_colours at 2 3.
  destruct (window_styles (st_window st)) as [agc wgc] eqn:Hstyles.
  destruct (has_bit (w_flags (st_window st)) WINDOW_STYLECHANGED) eqn:Hflag;
    cbn [snd].
  - unfold tty_default_colours, window_styles.
    cbn [set_window st_window w_flags w_active w_active_style w_style].
    rewrite clear_bit_off. reflexivity.
  - unfold tty_default_colours. rewrite Hstyles, Hflag. reflexivity.
Qed.

(** ** Colour downgrade *)

Lemma small_has_no_flag (x : Z) :
  0 <= x < 16777216 ->
  has_bit x COLOUR_FLAG_256 = false /\ has_bit x COLOUR_FLAG_RGB = false.
Proof.
  intros Hx. unfold has_bit.
  assert (Hm : x = Z.land x (Z.ones 24)).
  { rewrite Z.land_ones by lia. symmetry. apply Z.mod_small.
    change (2 ^ 24) with 16777216. lia. }
  split; rewrite Hm, <- Z.land_assoc.
  - change (Z.land (Z.ones 24) COLOUR_FLAG_256) with 0.
    now rewrite Z.land_0_r.
  - change (Z.land (Z.ones 24) COLOUR_FLAG_RGB) with 0.
    now rewrite Z.land_0_r.
Qed.

Lemma land7_range (x : Z) : 0 <= Z.land x 7 <= 7.
Proof.
  assert (H : Z.land x 7 = x mod 8)
    by (change 7 with (Z.ones 3); rewrite Z.land_ones by lia; reflexivity).
  rewrite H. pose proof (Z.mod_pos_bound x 8 eq_refl). lia.
Qed.

Lemma no_bit8_below_8 (x : Z) :
  0 <= x <= 15 -> has_bit x 8 = false -> x < 8.
Proof.
  intros Hx Hbit. unfold has_bit in Hbit.
  apply negb_false_iff, Z.eqb_eq in Hbit.
  destruct (Z_lt_ge_dec x 8) as [|Hge]; [assumption|exfalso].
  assert (Hc : x = 8 \/ x = 9 \/ x = 10 \/ x = 11 \/ x = 12 \/ x = 13
               \/ x = 14 \/ x = 15) by lia.
  repeat (destruct Hc as [Hc|Hc]; [rewrite Hc in Hbit; discriminate|]).
  rewrite Hc in Hbit; discriminate.
Qed.

(** A cell whose foreground is a plain colour below the tags and is
    not an aixterm colour that the terminal cannot show is left alone
    by [tty_check_fg]. *)
Lemma tty_check_fg_plain (t : tty) (gc : grid_cell) :
  0 <= gc_fg gc < 16777216 ->
  (90 <= gc_fg gc <= 97 -> 16 <= u32 (tty_term_number (the_term t) TTYC_COLORS)) ->
  tty_check_fg t gc = gc.
Proof.
  intros Hfg Haix. unfold tty_check_fg.
  destruct (small_has_no_flag _ Hfg) as [H256 Hrgb].
  rewrite Hrgb, H256. cbn [andb].
  case_if; [|reflexivity]. zbool. exfalso. lia.
Qed.

Lemma tty_check_bg_plain (t : tty) (gc : grid_cell) :
  0 <= gc_bg gc < 16777216 ->
  (90 <= gc_bg gc <= 97 -> 16 <= u32 (tty_term_number (the_term t) TTYC_COLORS)) ->
  tty_check_bg t gc = gc.
Proof.
  intros Hbg Haix. unfold tty_check_bg.
  destruct (small_has_no_flag _ Hbg) as [H256 Hrgb].
  rewrite Hrgb, H256. cbn [andb].
  case_if; [|reflexivity]. zbool. exfalso. lia.
Qed.

(** X8.  The foreground downgrade is idempotent: given a palette fold
    into 0..15 and a nearest-colour search that never returns an RGB
    colour, [tty_check_fg] leaves alone what it has produced. *)
Theorem tty_check_fg_idempotent :
  forall (t : tty) (gc : grid_cell),
    (forall c, 0 <= colour_256to16 c <= 15) ->
    (forall r g b, has_bit (colour_find_rgb r g b) COLOUR_FLAG_RGB = false) ->
    tty_check_fg t (tty_check_fg t gc) = tty_check_fg t gc.
Proof.
  intros t gc Hfold Hfind.
  unfold tty_check_fg at 2 3.
  destruct (has_bit (gc_fg gc) COLOUR_FLAG_RGB) eqn:Hrgb; cbn [andb].
  - destruct (tty_term_flag (the_term t) TTYC_TC) eqn:Htc.
    + unfold tty_check_fg. now rewrite Hrgb, Htc.
    + destruct (colour_split_rgb (gc_fg gc)) as [[r g] b].
      cbn [set_gc_fg gc_fg gc_attr].
      specialize (Hfind r g b). specialize (Hfold (colour_find_rgb r g b)).
      pose proof (land7_range (colour_256to16 (colour_find_rgb r g b))).
      destruct (has_bit (colour_find_rgb r g b) COLOUR_FLAG_256) eqn:H256.
      * destruct (no_256 t) eqn:Hno.
        -- destruct (has_bit (colour_256to16 (colour_find_rgb r g b)) 8)
             eqn:Hbit.
           ++ destruct (u32 (tty_term_number (the_term t) TTYC_COLORS) >=? 16)
                eqn:Hcol; zbool;
                apply tty_check_fg_plain;
                cbn [set_gc_fg set_gc_attr gc_fg]; lia.
           ++ apply no_bit8_below_8 in Hbit; [|assumption].
              apply tty_check_fg_plain;
                cbn [set_gc_fg set_gc_attr gc_fg]; lia.
        -- unfold tty_check_fg. cbn [set_gc_fg gc_fg].
           rewrite Hfind; cbn [andb]; cbv iota; cbn [set_gc_fg set_gc_bg gc_fg gc_bg]; now rewrite H256, Hno.
      * case_if.
        -- zbool. apply tty_check_fg_plain;
             cbn [set_gc_fg set_gc_attr gc_fg]; lia.
        -- unfold tty_check_fg. cbn [set_gc_fg gc_fg].
           rewrite Hfind; cbn [andb]; cbv iota; cbn [set_gc_fg set_gc_bg gc_fg gc_bg]; rewrite H256; cbn [andb].
           match goal with H : _ = false |- _ => now rewrite H end.
  - specialize (Hfold (gc_fg gc)).
    pose proof (land7_range (colour_256to16 (gc_fg gc))).
    cbn [set_gc_fg gc_fg gc_attr].
    destruct (has_bit (gc_fg gc) COLOUR_FLAG_256) eqn:H256.
    + destruct (no_256 t) eqn:Hno.
      * destruct (has_bit (colour_256to16 (gc_fg gc)) 8) eqn:Hbit.
        -- destruct (u32 (tty_term_number (the_term t) TTYC_COLORS) >=? 16)
             eqn:Hcol; zbool;
             apply tty_check_fg_plain;
             cbn [set_gc_fg set_gc_attr gc_fg]; lia.
        -- apply no_bit8_below_8 in Hbit; [|assumption].
           apply tty_check_fg_plain;
             cbn [set_gc_fg set_gc_attr gc_fg]; lia.
      * unfold tty_check_fg. now rewrite Hrgb, H256, Hno.
    + case_if.
      * zbool. apply tty_check_fg_plain;
          cbn [set_gc_fg set_gc_attr gc_fg]; lia.
      * unfold tty_check_fg. rewrite Hrgb, H256. cbn [andb].
        match goal with H : _ = false |- _ => now rewrite H end.
Qed.

(** X9.  On a terminal that declares fewer than sixteen colours, has
    no 256-colour mode and no direct colour, every tagged foreground
    (palette or RGB) comes out of [tty_check_fg] as one of the eight
    base colours 0..7, given a palette fold into 0..15 and a
    nearest-colour search that returns palette colours. *)
Theorem tty_check_fg_projects_to_base :
  forall (t : tty) (gc : grid_cell),
    (forall c, 0 <= colour_256to16 c <= 15) ->
    (forall r g b, has_bit (colour_find_rgb r g b) COLOUR_FLAG_256 = true) ->
    u32 (tty_term_number (the_term t) TTYC_COLORS) < 16 ->
    no_256 t = true ->
    tty_term_flag (the_term t) TTYC_TC = false ->
    has_bit (gc_fg gc) COLOUR_FLAG_RGB = true
    \/ has_bit (gc_fg gc) COLOUR_FLAG_256 = true ->
    0 <= gc_fg (tty_check_fg t gc) <= 7.
Proof.
  intros t gc Hfold Hfind Hcol Hno Htc Htag.
  assert (Hlt : (u32 (tty_term_number (the_term t) TTYC_COLORS) >=? 16) = false).
  { rewrite Z.geb_leb. apply Z.leb_gt. lia. }
  assert (Hcore : forall c g0,
             0 <= gc_fg
                    (let gc1 := set_gc_fg g0 (colour_256to16 c) in
                     if has_bit (gc_fg gc1) 8 then
                       let gc2 := set_gc_fg gc1 (Z.land (gc_fg gc1) 7) in
                       if u32 (tty_term_number (the_term t) TTYC_COLORS) >=? 16
                       then set_gc_fg gc2 (gc_fg gc2 + 90)
                       else set_gc_attr gc2 (set_bit (gc_attr gc2)
                                                     GRID_ATTR_BRIGHT)
                     else set_gc_attr gc1 (clear_bit (gc_attr gc1)
                                                     GRID_ATTR_BRIGHT)) <= 7).
  { intros c g0. cbv zeta. cbn [set_gc_fg gc_fg]. rewrite Hlt.
    specialize (Hfold c). pose proof (land7_range (colour_256to16 c)).
    destruct (has_bit (colour_256to16 c) 8) eqn:Hbit;
      cbn [set_gc_fg set_gc_attr gc_fg]; [lia|].
    apply no_bit8_below_8 in Hbit; [lia|assumption]. }
  unfold tty_check_fg. rewrite Htc, Hno, andb_false_r.
  destruct (has_bit (gc_fg gc) COLOUR_FLAG_RGB) eqn:Hrgb.
  - destruct (colour_split_rgb (gc_fg gc)) as [[r g] b].
    cbn [set_gc_fg gc_fg]. rewrite Hfind. apply Hcore.
  - destruct Htag as [Htag|Htag]; [discriminate|]. rewrite Htag. apply Hcore.
Qed.

(** X10.  The background downgrade is idempotent under the same
    assumptions: whatever [tty_check_bg] has produced, a second pass
    leaves alone. *)
Theorem tty_check_bg_idempotent :
  forall (t : tty) (gc : grid_cell),
    (forall c, 0 <= colour_256to16 c <= 15) ->
    (forall r g b, has_bit (colour_find_rgb r g b) COLOUR_FLAG_RGB = false) ->
    tty_check_bg t (tty_check_bg t gc) = tty_check_bg t gc.
Proof.
  intros t gc Hfold Hfind.
  unfold tty_check_bg at 2 3.
  destruct (has_bit (gc_bg gc) COLOUR_FLAG_RGB) eqn:Hrgb; cbn [andb].
  - destruct (tty_term_flag (the_term t) TTYC_TC) eqn:Htc.
    + unfold tty_check_bg. now rewrite Hrgb, Htc.
    + destruct (colour_split_rgb (gc_bg gc)) as [[r g] b].
      cbn [set_gc_bg gc_bg].
      specialize (Hfind r g b). specialize (Hfold (colour_find_rgb r g b)).
      pose proof (land7_range (colour_256to16 (colour_find_rgb r g b))).
      destruct (has_bit (colour_find_rgb r g b) COLOUR_FLAG_256) eqn:H256.
      * destruct (no_256 t) eqn:Hno.
        -- destruct (has_bit (colour_256to16 (colour_find_rgb r g b)) 8)
             eqn:Hbit.
           ++ destruct (u32 (tty_term_number (the_term t) TTYC_COLORS) >=? 16)
                eqn:Hcol; zbool;
                apply tty_check_bg_plain;
                cbn [set_gc_fg set_gc_bg gc_bg]; lia.
           ++ apply no_bit8_below_8 in Hbit; [|assumption].
              apply tty_check_bg_plain;
                cbn [set_gc_fg set_gc_bg gc_bg]; lia.
        -- unfold tty_check_bg. cbn [set_gc_bg gc_bg].
           rewrite Hfind; cbn [andb]; cbv iota; cbn [set_gc_fg set_gc_bg gc_fg gc_bg]; now rewrite H256, Hno.
      * case_if.
        -- zbool. apply tty_check_bg_plain;
             cbn [set_gc_fg set_gc_bg gc_bg]; lia.
        -- unfold tty_check_bg. cbn [set_gc_bg gc_bg].
           rewrite Hfind; cbn [andb]; cbv iota; cbn [set_gc_fg set_gc_bg gc_fg gc_bg]; rewrite H256; cbn [andb].
           match goal with H : _ = false |- _ => now rewrite H end.
  - specialize (Hfold (gc_bg gc)).
    pose proof (land7_range (colour_256to16 (gc_bg gc))).
    cbn [set_gc_bg gc_bg].
    destruct (has_bit (gc_bg gc) COLOUR_FLAG_256) eqn:H256.
    + destruct (no_256 t) eqn:Hno.
      * destruct (has_bit (colour_256to16 (gc_bg gc)) 8) eqn:Hbit.
        -- destruct (u32 (tty_term_number (the_term t) TTYC_COLORS) >=? 16)
             eqn:Hcol; zbool;
             apply tty_check_bg_plain;
             cbn [set_gc_fg set_gc_bg gc_bg]; lia.
        -- apply no_bit8_below_8 in Hbit; [|assumption].
           apply tty_check_bg_plain;
             cbn [set_gc_fg set_gc_bg gc_bg]; lia.
      * unfold tty_check_bg. now rewrite Hrgb, H256, Hno.
    + case_if.
      * zbool. apply tty_check_bg_plain;
          cbn [set_gc_fg set_gc_bg gc_bg]; lia.
      * unfold tty_check_bg. rewrite Hrgb, H256. cbn [andb].
        match goal with H : _ = false |- _ => now rewrite H end.
Qed.

(** ** The shadow colours after the colour engine *)

Lemma only_emits_cell (st st' : state) :
  only_emits st st' ->
  t_cell (st_tty st') = t_cell (st_tty st)
  /\ the_term (st_tty st') = the_term (st_tty st).
Proof. intros [items H]. rewrite H. split; reflexivity. Qed.

Lemma tty_try_colour_sends (colour : Z) (type : string) (st : state) :
  colour_sendable (st_tty st) colour ->
  has_bit colour COLOUR_FLAG_RGB || has_bit colour COLOUR_FLAG_256 = true ->
  fst (tty_try_colour colour type st) = true
  /\ only_emits st (snd (tty_try_colour colour type st)).
Proof.
  intros Hsend Htag. unfold tty_try_colour.
  destruct (has_bit colour COLOUR_FLAG_256) eqn:H256.
  - repeat case_if; cbn [fst snd]; split; auto with emits.
  - rewrite orb_false_r in Htag. rewrite Htag.
    destruct Hsend as [Hs|[Hs|Hs]]; try congruence.
    rewrite Hs. cbn [negb].
    destruct (colour_split_rgb (Z.land colour 16777215)) as [[r g] b].
    cbn [fst snd]; split; auto with emits.
Qed.

Lemma save_fg_cell (v : Z) (st mid : state) :
  only_emits st mid ->
  t_cell (st_tty (save_fg v mid)) = set_gc_fg (t_cell (st_tty st)) v
  /\ the_term (st_tty (save_fg v mid)) = the_term (st_tty st).
Proof.
  intros H. destruct (only_emits_cell _ _ H) as [Hc Ht].
  unfold save_fg. cbn [with_tty st_tty set_cell t_cell].
  rewrite Hc. split; [reflexivity|]. unfold the_term in *. exact Ht.
Qed.

Lemma save_bg_cell (v : Z) (st mid : state) :
  only_emits st mid ->
  t_cell (st_tty (save_bg v mid)) = set_gc_bg (t_cell (st_tty st)) v
  /\ the_term (st_tty (save_bg v mid)) = the_term (st_tty st).
Proof.
  intros H. destruct (only_emits_cell _ _ H) as [Hc Ht].
  unfold save_bg. cbn [with_tty st_tty set_cell t_cell].
  rewrite Hc. split; [reflexivity|]. unfold the_term in *. exact Ht.
Qed.

Lemma tty_colours_fg_cell (gc : grid_cell) (st : state) :
  colour_sendable (st_tty st) (gc_fg gc) ->
  t_cell (st_tty (tty_colours_fg gc st))
  = set_gc_fg (t_cell (st_tty st)) (gc_fg gc)
  /\ the_term (st_tty (tty_colours_fg gc st)) = the_term (st_tty st).
Proof.
  intros Hsend. unfold tty_colours_fg.
  destruct (has_bit (gc_fg gc) COLOUR_FLAG_RGB
            || has_bit (gc_fg gc) COLOUR_FLAG_256) eqn:Htag.
  - destruct (tty_try_colour_sends (gc_fg gc) "38" st Hsend Htag) as [Hok Hem].
    destruct (tty_try_colour (gc_fg gc) "38" st) as [ok st'].
    cbn [fst snd] in *. subst ok. now apply save_fg_cell.
  - case_if; apply save_fg_cell; auto with emits.
Qed.

Lemma tty_colours_bg_cell (gc : grid_cell) (st : state) :
  colour_sendable (st_tty st) (gc_bg gc) ->
  t_cell (st_tty (tty_colours_bg gc st))
  = set_gc_bg (t_cell (st_tty st)) (gc_bg gc)
  /\ the_term (st_tty (tty_colours_bg gc st)) = the_term (st_tty st).
Proof.
  intros Hsend. unfold tty_colours_bg.
  destruct (has_bit (gc_bg gc) COLOUR_FLAG_RGB
            || has_bit (gc_bg gc) COLOUR_FLAG_256) eqn:Htag.
  - destruct (tty_try_colour_sends (gc_bg gc) "48" st Hsend Htag) as [Hok Hem].
    destruct (tty_try_colour (gc_bg gc) "48" st) as [ok st'].
    cbn [fst snd] in *. subst ok. now apply save_bg_cell.
  - case_if; apply save_bg_cell; auto with emits.
Qed.

(** After [tty_reset] both shadow colours are the default, provided
    that cells [grid_cells_equal] calls equal have equal colours. *)
Lemma tty_reset_colours (st : state) :
  (forall a b, grid_cells_equal a b = true ->
               gc_fg a = gc_fg b /\ gc_bg a = gc_bg b) ->
  gc_fg (t_cell (st_tty (tty_reset st))) = 8
  /\ gc_bg (t_cell (st_tty (tty_reset st))) = 8
  /\ the_term (st_tty (tty_reset st)) = the_term (st_tty st).
Proof.
  intros Heq. unfold tty_reset.
  destruct (grid_cells_equal (t_cell (st_tty st)) grid_default_cell) eqn:He.
  - destruct (Heq _ _ He) as [Hf Hb]. auto.
  - cbn [with_tty st_tty set_cell t_cell grid_default_cell gc_fg gc_bg].
    repeat split.
    match goal with
    | |- the_term (set_cell _ (st_tty (tty_putcode _ ?s))) = _ =>
        destruct (only_emits_cell s _ (tty_putcode_only_emits TTYC_SGR0 s))
          as [_ Ht]
    end.
    unfold the_term in *. cbn [set_cell t_term]. rewrite Ht.
    case_if; [|reflexivity].
    match goal with
    | |- context [tty_putcode TTYC_RMACS ?s] =>
        destruct (only_emits_cell s _ (tty_putcode_only_emits TTYC_RMACS s))
          as [_ Ht2]
    end.
    exact Ht2.
Qed.

Lemma colour_sendable_term (t t' : tty) (c : Z) :
  the_term t' = the_term t -> colour_sendable t c -> colour_sendable t' c.
Proof. unfold colour_sendable. intros ->. auto. Qed.

(** The colours of the shadow cell after [tty_colours]. *)
Lemma tty_colours_shadow :
  forall (gc : grid_cell) (st : state),
    (forall a b, grid_cells_equal a b = true ->
                 gc_fg a = gc_fg b /\ gc_bg a = gc_bg b) ->
    colour_sendable (st_tty st) (gc_fg gc) ->
    colour_sendable (st_tty st) (gc_bg gc) ->
    gc_fg (t_cell (st_tty (tty_colours gc st))) = gc_fg gc
    /\ gc_bg (t_cell (st_tty (tty_colours gc st))) = gc_bg gc.
Proof.
  intros gc st Heq Hsf Hsb. cbv beta delta [tty_colours]. cbv zeta.
  destruct ((gc_fg gc =? gc_fg (t_cell (st_tty st)))
            && (gc_bg gc =? gc_bg (t_cell (st_tty st)))) eqn:Hsame.
  { zbool. auto. }
  (* the default-colour block *)
  match goal with
  | |- context [if (gc_fg gc =? 8) || (gc_bg gc =? 8) then ?a else ?b] =>
      set (st1 := if (gc_fg gc =? 8) || (gc_bg gc =? 8) then a else b)
  end.
  assert (H1 : (gc_fg gc = 8 -> gc_fg (t_cell (st_tty st1)) = 8)
               /\ (gc_bg gc = 8 -> gc_bg (t_cell (st_tty st1)) = 8)
               /\ the_term (st_tty st1) = the_term (st_tty st)).
  { subst st1.
    destruct ((gc_fg gc =? 8) || (gc_bg gc =? 8)) eqn:Hdef.
    2:{ zbool. repeat split; auto; intros; congruence. }
    case_if.
    { destruct (tty_reset_colours st Heq) as (Hf & Hb & Ht). auto. }
    set (sa := if (gc_fg gc =? 8) && negb (gc_fg (t_cell (st_tty st)) =? 8)
               then _ else st).
    assert (Ha : (gc_fg gc = 8 -> gc_fg (t_cell (st_tty sa)) = 8)
                 /\ gc_bg (t_cell (st_tty sa)) = gc_bg (t_cell (st_tty st))
                 /\ the_term (st_tty sa) = the_term (st_tty st)).
    { subst sa.
      destruct ((gc_fg gc =? 8) && negb (gc_fg (t_cell (st_tty st)) =? 8))
        eqn:Hc.
      - match goal with
        | |- context [save_fg 8 ?m] =>
            assert (Hm : only_emits st m) by (repeat case_if; auto with emits)
        end.
        destruct (save_fg_cell 8 st _ Hm) as [Hcell Ht].
        rewrite Hcell. cbn [set_gc_fg gc_fg gc_bg]. auto.
      - repeat split; auto. intros Hfg8.
        rewrite Hfg8 in Hc. cbn [Z.eqb Pos.eqb andb] in Hc. zbool. assumption. }
    destruct Ha as (Hafg & Habg & Hat).
    destruct ((gc_bg gc =? 8) && negb (gc_bg (t_cell (st_tty sa)) =? 8))
      eqn:Hc.
    - match goal with
      | |- context [save_bg 8 ?m] =>
          assert (Hm : only_emits sa m) by (repeat case_if; auto with emits)
      end.
      destruct (save_bg_cell 8 sa _ Hm) as [Hcell Ht].
      rewrite Hcell, Ht. cbn [set_gc_bg gc_fg gc_bg]. auto.
    - repeat split; auto. intros Hbg8.
      rewrite Hbg8 in Hc. cbn [Z.eqb Pos.eqb andb] in Hc. zbool. assumption. }
  destruct H1 as (H1f & H1b & H1t).
  (* the foreground *)
  set (st2 := if negb (gc_fg gc =? 8)
                 && negb (gc_fg gc =? gc_fg (t_cell (st_tty st1)))
              then tty_colours_fg gc st1 else st1).
  assert (H2 : gc_fg (t_cell (st_tty st2)) = gc_fg gc
               /\ (gc_bg gc = 8 -> gc_bg (t_cell (st_tty st2)) = 8)
               /\ the_term (st_tty st2) = the_term (st_tty st)).
  { subst st2.
    destruct (negb (gc_fg gc =? 8)
              && negb (gc_fg gc =? gc_fg (t_cell (st_tty st1)))) eqn:Hc.
    - destruct (tty_colours_fg_cell gc st1
                  (colour_sendable_term _ _ _ H1t Hsf)) as [Hcell Ht].
      rewrite Hcell, Ht. cbn [set_gc_fg gc_fg gc_bg]. auto.
    - repeat split; auto.
      apply andb_false_iff in Hc. destruct Hc as [Hc|Hc]; zbool; auto.
      symmetry. rewrite H1f; assumption. }
  destruct H2 as (H2f & H2b & H2t).
  (* the background *)
  destruct (negb (gc_bg gc =? 8)
            && negb (gc_bg gc =? gc_bg (t_cell (st_tty st2)))) eqn:Hc.
  - destruct (tty_colours_bg_cell gc st2
                (colour_sendable_term _ _ _ H2t Hsb)) as [Hcell Ht].
    rewrite Hcell. cbn [set_gc_bg gc_fg gc_bg]. auto.
  - split; [assumption|].
    apply andb_false_iff in Hc. destruct Hc as [Hc|Hc]; zbool; auto.
    symmetry. rewrite H2b; assumption.
Qed.

(** X11.  After [tty_colours] the shadow cell carries the colours that
    were asked for: its foreground and background are those of the
    desired cell, whenever both colours can be sent (an RGB colour
    needs a direct-colour terminal) and [grid_cells_equal] only calls
    equal cells whose colours are equal. *)
Theorem tty_colours_sets_shadow :
  forall (gc : grid_cell) (st : state),
    (forall a b, grid_cells_equal a b = true ->
                 gc_fg a = gc_fg b /\ gc_bg a = gc_bg b) ->
    colour_sendable (st_tty st) (gc_fg gc) ->
    colour_sendable (st_tty st) (gc_bg gc) ->
    gc_fg (t_cell (st_tty (tty_colours gc st))) = gc_fg gc
    /\ gc_bg (t_cell (st_tty (tty_colours gc st))) = gc_bg gc.
Proof. intros gc st Heq Hsf Hsb. now apply tty_colours_shadow. Qed.

Lemma keeps_let_with (V : Type) (view : tty -> V) (v : V)
                     (P : state -> Prop) (e : state) (b : state -> state) :
  P e ->
  (forall x, P x -> Keeps V view v (b x)) ->
  Keeps V view v (let y := e in b y).
Proof. intros He Hb. apply Hb, He. Qed.

(** Steps over a state-typed [let], recording [P] about the bound
    state. *)
Ltac keeps_with P :=
  lazymatch goal with
  | |- Keeps ?V ?view ?v ?t =>
      lazymatch t with
      | let y := ?e in @?b y =>
          refine (keeps_let_with V view v P e b _ _);
          [ | intros ? ?; cbv beta ]
      end
  end.

(** X12.  After [tty_attributes] the shadow cell agrees with the cell
    the function set out to show: the attribute mask and both colours
    of the shadow are those of [effective_cell], the desired cell after
    default-colour resolution, the reverse fix-up and the colour
    downgrade.  The colours have to be sendable and [grid_cells_equal]
    must only call equal cells whose colours are equal. *)
Theorem tty_attributes_sets_shadow :
  forall (gc : grid_cell) (wp : option window_pane) (st : state),
    (forall a b, grid_cells_equal a b = true ->
                 gc_fg a = gc_fg b /\ gc_bg a = gc_bg b) ->
    let want :=
      effective_cell (st_tty st)
        (match wp with
         | Some wp' => fst (tty_default_colours gc wp' st)
         | None => gc
         end) in
    colour_sendable (st_tty st) (gc_fg want) ->
    colour_sendable (st_tty st) (gc_bg want) ->
    shadow_style (st_tty (tty_attributes gc wp st))
    = (gc_attr want, gc_fg want, gc_bg want).
Proof.
  intros gc wp st Heq want Hsf Hsb.
  change (Keeps _ shadow_style (gc_attr want, gc_fg want, gc_bg want)
                (tty_attributes gc wp st)).
  cbv beta delta [tty_attributes].
  set (r := match wp with
            | Some wp' => tty_default_colours gc wp' st
            | None => (gc, st)
            end).
  assert (Hr : st_tty (snd r) = st_tty st
               /\ fst r = match wp with
                          | Some wp' => fst (tty_default_colours gc wp' st)
                          | None => gc
                          end).
  { subst r. destruct wp as [wp'|]; cbn [fst snd]; split; try reflexivity.
    apply tty_default_colours_frame. }
  destruct r as [g0 s0]. cbn [fst snd] in Hr. destruct Hr as [Hs0 Hg0].
  assert (Hwant : want = effective_cell (st_tty s0) g0).
  { subst want. rewrite Hs0, Hg0. reflexivity. }
  rewrite <- Hs0 in Hsf, Hsb. clearbody want. subst want.
  clear Hs0 Hg0.
  pose (want := effective_cell (st_tty s0) g0).
  do 4 keeps_let.
  keeps_with (fun x => the_term (st_tty x) = the_term (st_tty s0)).
  { case_if; [|reflexivity]. now apply tty_reset_colours. }
  keeps_with (fun x => gc_fg (t_cell (st_tty x)) = gc_fg want
                       /\ gc_bg (t_cell (st_tty x)) = gc_bg want).
  { apply (tty_colours_shadow want); [exact Heq | |];
      eapply colour_sendable_term; eauto. }
  match goal with H : _ /\ _ |- _ => destruct H as [H2f H2b] end.
  keeps_let.
  keeps_let.
  { unfold Keeps, shadow_style.
    cbn [with_tty st_tty set_cell t_cell set_gc_attr gc_attr gc_fg gc_bg].
    rewrite H2f, H2b. reflexivity. }
  keeps.
Qed.

(** ** The mode reconciler *)

Lemma has_bit_0 (m : Z) : has_bit 0 m = false.
Proof. unfold has_bit. rewrite Z.land_0_l. reflexivity. Qed.

Lemma set_mode_same (st : state) :
  with_tty (set_mode (t_mode (st_tty st))) st = st.
Proof. destruct st as [t ? ? ? ? ?]. destruct t. reflexivity. Qed.

(** The mode that [tty_update_mode] makes current: the requested one,
    without the cursor while [TTY_NOCURSOR] is set. *)
Lemma tty_update_mode_settled (mode : Z) (s : option screen) (st : state) :
  t_mode (st_tty st)
  = (if has_bit (t_flags (st_tty st)) TTY_NOCURSOR
     then clear_bit mode MODE_CURSOR else mode) ->
  (forall s', s = Some s' ->
              t_ccolour (st_tty st) = s_ccolour s'
              /\ t_cstyle (st_tty st) = s_cstyle s') ->
  tty_update_mode mode s st = st.
Proof.
  intros Hmode Hs. cbv beta delta [tty_update_mode].
  assert (H1 : match s with
               | Some s' =>
                   if negb (String.eqb (s_ccolour s') (t_ccolour (st_tty st)))
                   then tty_force_cursor_colour (s_ccolour s') st else st
               | None => st
               end = st).
  { destruct s as [s'|]; [|reflexivity].
    destruct (Hs s' eq_refl) as [Hc _]. rewrite Hc, String.eqb_refl.
    reflexivity. }
  rewrite H1. cbv zeta. rewrite <- Hmode, Z.lxor_nilpotent.
  rewrite !has_bit_0.
  assert (H4 : match s with
               | Some s' =>
                   if negb (t_cstyle (st_tty st) =? s_cstyle s') then
                     with_tty (set_cstyle (s_cstyle s'))
                       (if tty_term_has (the_term (st_tty st)) TTYC_SS then
                          if (s_cstyle s' =? 0)
                             && tty_term_has (the_term (st_tty st)) TTYC_SE
                          then tty_putcode TTYC_SE st
                          else tty_putcode1 TTYC_SS (to_int (s_cstyle s')) st
                        else st)
                   else st
               | None => st
               end = st).
  { destruct s as [s'|]; [|reflexivity].
    destruct (Hs s' eq_refl) as [_ Hc]. rewrite Hc, Z.eqb_refl.
    reflexivity. }
  rewrite H4. apply set_mode_same.
Qed.

(** What [tty_update_mode] leaves behind. *)
Lemma tty_update_mode_records (mode : Z) (s : option screen) (st : state) :
  let st' := tty_update_mode mode s st in
  t_flags (st_tty st') = t_flags (st_tty st)
  /\ t_mode (st_tty st')
     = (if has_bit (t_flags (st_tty st)) TTY_NOCURSOR
        then clear_bit mode MODE_CURSOR else mode)
  /\ (forall s', s = Some s' ->
                 t_ccolour (st_tty st') = s_ccolour s'
                 /\ t_cstyle (st_tty st') = s_cstyle s').
Proof.
  set (m' := if has_bit (t_flags (st_tty st)) TTY_NOCURSOR
             then clear_bit mode MODE_CURSOR else mode).
  pose (vcc := fun t => match s with
                        | Some s' => String.eqb (s_ccolour s') (t_ccolour t)
                        | None => true
                        end).
  pose (vcs := fun t => match s with
                        | Some s' => t_cstyle t =? s_cstyle s'
                        | None => true
                        end).
  enough (H : Keeps _ (fun t => (t_flags t, t_mode t, vcc t, vcs t))
                    (t_flags (st_tty st), m', true, true)
                    (tty_update_mode mode s st)).
  { unfold Keeps in H. cbv zeta. injection H as Hf Hm Hc Hs.
    split; [|split]; auto. intros s0 ->. subst vcc vcs. cbv beta in *.
    split.
    - symmetry. now apply String.eqb_eq.
    - now apply Z.eqb_eq. }
  cbv beta delta [tty_update_mode].
  keeps_with (Keeps _ (fun t => (t_flags t, vcc t))
                    (t_flags (st_tty st), true)).
  { subst vcc. destruct s as [s'|]; [|reflexivity].
    destruct (String.eqb (s_ccolour s') (t_ccolour (st_tty st))) eqn:He;
      cbn [negb].
    - unfold Keeps. now rewrite He.
    - cbv beta delta [tty_force_cursor_colour].
      keeps_with (Keeps _ t_flags (t_flags (st_tty st))).
      { case_if; [apply tty_putcode_keeps | apply tty_putcode_ptr1_keeps];
          try reflexivity; intros; reflexivity. }
      unfold Keeps in *. cbn [with_tty st_tty set_ccolour t_flags t_ccolour].
      rewrite String.eqb_refl. now f_equal. }
  assert (Hfl : t_flags (st_tty x) = t_flags (st_tty st))
    by (unfold Keeps in *; congruence).
  rewrite Hfl. fold m'.
  do 4 keeps_let.
  match goal with
  | |- Keeps _ _ _ (match ?pr with pair _ _ => _ end) =>
      assert (Hp : Keeps _ (fun t => (t_flags t, vcc t))
                         (t_flags (st_tty st), true) (snd pr))
        by (case_if; cbn [snd]; keeps);
      destruct pr as [changed st2]; cbn [snd] in Hp
  end.
  keeps_with (Keeps _ (fun t => (t_flags t, vcc t))
                    (t_flags (st_tty st), true)).
  { keeps. }
  keeps_with (Keeps _ (fun t => (t_flags t, vcc t, vcs t))
                    (t_flags (st_tty st), true, true)).
  { subst vcs. destruct s as [s'|].
    - destruct (t_cstyle (st_tty x0) =? s_cstyle s') eqn:He; cbn [negb].
      + unfold Keeps in *. rewrite He. now f_equal.
      + match goal with
        | |- Keeps _ _ _ (with_tty _ ?m) =>
            assert (Hm : Keeps _ (fun t => (t_flags t, vcc t))
                               (t_flags (st_tty st), true) m) by keeps
        end.
        unfold Keeps in *. subst vcc. cbv beta in *.
        cbn [with_tty st_tty set_cstyle t_flags t_ccolour t_cstyle].
        rewrite Z.eqb_refl. now f_equal.
    - unfold Keeps in *. now f_equal. }
  keeps_with (Keeps _ (fun t => (t_flags t, vcc t, vcs t))
                    (t_flags (st_tty st), true, true)).
  { keeps. }
  keeps_with (Keeps _ (fun t => (t_flags t, vcc t, vcs t))
                    (t_flags (st_tty st), true, true)).
  { keeps. }
  keeps_with (Keeps _ (fun t => (t_flags t, vcc t, vcs t))
                    (t_flags (st_tty st), true, true)).
  { keeps. }
  unfold Keeps in *. subst vcc vcs. cbv beta in *.
  cbn [with_tty st_tty set_mode t_flags t_mode t_ccolour t_cstyle].
  match goal with H : _ = (_, true, true) |- _ => injection H as Ha Hb Hc end.
  rewrite Ha, Hb, Hc. reflexivity.
Qed.

(** X13.  [tty_update_mode] is idempotent: once a mode and a screen
    have been reconciled, reconciling the same mode and screen again
    sends nothing and changes nothing. *)
Theorem tty_update_mode_idempotent :
  forall (mode : Z) (s : option screen) (st : state),
    tty_update_mode mode s (tty_update_mode mode s st)
    = tty_update_mode mode s st.
Proof.
  intros mode s st.
  destruct (tty_update_mode_records mode s st) as (Hf & Hm & Hs).
  apply tty_update_mode_settled; [rewrite Hf; exact Hm | exact Hs].
Qed.

(** ** Size, start and stop *)

Lemma static_sizes (t t' : tty) :
  static_of t' = static_of t ->
  t_sx t' = t_sx t /\ t_sy t' = t_sy t /\ t_term t' = t_term t
  /\ t_flags t' = t_flags t.
Proof. unfold static_of. intros H. injection H. auto. Qed.

Lemma pair_inv (A B : Type) (a c : A) (b d : B) :
  (a, b) = (c, d) -> a = c /\ b = d.
Proof. intros H. now inversion H. Qed.

(** What [tty_resize] does once the size did change. *)
Lemma tty_resize_changed (ws : option (Z * Z)) (st : state) :
  fst (tty_resize ws st) = true ->
  exists sx sy,
    sx <> 0 /\ sy <> 0
    /\ snd (tty_resize ws st)
       = let st3 :=
           with_tty (set_region UINT_MAX UINT_MAX)
             (with_tty (set_cursor UINT_MAX UINT_MAX)
                (with_tty (set_size sx sy) st)) in
         if has_bit (t_flags (st_tty st)) TTY_STARTED
         then tty_region 0 (u32 (t_sy (st_tty (tty_cursor 0 0 st3)) - 1))
                         (tty_cursor 0 0 st3)
         else st3.
Proof.
  unfold tty_resize.
  set (dims := match ws with
               | Some (col, row) =>
                   (if col =? 0 then 80 else col, if row =? 0 then 24 else row)
               | None => (80, 24)
               end).
  assert (Hd : fst dims <> 0 /\ snd dims <> 0).
  { subst dims. destruct ws as [[col row]|]; cbn [fst snd].
    - split; case_if; zbool; lia.
    - split; lia. }
  destruct dims as [sx sy]. cbn [fst snd] in Hd. destruct Hd as [Hx Hy].
  unfold tty_set_size. case_if; cbn [negb fst snd]; [discriminate|].
  intros _. exists sx, sy. split; [exact Hx|]. split; [exact Hy|].
  cbv zeta. cbn [with_tty st_tty set_region set_cursor set_size t_flags].
  case_if; reflexivity.
Qed.

(** X14.  After [tty_resize] the terminal never has a zero dimension,
    whatever the window-size query reported and whether or not the
    size changed: a zero column or row count is replaced by 80 or 24,
    and so is a failed query. *)
Theorem tty_resize_nonzero :
  forall (ws : option (Z * Z)) (st : state),
    t_sx (st_tty (snd (tty_resize ws st))) <> 0
    /\ t_sy (st_tty (snd (tty_resize ws st))) <> 0.
Proof.
  intros ws st. destruct (fst (tty_resize ws st)) eqn:Hch.
  - destruct (tty_resize_changed ws st Hch) as (sx & sy & Hx & Hy & ->).
    cbv zeta.
    set (st3 := with_tty (set_region UINT_MAX UINT_MAX) _).
    assert (H3 : Keeps _ static_of (static_of (st_tty st3)) st3) by reflexivity.
    assert (Hk : Keeps _ static_of (static_of (st_tty st3))
                       (if has_bit (t_flags (st_tty st)) TTY_STARTED
                        then tty_region 0
                               (u32 (t_sy (st_tty (tty_cursor 0 0 st3)) - 1))
                               (tty_cursor 0 0 st3)
                        else st3)).
    { case_if; [|exact H3]. apply tty_region_keeps, tty_cursor_keeps, H3. }
    destruct (static_sizes _ _ Hk) as (Hsx & Hsy & _).
    rewrite Hsx, Hsy. subst st3. cbn. auto.
  - revert Hch. unfold tty_resize.
    set (dims := match ws with
                 | Some (col, row) =>
                     (if col =? 0 then 80 else col,
                      if row =? 0 then 24 else row)
                 | None => (80, 24)
                 end).
    assert (Hd : fst dims <> 0 /\ snd dims <> 0).
    { subst dims. destruct ws as [[col row]|]; cbn [fst snd].
      - split; case_if; zbool; lia.
      - split; lia. }
    destruct dims as [sx sy]. cbn [fst snd] in Hd. destruct Hd as [Hx Hy].
    unfold tty_set_size.
    destruct ((sx =? t_sx (st_tty st)) && (sy =? t_sy (st_tty st))) eqn:He;
      cbn [negb fst snd].
    + intros _. zbool. split; congruence.
    + case_if; cbn [fst]; discriminate.
Qed.

(** X15.  When [tty_resize] changes the size of a started terminal
    that has CSR, it resynchronises the terminal: the scroll region is
    afterwards the whole new screen and the cursor is at the origin,
    in the shadow as on the terminal. *)
Theorem tty_resize_resyncs :
  forall (ws : option (Z * Z)) (st : state),
    fst (tty_resize ws st) = true ->
    has_bit (t_flags (st_tty st)) TTY_STARTED = true ->
    tty_term_has (the_term (st_tty st)) TTYC_CSR = true ->
    let t' := st_tty (snd (tty_resize ws st)) in
    t_rupper t' = 0 /\ t_rlower t' = u32 (t_sy t' - 1)
    /\ t_cx t' = 0 /\ t_cy t' = 0.
Proof.
  intros ws st Hch Hstarted Hcsr.
  destruct (tty_resize_changed ws st Hch) as (sx & sy & Hx & Hy & ->).
  cbv zeta. rewrite Hstarted.
  set (st3 := with_tty (set_region UINT_MAX UINT_MAX) _).
  set (st4 := tty_cursor 0 0 st3).
  destruct (moved_to_tty _ _ _ _ (tty_cursor_moved 0 0 st3))
    as (_ & _ & Hu & Hl & _ & Hterm).
  fold st4 in Hu, Hl, Hterm.
  assert (Hne : (t_rlower (st_tty st4) =? u32 (t_sy (st_tty st4) - 1))
                && (t_rupper (st_tty st4) =? 0) = false).
  { rewrite Hu. subst st3. cbn. apply andb_false_r. }
  assert (Hcsr4 : tty_term_has (the_term (st_tty st4)) TTYC_CSR = true).
  { unfold the_term in *. rewrite Hterm. subst st3. cbn. exact Hcsr. }
  destruct (tty_region_programmed 0 (u32 (t_sy (st_tty st4) - 1)) st4
                                   Hne Hcsr4) as (Ru & Rl & Rx & Ry).
  assert (Hk : Keeps _ static_of (static_of (st_tty st4))
                     (tty_region 0 (u32 (t_sy (st_tty st4) - 1)) st4))
    by (apply tty_region_keeps; reflexivity).
  destruct (static_sizes _ _ Hk) as (_ & Hsy & _).
  rewrite Ru, Rl, Rx, Ry, Hsy. auto.
Qed.

Lemma has_bit_set (x : Z) : has_bit (set_bit x TTY_STARTED) TTY_STARTED = true.
Proof.
  unfold has_bit, set_bit. rewrite Z.land_lor_distr_l.
  change (Z.land TTY_STARTED TTY_STARTED) with TTY_STARTED.
  apply negb_true_iff, Z.eqb_neq. intros H0.
  apply Z.lor_eq_0_iff in H0. destruct H0 as [_ H0]. discriminate.
Qed.

(** One assignment to the shadow, given what held before it. *)
Ltac shadow_step :=
  unfold Keeps in *;
  cbn [with_tty st_tty set_cursor set_region set_mode set_flags set_ccolour
       t_cell t_cx t_cy t_rupper t_rlower t_mode t_flags t_ccolour];
  match goal with H : _ = _ |- _ => rewrite H end;
  try reflexivity.

(** X16.  [tty_start_tty] leaves a known baseline whatever the state
    before: the shadow cell is the default cell, the cursor and the
    scroll region are unknown, the mode is [MODE_CURSOR], the cursor
    colour is the empty string and the terminal is marked started. *)
Theorem tty_start_tty_baseline :
  forall (focus_events : bool) (st : state),
    let t' := st_tty (tty_start_tty focus_events st) in
    t_cell t' = grid_default_cell
    /\ t_cx t' = UINT_MAX /\ t_cy t' = UINT_MAX
    /\ t_rupper t' = UINT_MAX /\ t_rlower t' = UINT_MAX
    /\ t_mode t' = MODE_CURSOR
    /\ t_ccolour t' = EmptyString
    /\ has_bit (t_flags t') TTY_STARTED = true.
Proof.
  intros focus_events st.
  pose (view := fun t => (t_cell t, t_cx t, t_cy t, t_rupper t, t_rlower t,
                          t_mode t, has_bit (t_flags t) TTY_STARTED)).
  enough (H : Keeps _ (fun t => (view t, t_ccolour t))
                    (grid_default_cell, UINT_MAX, UINT_MAX, UINT_MAX,
                     UINT_MAX, MODE_CURSOR, true, EmptyString)
                    (tty_start_tty focus_events st)).
  { unfold Keeps, view in H. cbv zeta.
    apply pair_inv in H as [H Hcc]. apply pair_inv in H as [H Hst].
    apply pair_inv in H as [H Hmode]. apply pair_inv in H as [H Hrl].
    apply pair_inv in H as [H Hru]. apply pair_inv in H as [H Hcy].
    apply pair_inv in H as [Hcell Hcx].
    exact (conj Hcell (conj Hcx (conj Hcy (conj Hru (conj Hrl
             (conj Hmode (conj Hcc Hst))))))). }
  cbv beta delta [tty_start_tty].
  keeps_with (fun _ : state => True); [exact I|].
  keeps_with (fun _ : state => True); [exact I|].
  keeps_with (Keeps _ t_cell grid_default_cell); [reflexivity|].
  do 6 (keeps_with (Keeps _ t_cell grid_default_cell); [keeps|]).
  keeps_with (Keeps _ (fun t => (t_cell t, t_cx t, t_cy t))
                    (grid_default_cell, UINT_MAX, UINT_MAX)).
  { shadow_step. }
  keeps_with (Keeps _ (fun t => (t_cell t, t_cx t, t_cy t,
                                 t_rupper t, t_rlower t))
                    (grid_default_cell, UINT_MAX, UINT_MAX,
                     UINT_MAX, UINT_MAX)).
  { shadow_step. }
  keeps_with (Keeps _ (fun t => (t_cell t, t_cx t, t_cy t,
                                 t_rupper t, t_rlower t, t_mode t))
                    (grid_default_cell, UINT_MAX, UINT_MAX,
                     UINT_MAX, UINT_MAX, MODE_CURSOR)).
  { shadow_step. }
  keeps_with (Keeps _ view
                    (grid_default_cell, UINT_MAX, UINT_MAX,
                     UINT_MAX, UINT_MAX, MODE_CURSOR, true)).
  { unfold view. shadow_step. rewrite has_bit_set. reflexivity. }
  cbv beta delta [tty_force_cursor_colour].
  keeps_with (Keeps _ view
                    (grid_default_cell, UINT_MAX, UINT_MAX,
                     UINT_MAX, UINT_MAX, MODE_CURSOR, true)).
  { keeps. }
  unfold view in *. shadow_step.
Qed.

(** ** Stopping the terminal: direct writes *)

Lemma substring_drop (n : nat) (s : string) :
  (substring 0 n s ++ string_drop n s)%string = s.
Proof.
  revert s. induction n as [|n IH]; intros [|c s]; cbn; try reflexivity.
  now rewrite IH.
Qed.

Lemma string_app_assoc (a b c : string) :
  ((a ++ b) ++ c)%string = (a ++ b ++ c)%string.
Proof. induction a as [|x a IH]; cbn; [reflexivity | now rewrite IH]. Qed.

Lemma tty_raw_loop_prefix (w : nat -> write_result) :
  forall (tries i : nat) (s : string) (st : state),
  exists chunks,
    st_fd_out (tty_raw_loop tries i w s st) = (st_fd_out st ++ chunks)%list
    /\ (List.length chunks <= tries)%nat
    /\ is_prefix (fold_right String.append EmptyString chunks) s.
Proof.
  induction tries as [|tries IH]; intros i s st; cbn [tty_raw_loop].
  - exists []. rewrite app_nil_r.
    split; [reflexivity|]. split; [cbn; lia|]. now exists s.
  - destruct (w i) as [n| |].
    + destruct (string_empty (string_drop n s)).
      * exists [substring 0 n s]. cbn [set_fd_out st_fd_out fold_right].
        split; [reflexivity|]. split; [cbn; lia|].
        exists (string_drop n s).
        rewrite string_app_assoc. cbn [String.append].
        symmetry. apply substring_drop.
      * destruct (IH (S i) (string_drop n s)
                     (set_fd_out (st_fd_out st ++ [substring 0 n s]) st))
          as (chunks & Hout & Hlen & rest & Hrest).
        exists (substring 0 n s :: chunks). rewrite Hout.
        cbn [set_fd_out st_fd_out fold_right].
        rewrite <- app_assoc.
        split; [reflexivity|]. split; [cbn; lia|].
        exists rest. rewrite string_app_assoc, <- Hrest.
        symmetry. apply substring_drop.
    + destruct (IH (S i) s st) as (chunks & Hout & Hlen & Hpre).
      exists chunks. split; [assumption|]. split; [lia | assumption].
    + exists []. rewrite app_nil_r.
      split; [reflexivity|]. split; [cbn; lia|]. now exists s.
Qed.

(** X17.  [tty_raw] writes a prefix of its string, in order and in at
    most five pieces, whatever the writes return: nothing is written
    twice, nothing out of order, and nothing goes to the output buffer
    or the log. *)
Theorem tty_raw_writes_prefix :
  forall (w : nat -> write_result) (s : string) (st : state),
    (exists chunks,
        st_fd_out (tty_raw w s st) = (st_fd_out st ++ chunks)%list
        /\ (List.length chunks <= 5)%nat
        /\ is_prefix (fold_right String.append EmptyString chunks) s)
    /\ st_tty (tty_raw w s st) = st_tty st
    /\ st_log (tty_raw w s st) = st_log st.
Proof.
  intros w s st. unfold tty_raw. split.
  - apply tty_raw_loop_prefix.
  - destruct (tty_raw_loop_keeps_log w 5 0 s st) as [Hl Ht]. auto.
Qed.

Lemma raw_all_keeps (w : nat -> nat -> write_result) :
  forall (l : list string) (n : nat) (st : state),
    st_tty (raw_all n w l st) = st_tty st
    /\ st_log (raw_all n w l st) = st_log st.
Proof.
  induction l as [|s l IH]; intros n st; cbn [raw_all].
  - split; reflexivity.
  - destruct (IH (S n) (tty_raw (w n) s st)) as [Ht Hl].
    destruct (tty_raw_loop_keeps_log (w n) 5 0 s st) as [Hl' Ht'].
    unfold tty_raw in *. rewrite Ht, Hl, Ht', Hl'. split; reflexivity.
Qed.

Lemma has_bit_clear (x m : Z) : has_bit (clear_bit x m) m = false.
Proof.
  unfold has_bit, clear_bit. rewrite <- Z.land_assoc.
  replace (Z.land (Z.lnot m) m) with 0.
  - rewrite Z.land_0_r. reflexivity.
  - symmetry. rewrite Z.land_comm. apply Z.land_lnot_diag.
Qed.

Lemma has_bit_clear_other (x m k : Z) :
  has_bit x m = false -> has_bit (clear_bit x k) m = false.
Proof.
  unfold has_bit, clear_bit. intros H. apply negb_false_iff, Z.eqb_eq in H.
  apply negb_false_iff, Z.eqb_eq.
  rewrite <- Z.land_assoc, (Z.land_comm (Z.lnot k) m), Z.land_assoc, H.
  apply Z.land_0_l.
Qed.

Lemma set_flags_same (t : tty) : set_flags (t_flags t) t = t.
Proof. destruct t. reflexivity. Qed.

(** What [tty_stop_tty] leaves: the terminal as it was but for its
    flags, where [TTY_STARTED] is off. *)
Lemma tty_stop_tty_shape (ioctl : option Z) (tcsetattr_ok : bool)
                         (w : nat -> nat -> write_result) (st : state) :
  has_bit (t_flags (st_tty st)) TTY_STARTED = true ->
  let st' := tty_stop_tty ioctl tcsetattr_ok w st in
  exists f,
    st_tty st' = set_flags f (st_tty st)
    /\ has_bit f TTY_STARTED = false
    /\ st_log st' = st_log st.
Proof.
  intros Hs. cbv zeta. unfold tty_stop_tty. rewrite Hs. cbn [negb].
  set (st1 := with_tty _ st).
  assert (H1 : st_tty st1
               = set_flags (clear_bit (t_flags (st_tty st)) TTY_STARTED)
                           (st_tty st)) by reflexivity.
  destruct ioctl as [row|].
  2:{ eexists. split; [exact H1|]. split; [apply has_bit_clear|reflexivity]. }
  destruct tcsetattr_ok; cbn [negb].
  2:{ eexists. split; [exact H1|]. split; [apply has_bit_clear|reflexivity]. }
  cbv zeta.
  destruct (raw_all_keeps w (stop_sequence row (st_tty st1)) 0 st1)
    as [Ht Hl].
  case_if.
  - eexists. split.
    + cbn [with_tty st_tty]. rewrite Ht, H1.
      cbn [set_flags t_flags]. reflexivity.
    + split; [apply has_bit_clear_other, has_bit_clear|].
      cbn [with_tty st_log]. rewrite Hl. reflexivity.
  - eexists. split; [rewrite Ht; exact H1|].
    split; [apply has_bit_clear | rewrite Hl; reflexivity].
Qed.

(** X18.  [tty_stop_tty] touches nothing of the terminal but its
    flags: the output buffer, the log, the shadow cursor, region and
    cell are afterwards what they were, whatever the system calls
    return.  What it sends goes straight to the file descriptor. *)
Theorem tty_stop_tty_only_flags :
  forall (ioctl : option Z) (tcsetattr_ok : bool)
         (w : nat -> nat -> write_result) (st : state),
    set_flags (t_flags (st_tty st))
              (st_tty (tty_stop_tty ioctl tcsetattr_ok w st))
    = st_tty st
    /\ st_log (tty_stop_tty ioctl tcsetattr_ok w st) = st_log st.
Proof.
  intros ioctl ok w st.
  destruct (has_bit (t_flags (st_tty st)) TTY_STARTED) eqn:Hs.
  - destruct (tty_stop_tty_shape ioctl ok w st Hs) as (f & Ht & _ & Hl).
    rewrite Ht, Hl. split; [|reflexivity].
    destruct (st_tty st). reflexivity.
  - unfold tty_stop_tty. rewrite Hs. cbn [negb].
    split; [apply set_flags_same | reflexivity].
Qed.

(** X19.  Stopping twice is stopping once: after [tty_stop_tty] the
    terminal is no longer started, so a second call, whatever the
    system calls would return, changes nothing and writes nothing. *)
Theorem tty_stop_tty_twice :
  forall (ioctl ioctl' : option Z) (ok ok' : bool)
         (w w' : nat -> nat -> write_result) (st : state),
    tty_stop_tty ioctl' ok' w' (tty_stop_tty ioctl ok w st)
    = tty_stop_tty ioctl ok w st.
Proof.
  intros ioctl ioctl' ok ok' w w' st.
  assert (Hoff : has_bit (t_flags (st_tty (tty_stop_tty ioctl ok w st)))
                         TTY_STARTED = false).
  { destruct (has_bit (t_flags (st_tty st)) TTY_STARTED) eqn:Hs.
    - destruct (tty_stop_tty_shape ioctl ok w st Hs) as (f & Ht & Hf & _).
      rewrite Ht. exact Hf.
    - unfold tty_stop_tty. rewrite Hs. exact Hs. }
  remember (tty_stop_tty ioctl ok w st) as st' eqn:E.
  unfold tty_stop_tty. rewrite Hoff. reflexivity.
Qed.

(** ** Characters on the wire *)

Lemma is_char_putc_payload (t : tty) (ch : Z) : is_char ch (putc_payload t ch).
Proof.
  unfold putc_payload. case_if; [|reflexivity].
  destruct (tty_acs_get t ch); reflexivity.
Qed.

Lemma tty_putc_event (ch : Z) (st : state) :
  t_event (st_tty (tty_putc ch st))
  = t_event (st_tty st) ++ [putc_payload (st_tty st) ch].
Proof.
  unfold tty_putc. cbv zeta. rewrite log_write_tty.
  case_if; cbn [with_tty st_tty bufferevent_write]; [|reflexivity].
  unfold putc_advance. cbv zeta. repeat case_if; reflexivity.
Qed.

Lemma repeat_putc_event (ch : Z) :
  forall (n : nat) (st : state),
  exists items,
    t_event (st_tty (repeat_st n (tty_putc ch) st))
    = t_event (st_tty st) ++ items
    /\ List.length items = n
    /\ Forall (is_char ch) items.
Proof.
  induction n as [|n IH]; intros st; cbn [repeat_st].
  - exists []. rewrite app_nil_r. repeat split. constructor.
  - destruct (IH (tty_putc ch st)) as (items & Hev & Hlen & Hall).
    exists (putc_payload (st_tty st) ch :: items).
    rewrite Hev, tty_putc_event, <- app_assoc. cbn [app List.length].
    repeat split; [congruence|].
    constructor; [apply is_char_putc_payload | exact Hall].
Qed.

(** X20.  [tty_repeat_space] puts exactly [n] items into the output
    buffer, each of them the byte 32 (in its ACS translation when the
    alternate character set is on), after what was there. *)
Theorem tty_repeat_space_count :
  forall (n : Z) (st : state),
  exists items,
    t_event (st_tty (tty_repeat_space n st)) = t_event (st_tty st) ++ items
    /\ List.length items = Z.to_nat n
    /\ Forall (is_char 32) items.
Proof. intros n st. unfold tty_repeat_space. apply repeat_putc_event. Qed.

(** ** Cells of more than one byte *)

Lemma tty_attributes_cursor (gc : grid_cell) (wp : option window_pane)
                            (st : state) :
  t_cx (st_tty (tty_attributes gc wp st)) = t_cx (st_tty st)
  /\ t_cy (st_tty (tty_attributes gc wp st)) = t_cy (st_tty st)
  /\ t_flags (st_tty (tty_attributes gc wp st)) = t_flags (st_tty st)
  /\ t_sx (st_tty (tty_attributes gc wp st)) = t_sx (st_tty st)
  /\ t_rupper (st_tty (tty_attributes gc wp st)) = t_rupper (st_tty st)
  /\ t_rlower (st_tty (tty_attributes gc wp st)) = t_rlower (st_tty st).
Proof.
  pose (view := fun t => (t_cx t, t_cy t, t_flags t, t_sx t,
                          t_rupper t, t_rlower t)).
  assert (H : Keeps _ view (view (st_tty st)) (tty_attributes gc wp st)).
  { apply tty_attributes_keeps; try reflexivity; intros; reflexivity. }
  unfold Keeps, view in H. injection H. auto 10.
Qed.

(** X21.  A cell of more than one byte, on a UTF-8 terminal: after the
    attributes, [tty_cell] sends the bytes of the cell as one item and
    advances the shadow column by the width of the character, not by
    the number of bytes; the shadow row stays. *)
Theorem tty_cell_utf8_width :
  forall (gc : grid_cell) (wp : option window_pane) (st : state),
    let t := st_tty st in
    has_bit (tm_flags (the_term t)) TERM_EARLYWRAP = false ->
    has_bit (gc_flags gc) GRID_FLAG_PADDING = false ->
    ud_size (gc_data gc) <> 1 ->
    has_bit (t_flags t) TTY_UTF8 = true ->
    t_event (st_tty (tty_cell gc wp st))
    = t_event (st_tty (tty_attributes gc wp st))
      ++ [PData (ud_data (gc_data gc)) (ud_size (gc_data gc))]
    /\ t_cx (st_tty (tty_cell gc wp st))
       = u32 (t_cx t + ud_width (gc_data gc))
    /\ t_cy (st_tty (tty_cell gc wp st)) = t_cy t.
Proof.
  intros gc wp st t Hearly Hpad Hsize Hutf.
  destruct (tty_attributes_cursor gc wp st) as (Hx & Hy & Hf & _).
  unfold tty_cell. fold t. rewrite Hearly, Hpad. cbn [andb]. cbv zeta.
  replace (ud_size (gc_data gc) =? 1) with false
    by (symmetry; now apply Z.eqb_neq).
  rewrite Hf. fold t. rewrite Hutf. cbn [negb].
  unfold tty_putn. cbv zeta.
  cbn [with_tty st_tty set_cursor t_event t_cx t_cy].
  rewrite log_write_tty.
  cbn [bufferevent_write with_tty st_tty set_event t_event t_cx t_cy].
  rewrite Hx, Hy. auto.
Qed.

(** X22.  A cell of more than one byte, on a terminal without UTF-8:
    after the attributes, [tty_cell] sends one underscore for each
    column of the character and nothing else. *)
Theorem tty_cell_non_utf8_underscores :
  forall (gc : grid_cell) (wp : option window_pane) (st : state),
    let t := st_tty st in
    has_bit (tm_flags (the_term t)) TERM_EARLYWRAP = false ->
    has_bit (gc_flags gc) GRID_FLAG_PADDING = false ->
    ud_size (gc_data gc) <> 1 ->
    has_bit (t_flags t) TTY_UTF8 = false ->
    exists items,
      t_event (st_tty (tty_cell gc wp st))
      = t_event (st_tty (tty_attributes gc wp st)) ++ items
      /\ List.length items = Z.to_nat (ud_width (gc_data gc))
      /\ Forall (is_char 95) items.
Proof.
  intros gc wp st t Hearly Hpad Hsize Hutf.
  destruct (tty_attributes_cursor gc wp st) as (_ & _ & Hf & _).
  unfold tty_cell. fold t. rewrite Hearly, Hpad. cbn [andb]. cbv zeta.
  replace (ud_size (gc_data gc) =? 1) with false
    by (symmetry; now apply Z.eqb_neq).
  rewrite Hf. fold t. rewrite Hutf. cbn [negb].
  apply repeat_putc_event.
Qed.

(** ** Raw strings *)

(** X23.  After [tty_cmd_rawstring] the engine no longer trusts its
    shadow: the scroll region is unknown and the cursor has been sent
    home with an absolute CUP, the last thing in the output buffer, on
    any terminal of at least one column. *)
Theorem tty_cmd_rawstring_resyncs :
  forall (ctx : tty_ctx) (st : state),
    let t := st_tty st in
    u32 (t_sx t - 1) < UINT_MAX ->
    let st' := tty_cmd_rawstring ctx st in
    t_rupper (st_tty st') = UINT_MAX /\ t_rlower (st_tty st') = UINT_MAX
    /\ t_cx (st_tty st') = 0 /\ t_cy (st_tty st') = 0
    /\ exists before,
         t_event (st_tty st') = before ++ emit t (PCap TTYC_CUP [0; 0]).
Proof.
  intros ctx st t Hsx. cbv zeta. unfold tty_cmd_rawstring. cbv zeta.
  set (st1 := for_st _ _ _ st).
  assert (H1 : static_of (st_tty st1) = static_of t).
  { subst st1.
    apply (for_st_keeps _ static_of (static_of t)); [|reflexivity].
    intros i x Hx. now apply tty_putc_keeps. }
  set (st3 := with_tty (set_region UINT_MAX UINT_MAX) _).
  set (st4 := tty_attributes grid_default_cell (Some (ctx_wp ctx)) st3).
  destruct (tty_attributes_cursor grid_default_cell (Some (ctx_wp ctx)) st3)
    as (Hx & Hy & _ & Hsx4 & Hu & Hl).
  fold st4 in Hx, Hy, Hsx4, Hu, Hl.
  assert (Hst4 : static_of (st_tty st4) = static_of t).
  { rewrite <- H1. subst st4.
    apply (tty_attributes_keeps _ static_of); try reflexivity;
      intros; reflexivity. }
  destruct (static_sizes _ _ Hst4) as (Hsx' & _ & Hterm & _).
  assert (Hbeyond : u32 (t_sx (st_tty st4) - 1) < t_cx (st_tty st4)).
  { rewrite Hx, Hsx'. subst st3. cbn [with_tty st_tty set_region set_cursor
      t_cx]. exact Hsx. }
  rewrite (tty_cursor_beyond 0 0 st4 Hbeyond), clamp_cx_zero.
  unfold cursor_absolute, tty_putcode2.
  change (to_int 0) with 0. cbn [Z.ltb Z.compare orb].
  rewrite cursor_done_puts_event.
  cbn [set_cursor set_event t_rupper t_rlower t_cx t_cy t_event].
  rewrite Hu, Hl. subst st3.
  cbn [with_tty st_tty set_region set_cursor t_rupper t_rlower].
  repeat split.
  exists (t_event (st_tty st4)). unfold emit, the_term. rewrite Hterm.
  reflexivity.
Qed.

(** ** Repeating a capability *)

Lemma repeat_putcode_event (code1 : tty_code_code) :
  forall (n : nat) (st : state),
    st_tty (repeat_st n (tty_putcode code1) st)
    = set_event (t_event (st_tty st)
                 ++ List.concat (repeat (emit (st_tty st) (PCap code1 [])) n))
                (st_tty st).
Proof.
  induction n as [|n IH]; intros st; cbn [repeat_st repeat List.concat].
  - rewrite app_nil_r. now destruct (st_tty st).
  - rewrite IH. unfold tty_putcode. rewrite tty_puts_tty.
    cbn [set_event t_event]. rewrite <- app_assoc.
    unfold emit, the_term. cbn [set_event t_term]. reflexivity.
Qed.

(** X24.  [tty_emulate_repeat] on a terminal without the parametrised
    capability sends the one-step capability exactly [n] times, and
    changes nothing else of the terminal. *)
Theorem tty_emulate_repeat_fallback :
  forall (code code1 : tty_code_code) (n : Z) (st : state),
    tty_term_has (the_term (st_tty st)) code = false ->
    st_tty (tty_emulate_repeat code code1 n st)
    = set_event
        (t_event (st_tty st)
         ++ List.concat (repeat (emit (st_tty st) (PCap code1 [])) (Z.to_nat n)))
        (st_tty st).
Proof.
  intros code code1 n st Hno. unfold tty_emulate_repeat. rewrite Hno.
  apply repeat_putcode_event.
Qed.

(** ** What the engine writes into cells *)

Lemma text_of_app (a b : list payload) :
  text_of (a ++ b) = text_of a ++ text_of b.
Proof. apply flat_map_app. Qed.

Lemma quiet_text (items : list payload) :
  Forall quiet items -> text_of items = [].
Proof.
  induction 1 as [|p l [_ Hp] _ IH]; [reflexivity|].
  cbn [text_of flat_map]. rewrite Hp. exact IH.
Qed.

Lemma ctl_quiet (p : payload) : ctl p -> quiet p.
Proof.
  intros [He Hc]. split; [exact He|].
  destruct p; cbn in *; try reflexivity; contradiction.
Qed.

Lemma putc_payload_quiet (t : tty) (ch : Z) :
  printable ch = false -> quiet (putc_payload t ch).
Proof.
  intros Hch. split; [apply putc_payload_no_erase|].
  unfold putc_payload.
  destruct (has_bit (gc_attr (t_cell t)) GRID_ATTR_CHARSET);
    [destruct (tty_acs_get t ch)|]; cbn [text_of_payload]; now rewrite Hch.
Qed.

#[local] Hint Extern 1 (quiet _) =>
  (split; cbn; first [exact I | reflexivity]) : ginv.
#[local] Hint Extern 1 (printable _ = false) => reflexivity : ginv.

Section Quiet.

Variable e : env.
Variable pre : list payload.

#[local] Abbreviation QInv := (GInv quiet None e pre).

Lemma repeat_st_quiet (n : nat) (f : state -> state) :
  (forall s, QInv s -> QInv (f s)) ->
  forall st, QInv st -> QInv (repeat_st n f st).
Proof.
  intros Hf. induction n as [|n IH]; intros st H; cbn [repeat_st]; auto.
Qed.

Lemma for_st_quiet (n : nat) (body : Z -> state -> state) :
  (forall i s, QInv s -> QInv (body i s)) ->
  forall from st, QInv st -> QInv (for_st n from body st).
Proof.
  intros Hb. induction n as [|n IH]; intros from st H; cbn [for_st]; auto.
Qed.

Lemma tty_attributes_quiet (gc : grid_cell) (wp : option window_pane)
                           (st : state) :
  QInv st -> QInv (tty_attributes gc wp st).
Proof.
  intros (He & _ & items & Hev & HP).
  pose proof (ginv_start ctl st) as H0. rewrite He in H0.
  apply (tty_attributes_ginv _ _ _ _ gc wp) in H0.
  destruct H0 as (He' & _ & items' & Hev' & HP').
  split; [exact He'|]. split; [exact I|].
  exists (items ++ items'). rewrite Hev', Hev, app_assoc.
  split; [reflexivity|].
  apply Forall_app; split; [exact HP|].
  eapply Forall_impl; [apply ctl_quiet | exact HP'].
Qed.

Lemma tty_putc_quiet (ch : Z) (st : state) :
  printable ch = false -> QInv st -> QInv (tty_putc ch st).
Proof.
  intros Hch H. cbv beta delta [tty_putc]. cbv zeta.
  change ((32 <=? ch) && negb (ch =? 127)) with (printable ch).
  rewrite Hch.
  apply log_write_ginv, bufferevent_write_ginv; [|exact H].
  now apply putc_payload_quiet.
Qed.

Hint Resolve tty_attributes_quiet tty_putc_quiet : ginv.

Lemma tty_force_cursor_colour_quiet (c : string) (st : state) :
  QInv st -> QInv (tty_force_cursor_colour c st).
Proof. intros H. cbv beta delta [tty_force_cursor_colour]. ginv. Qed.

Hint Resolve tty_force_cursor_colour_quiet : ginv.

Lemma tty_update_mode_quiet (mode : Z) (s : option screen) (st : state) :
  QInv st -> QInv (tty_update_mode mode s st).
Proof.
  intros H. cbv beta delta [tty_update_mode].
  ginv_let; [ginv|]. do 4 ginv_let.
  case_if; cbv iota beta; ginv.
Qed.

Lemma cursor_done_quiet (cx cy : Z) (st : state) :
  QInv st -> QInv (cursor_done cx cy st).
Proof. intros H. cbv beta delta [cursor_done]. ginv. Qed.

Hint Resolve tty_update_mode_quiet cursor_done_quiet : ginv.

Lemma cursor_absolute_quiet (cx cy : Z) (st : state) :
  QInv st -> QInv (cursor_absolute cx cy st).
Proof. intros H. cbv beta delta [cursor_absolute]. ginv. Qed.

Hint Resolve cursor_absolute_quiet : ginv.

Lemma cursor_same_row_quiet (cx cy : Z) (st : state) :
  QInv st -> QInv (cursor_same_row cx cy st).
Proof. intros H. cbv beta delta [cursor_same_row]. ginv. Qed.

Lemma cursor_same_column_quiet (cx cy : Z) (st : state) :
  QInv st -> QInv (cursor_same_column cx cy st).
Proof. intros H. cbv beta delta [cursor_same_column]. ginv. Qed.

Hint Resolve cursor_same_row_quiet cursor_same_column_quiet : ginv.

Lemma tty_cursor_quiet (cx cy : Z) (st : state) :
  QInv st -> QInv (tty_cursor cx cy st).
Proof. intros H. cbv beta delta [tty_cursor]. ginv. Qed.

Hint Resolve tty_cursor_quiet : ginv.

Lemma tty_cursor_pane_quiet (c : tty_ctx) (cx cy : Z) (st : state) :
  QInv st -> QInv (tty_cursor_pane c cx cy st).
Proof. intros H. cbv beta delta [tty_cursor_pane]. ginv. Qed.

Lemma tty_region_quiet (rupper rlower : Z) (st : state) :
  QInv st -> QInv (tty_region rupper rlower st).
Proof. intros H. cbv beta delta [tty_region]. ginv. Qed.

Hint Resolve tty_region_quiet : ginv.

Lemma tty_region_pane_quiet (c : tty_ctx) (rupper rlower : Z) (st : state) :
  QInv st -> QInv (tty_region_pane c rupper rlower st).
Proof. intros H. cbv beta delta [tty_region_pane]. ginv. Qed.

Lemma tty_fake_bce_quiet (wp : option window_pane) (st : state) :
  QInv st -> QInv (snd (tty_fake_bce wp st)).
Proof.
  intros H. unfold tty_fake_bce. destruct wp as [wp|].
  - pose proof (tty_default_colours_ginv e pre quiet None
                  grid_default_cell wp st H) as H'.
    destruct (tty_default_colours grid_default_cell wp st) as [gc st'].
    cbn [snd] in H'. destruct (gc_bg gc =? 8); exact H'.
  - destruct (gc_bg grid_default_cell =? 8); exact H.
Qed.

End Quiet.

(** ** The characters of a run of the engine *)

Lemma txt_start (st : state) :
  Txt (env_of st) (static_of (st_tty st)) (t_event (st_tty st)) [] st.
Proof.
  split; [reflexivity|]. split; [reflexivity|].
  exists []. split; [now rewrite app_nil_r | reflexivity].
Qed.

(** A step that is quiet and keeps the static members keeps the
    characters written so far. *)
Lemma txt_by (f : state -> state) :
  (forall e pre s, GInv quiet None e pre s -> GInv quiet None e pre (f s)) ->
  (forall v s, Keeps _ static_of v s -> Keeps _ static_of v (f s)) ->
  forall e v pre txt st, Txt e v pre txt st -> Txt e v pre txt (f st).
Proof.
  intros Hq Hk e v pre txt st (He & Hv & items & Hev & Htxt).
  assert (H0 : GInv quiet None e (t_event (st_tty st)) st).
  { rewrite <- He. apply ginv_unpin with (k := Some (t_cx (st_tty st),
                                                       t_cy (st_tty st))).
    apply ginv_start. }
  apply Hq in H0. destruct H0 as (He' & _ & items' & Hev' & HP').
  split; [exact He'|]. split; [apply Hk; exact Hv|].
  exists (items ++ items'). rewrite Hev', Hev, app_assoc.
  split; [reflexivity|].
  rewrite text_of_app, (quiet_text _ HP'), app_nil_r. exact Htxt.
Qed.

Lemma txt_with_tty (g : tty -> tty) e v v' pre txt st :
  (forall t, t_term (g t) = t_term t) ->
  (forall t, t_event (g t) = t_event t) ->
  (forall t, static_of t = v -> static_of (g t) = v') ->
  Txt e v pre txt st -> Txt e v' pre txt (with_tty g st).
Proof.
  intros Hterm Hevent Hstatic (He & Hv & Hev).
  split; [|split].
  - rewrite <- He. unfold env_of. cbn [with_tty st_tty st_window].
    now rewrite Hterm.
  - cbn [with_tty st_tty]. auto.
  - cbn [with_tty st_tty]. now rewrite Hevent.
Qed.

#[local] Hint Resolve tty_attributes_quiet tty_putc_quiet
  tty_force_cursor_colour_quiet tty_update_mode_quiet cursor_done_quiet
  cursor_absolute_quiet cursor_same_row_quiet cursor_same_column_quiet
  tty_cursor_quiet tty_cursor_pane_quiet tty_region_quiet
  tty_region_pane_quiet : ginv.

(** Solves the two premises of [txt_by] for a quiet function. *)
Ltac txt_quiet f :=
  apply (txt_by f);
  [ let s := fresh in intros ? ? s ?; ginv
  | let s := fresh in intros ? s ?; keeps
  | try assumption ].

Lemma printable_control (ch : Z) :
  (ch <? 32) || (ch =? 127) = negb (printable ch).
Proof.
  unfold printable. rewrite negb_andb, negb_involutive.
  now rewrite Z.leb_antisym, negb_involutive.
Qed.

Lemma env_of_tty (st st' : state) :
  t_term (st_tty st') = t_term (st_tty st) ->
  st_window st' = st_window st -> env_of st' = env_of st.
Proof. unfold env_of. now intros -> ->. Qed.

Lemma log_write_window (p : payload) (st : state) :
  st_window (log_write p st) = st_window st.
Proof. unfold log_write. now destruct (tty_log_fd st =? -1). Qed.

Lemma tty_putc_env (ch : Z) (st : state) :
  env_of (tty_putc ch st) = env_of st.
Proof.
  apply env_of_tty.
  - unfold tty_putc. cbv zeta. rewrite log_write_tty.
    case_if; cbn [with_tty st_tty bufferevent_write];
      [rewrite putc_advance_term|]; reflexivity.
  - unfold tty_putc. cbv zeta. rewrite log_write_window.
    case_if; reflexivity.
Qed.

Lemma tty_putn_env (buf : list Z) (len width : Z) (st : state) :
  env_of (tty_putn buf len width st) = env_of st.
Proof.
  apply env_of_tty; unfold tty_putn; cbv zeta;
    cbn [with_tty st_tty st_window set_cursor t_term].
  - now rewrite log_write_tty.
  - now rewrite log_write_window.
Qed.

Lemma tty_putn_event (buf : list Z) (len width : Z) (st : state) :
  t_event (st_tty (tty_putn buf len width st))
  = t_event (st_tty st) ++ [PData buf len].
Proof.
  unfold tty_putn. cbv zeta. cbn [with_tty st_tty set_cursor t_event].
  now rewrite log_write_tty.
Qed.

Lemma text_of_putc (t : tty) (ch : Z) :
  printable ch = true -> text_of [putc_payload t ch] = [ch].
Proof.
  intros Hch. unfold putc_payload.
  destruct (has_bit (gc_attr (t_cell t)) GRID_ATTR_CHARSET);
    [destruct (tty_acs_get t ch)|];
    cbn [text_of flat_map text_of_payload app]; now rewrite Hch.
Qed.

Section Characters.

Variable e : env.
Variable pre : list payload.

Lemma tty_putc_txt v txt (ch : Z) (st : state) :
  printable ch = true ->
  Txt e v pre txt st -> Txt e v pre (txt ++ [ch]) (tty_putc ch st).
Proof.
  intros Hch (He & Hv & items & Hev & Htxt).
  split; [now rewrite tty_putc_env|].
  split; [now apply tty_putc_keeps|].
  exists (items ++ [putc_payload (st_tty st) ch]).
  rewrite tty_putc_event, Hev, app_assoc. split; [reflexivity|].
  now rewrite text_of_app, text_of_putc, Htxt.
Qed.

Lemma repeat_putc_txt v (ch : Z) :
  printable ch = true ->
  forall (n : nat) txt (st : state),
    Txt e v pre txt st ->
    Txt e v pre (txt ++ repeat ch n) (repeat_st n (tty_putc ch) st).
Proof.
  intros Hch. induction n as [|n IH]; intros txt st H;
    cbn [repeat_st repeat].
  - now rewrite app_nil_r.
  - replace (txt ++ ch :: repeat ch n) with ((txt ++ [ch]) ++ repeat ch n)
      by now rewrite <- app_assoc.
    apply IH. now apply tty_putc_txt.
Qed.

Lemma tty_repeat_space_txt v txt (n : Z) (st : state) :
  Txt e v pre txt st ->
  Txt e v pre (txt ++ repeat 32 (Z.to_nat n)) (tty_repeat_space n st).
Proof. intros H. unfold tty_repeat_space. now apply repeat_putc_txt. Qed.

Lemma tty_putn_txt v txt (buf : list Z) (len width : Z) (st : state) :
  Txt e v pre txt st ->
  Txt e v pre (txt ++ firstn (Z.to_nat len) buf) (tty_putn buf len width st).
Proof.
  intros (He & Hv & items & Hev & Htxt).
  split; [now rewrite tty_putn_env|].
  split; [now apply tty_putn_keeps|].
  exists (items ++ [PData buf len]).
  rewrite tty_putn_event, Hev, app_assoc. split; [reflexivity|].
  rewrite text_of_app, Htxt. cbn [text_of flat_map text_of_payload].
  now rewrite app_nil_r.
Qed.

Lemma tty_attributes_txt v txt gc wp (st : state) :
  Txt e v pre txt st -> Txt e v pre txt (tty_attributes gc wp st).
Proof. intros H. txt_quiet (tty_attributes gc wp). Qed.

Lemma tty_cursor_txt v txt cx cy (st : state) :
  Txt e v pre txt st -> Txt e v pre txt (tty_cursor cx cy st).
Proof. intros H. txt_quiet (tty_cursor cx cy). Qed.

Lemma tty_cursor_pane_txt v txt c cx cy (st : state) :
  Txt e v pre txt st -> Txt e v pre txt (tty_cursor_pane c cx cy st).
Proof. intros H. txt_quiet (tty_cursor_pane c cx cy). Qed.

Lemma tty_region_pane_txt v txt c ru rl (st : state) :
  Txt e v pre txt st -> Txt e v pre txt (tty_region_pane c ru rl st).
Proof. intros H. txt_quiet (tty_region_pane c ru rl). Qed.

Lemma tty_update_mode_txt v txt mode s (st : state) :
  Txt e v pre txt st -> Txt e v pre txt (tty_update_mode mode s st).
Proof. intros H. txt_quiet (tty_update_mode mode s). Qed.

Lemma tty_fake_bce_txt v txt wp (st : state) :
  Txt e v pre txt st -> Txt e v pre txt (snd (tty_fake_bce wp st)).
Proof.
  intros H. apply (txt_by (fun s => snd (tty_fake_bce wp s))); [| |exact H].
  - intros e0 pre0 s Hs. now apply tty_fake_bce_quiet.
  - intros v0 s Hs. now apply tty_fake_bce_keeps.
Qed.

Lemma set_pane_flags_txt v txt f (st : state) :
  Txt e v pre txt st -> Txt e v pre txt (set_pane_flags f st).
Proof. intros (He & Hv & Hev). split; [exact He|]. split; assumption. Qed.

End Characters.

(** Stepping through the [let]s of a body with a property of one's
    own choosing for each state. *)
Lemma let_state_with (P Q : state -> Prop) (v : state) (b : state -> state) :
  P v -> (forall x, P x -> Q (b x)) -> Q (let y := v in b y).
Proof. intros Hv Hb. apply Hb, Hv. Qed.

Lemma let_value_with (A : Type) (Q : state -> Prop) (v : A) (b : A -> state) :
  (forall x, x = v -> Q (b x)) -> Q (let y := v in b y).
Proof. intros Hb. now apply Hb. Qed.

Ltac step_with P :=
  lazymatch goal with
  | |- ?Q ?t =>
      lazymatch t with
      | let y := ?v in @?b y =>
          refine (let_state_with P Q v b _ _); [ | intros ? ?; cbv beta ]
      end
  end.

Ltac step_value :=
  lazymatch goal with
  | |- ?Q ?t =>
      lazymatch t with
      | let y := ?v in @?b y =>
          let x := fresh "v" in
          let Hx := fresh "Hv" in
          refine (let_value_with _ Q v b _); intros x Hx; subst x; cbv beta
      end
  end.

Lemma texts_app (n : nat) : forall (from : Z) (f : Z -> list Z) (m : nat),
  texts (n + m) from f = texts n from f ++ texts m (from + Z.of_nat n) f.
Proof.
  induction n as [|n IH]; intros from f m.
  - cbn [texts Nat.add app]. now rewrite Z.add_0_r.
  - cbn [texts Nat.add]. rewrite IH, <- app_assoc. do 3 f_equal. lia.
Qed.

Lemma texts_const (n : nat) (from : Z) (l : list Z) (k : nat) :
  l = repeat 32 k -> texts n from (fun _ => l) = space_rows n k.
Proof.
  intros ->. unfold space_rows. revert from.
  induction n as [|n IH]; intros from; cbn [texts Nat.mul]; [reflexivity|].
  now rewrite IH, repeat_app.
Qed.

Lemma static_flag_set (t t' : tty) (m : Z) :
  static_of t' = static_of t ->
  static_of (set_flags (set_bit (t_flags t') m) t')
  = static_of (set_flags (set_bit (t_flags t) m) t).
Proof.
  unfold static_of. cbn [set_flags t_client t_sx t_sy t_termname t_term t_fd
                          t_flags t_term_flags].
  intros H. injection H as -> -> -> -> -> -> -> ->.
  reflexivity.
Qed.

Lemma static_flag_restore (t t' : tty) :
  static_of t' = static_of (set_flags (set_bit (t_flags t) TTY_NOCURSOR) t) ->
  static_of (set_flags (Z.lor (clear_bit (t_flags t') TTY_NOCURSOR)
                              (Z.land (t_flags t) TTY_NOCURSOR)) t')
  = static_of t.
Proof.
  unfold static_of. cbn [set_flags t_client t_sx t_sy t_termname t_term t_fd
                          t_flags t_term_flags].
  intros H. injection H as -> -> -> -> -> -> -> ->.
  now rewrite flags_restore.
Qed.

Lemma has_bit_set_other (x : Z) :
  has_bit (set_bit x TTY_NOCURSOR) TTY_UTF8 = has_bit x TTY_UTF8.
Proof.
  unfold has_bit, set_bit. rewrite Z.land_lor_distr_l.
  change (Z.land TTY_NOCURSOR TTY_UTF8) with 0. now rewrite Z.lor_0_r.
Qed.

Section Redraw.

Variable ctx : tty_ctx.
Variable e : env.
Variable pre : list payload.

(** Bulk erase has to be emulated for the pane of [ctx]. *)
Hypothesis Hfake :
  forall s, env_of s = e -> fst (tty_fake_bce (Some (ctx_wp ctx)) s) = true.

Variable t : tty.

#[local] Abbreviation T := (Txt e (static_of t) pre).

Lemma for_st_txt (f : Z -> list Z) (body : Z -> state -> state) v :
  (forall i txt s, Txt e v pre txt s -> Txt e v pre (txt ++ f i) (body i s)) ->
  forall (n : nat) (from : Z) txt st,
    Txt e v pre txt st ->
    Txt e v pre (txt ++ texts n from f) (for_st n from body st).
Proof.
  intros Hb. induction n as [|n IH]; intros from txt st H;
    cbn [for_st texts].
  - now rewrite app_nil_r.
  - rewrite app_assoc. apply IH, Hb, H.
Qed.

(** The emulation is not for early-wrap terminals, where [tty_cell]
    leaves out the last cell of the screen. *)
Hypothesis Hearly : has_bit (tm_flags (the_term t)) TERM_EARLYWRAP = false.

Lemma tty_cell_txt txt (gc : grid_cell) (wp : option window_pane)
                   (st : state) :
  T txt st -> T (txt ++ cell_text t gc) (tty_cell gc wp st).
Proof.
  intros H.
  destruct (static_sizes _ _ (proj1 (proj2 H))) as (_ & _ & Hterm & _).
  unfold tty_cell, cell_text. cbv zeta.
  replace (has_bit (tm_flags (the_term (st_tty st))) TERM_EARLYWRAP)
    with false
    by (unfold the_term in *; rewrite Hterm; symmetry; exact Hearly).
  cbn [andb].
  destruct (has_bit (gc_flags gc) GRID_FLAG_PADDING).
  { now rewrite app_nil_r. }
  assert (H1 : T txt (tty_attributes gc wp st)) by now apply tty_attributes_txt.
  destruct (static_sizes _ _ (proj1 (proj2 H1))) as (_ & _ & _ & Hfl).
  rewrite Hfl.
  destruct (ud_size (gc_data gc) =? 1).
  - rewrite printable_control.
    destruct (printable (first_byte gc)) eqn:Hp; cbn [negb].
    + now apply tty_putc_txt.
    + now rewrite app_nil_r.
  - destruct (has_bit (t_flags t) TTY_UTF8); cbn [negb].
    + now apply tty_putn_txt.
    + now apply repeat_putc_txt.
Qed.

Lemma draw_line_cell_txt txt (wp : option window_pane) (s : screen)
                         (py i : Z) (st : state) :
  T txt st -> T (txt ++ cell_text t (line_cell s py i))
                (draw_line_cell wp s py i st).
Proof.
  intros H. unfold draw_line_cell, line_cell. cbv zeta.
  destruct (has_bit (gc_flags (grid_view_get_cell (s_grid s) i py))
                    GRID_FLAG_SELECTED); now apply tty_cell_txt.
Qed.

End Redraw.

Lemma cell_text_nocursor (t : tty) (gc : grid_cell) :
  cell_text (set_flags (set_bit (t_flags t) TTY_NOCURSOR) t) gc
  = cell_text t gc.
Proof.
  unfold cell_text. cbn [set_flags t_flags]. now rewrite has_bit_set_other.
Qed.

Section RedrawLine.

Variable ctx : tty_ctx.
Variable e : env.
Variable pre : list payload.

Hypothesis Hfake :
  forall s, env_of s = e -> fst (tty_fake_bce (Some (ctx_wp ctx)) s) = true.

Variable t : tty.

Hypothesis Hearly : has_bit (tm_flags (the_term t)) TERM_EARLYWRAP = false.

#[local] Abbreviation T := (Txt e (static_of t) pre).

Lemma tty_draw_line_txt txt (s : screen) (py ox oy : Z) (st : state) :
  T txt st ->
  T (txt ++ line_text t s py)
    (tty_draw_line (Some (ctx_wp ctx)) s py ox oy st).
Proof.
  intros H.
  destruct (static_sizes _ _ (proj1 (proj2 H))) as (_ & _ & _ & Hfl0).
  cbv beta delta [tty_draw_line].
  step_value. rewrite Hfl0.
  pose (t1 := set_flags (set_bit (t_flags t) TTY_NOCURSOR) t).
  step_with (Txt e (static_of t1) pre txt).
  { apply txt_with_tty with (v := static_of t); try exact H;
      try (intros ?; reflexivity).
    intros t' Ht'. now apply static_flag_set. }
  step_with (Txt e (static_of t1) pre txt).
  { now apply tty_update_mode_txt. }
  match goal with
  | Hx : Txt e (static_of t1) pre txt ?x |- context [t_sx (st_tty ?x)] =>
      destruct (static_sizes _ _ (proj1 (proj2 Hx))) as (Hsx & _);
      rewrite Hsx
  end.
  change (t_sx t1) with (t_sx t).
  do 5 step_value.
  fold (line_width t s py).
  step_with (Txt e (static_of t1) pre txt).
  { case_if; [apply tty_cursor_txt|]; assumption. }
  step_with (Txt e (static_of t1) pre
               (txt ++ texts (Z.to_nat (line_width t s py)) 0
                             (fun i => cell_text t (line_cell s py i)))).
  { apply for_st_txt; [|assumption].
    intros i txt0 s0 Hs0. rewrite <- (cell_text_nocursor t).
    now apply draw_line_cell_txt. }
  step_with (Txt e (static_of t1) pre (txt ++ line_text t s py)).
  { match goal with
    | Hx : Txt e (static_of t1) pre _ ?x |- context [t_sx (st_tty ?x)] =>
        destruct (static_sizes _ _ (proj1 (proj2 Hx))) as (Hsx4 & _);
        rewrite Hsx4
    end.
    change (t_sx t1) with (t_sx t). unfold line_text. cbv zeta.
    destruct (line_width t s py <? t_sx t).
    2:{ now rewrite app_nil_r. }
    rewrite app_assoc.
    set (sb := tty_cursor _ _ (tty_attributes _ _ _)).
    assert (Hsb : Txt e (static_of t1) pre
                    (txt ++ texts (Z.to_nat (line_width t s py)) 0
                                  (fun i => cell_text t (line_cell s py i)))
                    sb)
      by (apply tty_cursor_txt, tty_attributes_txt; assumption).
    clearbody sb.
    case_if; [|now apply tty_repeat_space_txt].
    match goal with
    | Hx : Txt e _ pre _ ?x |- context [tty_fake_bce ?wp ?x] =>
        pose proof (Hfake x (proj1 Hx)) as Hv;
        pose proof (tty_fake_bce_txt e pre _ _ wp x Hx) as Hn;
        destruct (tty_fake_bce wp x) as [fake sc];
        cbn [fst snd] in Hv, Hn; subst fake; cbn [negb]
    end.
    now apply tty_repeat_space_txt. }
  step_with (T (txt ++ line_text t s py)).
  { match goal with
    | Hx : Txt e (static_of t1) pre ?tx ?x |- _ =>
        apply txt_with_tty with (v := static_of t1); try exact Hx;
        try (intros ?; reflexivity)
    end.
    intros t' Ht'. now apply static_flag_restore. }
  now apply tty_update_mode_txt.
Qed.

End RedrawLine.

Section PaintingHandlers.

Variable ctx : tty_ctx.
Variable e : env.
Variable pre : list payload.

Hypothesis Hfake :
  forall s, env_of s = e -> fst (tty_fake_bce (Some (ctx_wp ctx)) s) = true.

Variable t : tty.

#[local] Abbreviation T := (Txt e (static_of t) pre).

(** Under the hypothesis of the section, a call to [tty_fake_bce] for
    the pane of [ctx] answers [true] and writes nothing. *)
Ltac txt_fake :=
  match goal with
  | Hx : Txt e _ pre _ ?x |- context [tty_fake_bce ?wp ?x] =>
      let Hv := fresh "Hv" in
      let Hn := fresh "Hn" in
      pose proof (Hfake x (proj1 Hx)) as Hv;
      pose proof (tty_fake_bce_txt e pre _ _ wp x Hx) as Hn;
      destruct (tty_fake_bce wp x) as [? ?];
      cbn [fst snd] in Hv, Hn; subst;
      cbn [negb andb orb]
  end.

Lemma paint_row_txt txt (j : Z) (st : state) :
  T txt st ->
  T (txt ++ repeat 32 (Z.to_nat (screen_size_x (wp_screen (ctx_wp ctx)))))
    (paint_row ctx j st).
Proof.
  intros H. unfold paint_row.
  now apply tty_repeat_space_txt, tty_cursor_pane_txt.
Qed.

Lemma paint_rows_txt txt (n : nat) (from : Z) (st : state) :
  T txt st ->
  T (txt ++ space_rows n (Z.to_nat (screen_size_x (wp_screen (ctx_wp ctx)))))
    (for_st n from (paint_row ctx) st).
Proof.
  intros H.
  rewrite <- (texts_const n from _ _ eq_refl).
  apply for_st_txt; [|exact H].
  intros i txt0 s0 Hs0. now apply paint_row_txt.
Qed.

Lemma tty_cmd_clearcharacter_txt txt (st : state) :
  T txt st ->
  T (txt ++ painted CmdClearCharacter ctx t) (tty_cmd_clearcharacter ctx st).
Proof.
  intros H. cbv beta delta [tty_cmd_clearcharacter painted]. cbv iota.
  step_value.
  step_with (T txt). { now apply tty_attributes_txt. }
  step_with (T txt). { now apply tty_cursor_pane_txt. }
  step_value.
  case_if; [txt_fake|]; now apply repeat_putc_txt.
Qed.

Lemma tty_cmd_clearline_txt txt (st : state) :
  T txt st ->
  T (txt ++ painted CmdClearLine ctx t) (tty_cmd_clearline ctx st).
Proof.
  intros H. cbv beta delta [tty_cmd_clearline painted]. cbv iota.
  do 2 step_value.
  step_with (T txt). { now apply tty_attributes_txt. }
  step_with (T txt). { now apply tty_cursor_pane_txt. }
  case_if; [txt_fake|]; now apply tty_repeat_space_txt.
Qed.

Lemma tty_cmd_clearendofline_txt txt (st : state) :
  T txt st ->
  T (txt ++ painted CmdClearEndOfLine ctx t) (tty_cmd_clearendofline ctx st).
Proof.
  intros H. cbv beta delta [tty_cmd_clearendofline painted]. cbv iota.
  do 2 step_value.
  step_with (T txt). { now apply tty_attributes_txt. }
  step_with (T txt). { now apply tty_cursor_pane_txt. }
  step_value.
  case_if; [txt_fake|]; now apply tty_repeat_space_txt.
Qed.

Lemma tty_cmd_clearstartofline_txt txt (st : state) :
  T txt st ->
  T (txt ++ painted CmdClearStartOfLine ctx t)
    (tty_cmd_clearstartofline ctx st).
Proof.
  intros H. cbv beta delta [tty_cmd_clearstartofline painted]. cbv iota.
  step_value.
  step_with (T txt). { now apply tty_attributes_txt. }
  step_value.
  case_if; [txt_fake|]; now apply tty_repeat_space_txt, tty_cursor_pane_txt.
Qed.

Lemma tty_cmd_clearendofscreen_txt txt (st : state) :
  T txt st ->
  T (txt ++ painted CmdClearEndOfScreen ctx t)
    (tty_cmd_clearendofscreen ctx st).
Proof.
  intros H. cbv beta delta [tty_cmd_clearendofscreen painted]. cbv iota.
  do 3 step_value.
  step_with (T txt). { now apply tty_attributes_txt. }
  step_with (T txt). { now apply tty_region_pane_txt. }
  step_with (T txt). { now apply tty_cursor_pane_txt. }
  step_value. cbv zeta. rewrite app_assoc.
  case_if; [txt_fake|]; now apply paint_rows_txt, tty_repeat_space_txt.
Qed.

Lemma tty_cmd_clearstartofscreen_txt txt (st : state) :
  T txt st ->
  T (txt ++ painted CmdClearStartOfScreen ctx t)
    (tty_cmd_clearstartofscreen ctx st).
Proof.
  intros H. cbv beta delta [tty_cmd_clearstartofscreen painted]. cbv iota.
  do 3 step_value.
  step_with (T txt). { now apply tty_attributes_txt. }
  step_with (T txt). { now apply tty_region_pane_txt. }
  step_with (T txt). { now apply tty_cursor_pane_txt. }
  step_value. cbv zeta. rewrite app_assoc.
  apply tty_repeat_space_txt.
  case_if; [txt_fake|]; now apply paint_rows_txt.
Qed.

Lemma tty_cmd_clearscreen_txt txt (st : state) :
  T txt st ->
  T (txt ++ painted CmdClearScreen ctx t) (tty_cmd_clearscreen ctx st).
Proof.
  intros H. cbv beta delta [tty_cmd_clearscreen painted]. cbv iota.
  do 3 step_value.
  step_with (T txt). { now apply tty_attributes_txt. }
  step_with (T txt). { now apply tty_region_pane_txt. }
  step_with (T txt). { now apply tty_cursor_pane_txt. }
  step_value. cbv zeta.
  case_if; [txt_fake|]; now apply paint_rows_txt.
Qed.

(** The insert and delete handlers redraw from the grid. *)
Hypothesis Hearly : has_bit (tm_flags (the_term t)) TERM_EARLYWRAP = false.

Lemma tty_draw_pane_txt txt (py ox oy : Z) (st : state) :
  T txt st ->
  T (txt ++ line_text t (wp_screen (ctx_wp ctx)) py)
    (tty_draw_pane (ctx_wp ctx) py ox oy st).
Proof. intros H. unfold tty_draw_pane. now apply tty_draw_line_txt. Qed.

Lemma tty_redraw_region_txt txt (st : state) :
  T txt st -> T (txt ++ region_text t ctx) (tty_redraw_region ctx st).
Proof.
  intros H. unfold tty_redraw_region, region_text. cbv zeta.
  destruct (tty_large_region ctx).
  { rewrite app_nil_r. now apply set_pane_flags_txt. }
  case_if; (apply for_st_txt; [|exact H]);
    intros i txt0 s0 Hs0; now apply tty_draw_pane_txt.
Qed.

Lemma line_redraw_guard_txt txt (code1 : tty_code_code) (st : state) :
  T txt st ->
  fst (line_redraw_guard code1 ctx st) = true
  /\ T txt (snd (line_redraw_guard code1 ctx st)).
Proof.
  intros H. unfold line_redraw_guard. cbv zeta.
  destruct (tty_pane_full_width (st_tty st) ctx); cbn [negb fst snd].
  - txt_fake. split; [reflexivity | assumption].
  - split; [reflexivity | exact H].
Qed.

Lemma tty_cmd_insertcharacter_txt txt (st : state) :
  T txt st ->
  T (txt ++ painted CmdInsertCharacter ctx t)
    (tty_cmd_insertcharacter ctx st).
Proof.
  intros H. cbv beta delta [tty_cmd_insertcharacter painted]. cbv iota.
  step_value.
  case_if; [now apply tty_draw_pane_txt|].
  step_with (T txt). { now apply tty_attributes_txt. }
  step_with (T txt). { now apply tty_cursor_pane_txt. }
  txt_fake. now apply tty_draw_pane_txt.
Qed.

Lemma tty_cmd_deletecharacter_txt txt (st : state) :
  T txt st ->
  T (txt ++ painted CmdDeleteCharacter ctx t)
    (tty_cmd_deletecharacter ctx st).
Proof.
  intros H. cbv beta delta [tty_cmd_deletecharacter painted]. cbv iota.
  do 3 step_value.
  case_if; [now apply tty_draw_pane_txt|].
  txt_fake. now apply tty_draw_pane_txt.
Qed.

Lemma tty_cmd_insertline_txt txt (st : state) :
  T txt st ->
  T (txt ++ painted CmdInsertLine ctx t) (tty_cmd_insertline ctx st).
Proof.
  intros H. cbv beta delta [tty_cmd_insertline painted]. cbv iota.
  destruct (line_redraw_guard_txt txt TTYC_IL1 st H) as [Hg Hs].
  destruct (line_redraw_guard TTYC_IL1 ctx st) as [redraw st0].
  cbn [fst snd] in Hg, Hs. subst redraw.
  now apply tty_redraw_region_txt.
Qed.

Lemma tty_cmd_deleteline_txt txt (st : state) :
  T txt st ->
  T (txt ++ painted CmdDeleteLine ctx t) (tty_cmd_deleteline ctx st).
Proof.
  intros H. cbv beta delta [tty_cmd_deleteline painted]. cbv iota.
  destruct (line_redraw_guard_txt txt TTYC_DL1 st H) as [Hg Hs].
  destruct (line_redraw_guard TTYC_DL1 ctx st) as [redraw st0].
  cbn [fst snd] in Hg, Hs. subst redraw.
  now apply tty_redraw_region_txt.
Qed.

End PaintingHandlers.

Lemma has_bit_pane_redraw (x : Z) :
  has_bit (set_bit x PANE_REDRAW) PANE_REDRAW = true.
Proof.
  unfold has_bit, set_bit. rewrite Z.land_lor_distr_l.
  change (Z.land PANE_REDRAW PANE_REDRAW) with PANE_REDRAW.
  apply negb_true_iff, Z.eqb_neq. intros H0.
  apply Z.lor_eq_0_iff in H0. destruct H0 as [_ H0]. discriminate.
Qed.

(** A large region is left to a redraw of the whole pane. *)
Lemma redraw_deferred (code1 : tty_code_code) (ctx : tty_ctx) (st : state) :
  fst (line_redraw_guard code1 ctx st) = true ->
  tty_large_region ctx = true ->
  has_bit (st_pane_flags
             (tty_redraw_region ctx (snd (line_redraw_guard code1 ctx st))))
          PANE_REDRAW = true.
Proof.
  intros _ Hlarge. unfold tty_redraw_region. cbv zeta. rewrite Hlarge.
  cbn [set_pane_flags st_pane_flags]. apply has_bit_pane_redraw.
Qed.

Lemma same_items (A : Type) (pre a b : list A) (P : list A -> Prop) :
  pre ++ a = pre ++ b -> P b -> P a.
Proof. intros H Hb. apply app_inv_head in H. now subst. Qed.

(** C2.  When the fake-BCE predicate holds for the pane of the context,
    each of the eleven handlers that have a bulk-erase branch, and
    [tty_draw_line] with its tail fill, only appends to the output, and
    nothing it appends is the expansion of EL, EL1, ED, ECH, IL, IL1,
    DL, DL1, ICH, ICH1, DCH or DCH1.  The handler paints or redraws
    instead: the characters it writes into cells are those of
    [painted], spaces in the numbers the clear handlers erase and the
    cells of the row or of the region for the insert and delete
    handlers (which leave a large region to a redraw of the pane, and
    say so in the flags of the pane); [tty_draw_line] writes the cells
    of the row and fills its tail with spaces.  Where cells are
    redrawn, the characters are stated for a terminal that is not
    early-wrap. *)
Theorem fake_bce_soundness :
  forall (cmd : bce_command) (ctx : tty_ctx) (s : screen) (py ox oy : Z)
         (st : state),
    fst (tty_fake_bce (Some (ctx_wp ctx)) st) = true ->
    (exists items,
        t_event (st_tty (run_command cmd ctx st))
        = t_event (st_tty st) ++ items
        /\ Forall no_erase items
        /\ ((redraws cmd = true ->
             has_bit (tm_flags (the_term (st_tty st))) TERM_EARLYWRAP = false)
            -> text_of items = painted cmd ctx (st_tty st))
        /\ (defers cmd ctx = true ->
            has_bit (st_pane_flags (run_command cmd ctx st)) PANE_REDRAW
            = true))
    /\ (exists items,
        t_event (st_tty (tty_draw_line (Some (ctx_wp ctx)) s py ox oy st))
        = t_event (st_tty st) ++ items
        /\ Forall no_erase items
        /\ (has_bit (tm_flags (the_term (st_tty st))) TERM_EARLYWRAP = false
            -> text_of items = line_text (st_tty st) s py)).
Proof.
  intros cmd ctx s py ox oy st Hfake.
  assert (Hf : forall x, env_of x = env_of st ->
                         fst (tty_fake_bce (Some (ctx_wp ctx)) x) = true).
  { intros x Hx. now rewrite (tty_fake_bce_env _ x st Hx). }
  assert (H0 : GInv no_erase None (env_of st) (t_event (st_tty st)) st).
  { eapply ginv_unpin, ginv_start. }
  pose proof (txt_start st) as T0.
  split.
  - assert (H : GInv no_erase None (env_of st) (t_event (st_tty st))
                     (run_command cmd ctx st)).
    { destruct cmd; cbn [run_command].
      - now apply tty_cmd_insertcharacter_inv.
      - now apply tty_cmd_deletecharacter_inv.
      - now apply tty_cmd_clearcharacter_inv.
      - now apply tty_cmd_insertline_inv.
      - now apply tty_cmd_deleteline_inv.
      - now apply tty_cmd_clearline_inv.
      - now apply tty_cmd_clearendofline_inv.
      - now apply tty_cmd_clearstartofline_inv.
      - now apply tty_cmd_clearendofscreen_inv.
      - now apply tty_cmd_clearstartofscreen_inv.
      - now apply tty_cmd_clearscreen_inv. }
    destruct H as (_ & _ & items & Hev & Hno).
    exists items. split; [exact Hev|]. split; [exact Hno|]. split.
    + intros Hearly.
      assert (HT : Txt (env_of st) (static_of (st_tty st))
                       (t_event (st_tty st))
                       ([] ++ painted cmd ctx (st_tty st))
                       (run_command cmd ctx st)).
      { destruct cmd; cbn [run_command redraws] in *.
        - apply tty_cmd_insertcharacter_txt; auto.
        - apply tty_cmd_deletecharacter_txt; auto.
        - apply tty_cmd_clearcharacter_txt; auto.
        - apply tty_cmd_insertline_txt; auto.
        - apply tty_cmd_deleteline_txt; auto.
        - apply tty_cmd_clearline_txt; auto.
        - apply tty_cmd_clearendofline_txt; auto.
        - apply tty_cmd_clearstartofline_txt; auto.
        - apply tty_cmd_clearendofscreen_txt; auto.
        - apply tty_cmd_clearstartofscreen_txt; auto.
        - apply tty_cmd_clearscreen_txt; auto. }
      destruct HT as (_ & _ & items' & Hev' & Htxt).
      rewrite Hev in Hev'.
      exact (same_items _ _ _ _ (fun l => text_of l = _) Hev' Htxt).
    + intros Hdef.
      assert (Hg : forall code1,
                 fst (line_redraw_guard code1 ctx st) = true).
      { intros code1.
        exact (proj1 (line_redraw_guard_inv ctx (env_of st)
                        (t_event (st_tty st)) Hf code1 st H0)). }
      destruct cmd; cbn [defers] in Hdef; try discriminate;
        cbn [run_command]; cbv beta delta [tty_cmd_insertline
                                             tty_cmd_deleteline].
      * pose proof (redraw_deferred TTYC_IL1 ctx st (Hg _) Hdef) as Hr.
        specialize (Hg TTYC_IL1).
        destruct (line_redraw_guard TTYC_IL1 ctx st) as [redraw st0].
        cbn [fst snd] in *. now subst redraw.
      * pose proof (redraw_deferred TTYC_DL1 ctx st (Hg _) Hdef) as Hr.
        specialize (Hg TTYC_DL1).
        destruct (line_redraw_guard TTYC_DL1 ctx st) as [redraw st0].
        cbn [fst snd] in *. now subst redraw.
  - assert (H : GInv no_erase None (env_of st) (t_event (st_tty st))
                     (tty_draw_line (Some (ctx_wp ctx)) s py ox oy st))
      by now apply tty_draw_line_inv.
    destruct H as (_ & _ & items & Hev & Hno).
    exists items. split; [exact Hev|]. split; [exact Hno|].
    intros Hearly.
    pose proof (tty_draw_line_txt ctx _ _ Hf (st_tty st) Hearly [] s py ox oy
                  st T0) as HT.
    destruct HT as (_ & _ & items' & Hev' & Htxt).
    rewrite Hev in Hev'.
    exact (same_items _ _ _ _ (fun l => text_of l = _) Hev' Htxt).
Qed.

(** ** The shadow cursor stays on the screen *)

Lemma cview_sview (t t' : tty) : cview t' = cview t -> sview t' = sview t.
Proof. intros H. exact (f_equal (fun p => fst (fst (fst p))) H). Qed.

Lemma fit_frame (t0 : tty) (r k : Z) (st st' : state) :
  cview (st_tty st') = cview (st_tty st) ->
  Fit t0 r k st -> Fit t0 r k st'.
Proof.
  intros Hc (Hs & Hr & Hb & Hroom).
  pose proof (cview_sview _ _ Hc) as Hv.
  pose proof (f_equal (fun p => snd (fst (fst p))) Hc) as Hrl.
  pose proof (f_equal (fun p => snd (fst p)) Hc) as Hcx.
  pose proof (f_equal snd Hc) as Hcy.
  pose proof (f_equal (fun p => fst (fst (fst p))) Hv) as Hsx.
  pose proof (f_equal (fun p => snd (fst (fst p))) Hv) as Hsy.
  cbn [cview sview fst snd] in Hrl, Hcx, Hcy, Hsx, Hsy.
  split; [now rewrite Hv|].
  split; [congruence|].
  unfold cursor_bounded, room, wrap_ok in *.
  rewrite Hsx, Hsy, Hrl, Hcx, Hcy. auto.
Qed.

Lemma fit_weaken (t0 : tty) (r k k' : Z) (st : state) :
  k' <= k -> Fit t0 r k st -> Fit t0 r k' st.
Proof.
  intros Hk (Hs & Hr & Hb & Hroom).
  split; [exact Hs|]. split; [exact Hr|]. split; [exact Hb|].
  unfold room in *.
  destruct Hroom as [H|[H|[H Hw]]];
    [left; lia | right; left; lia | right; right; split; [lia | exact Hw]].
Qed.

(** A step that keeps the size, the region and the cursor keeps the
    room. *)
Lemma fit_by (f : state -> state) :
  (forall v s, Keeps _ cview v s -> Keeps _ cview v (f s)) ->
  forall t0 r k st, Fit t0 r k st -> Fit t0 r k (f st).
Proof.
  intros Hk t0 r k st H.
  apply (fit_frame t0 r k st); [|exact H].
  exact (Hk (cview (st_tty st)) st eq_refl).
Qed.

Section CursorView.

Variable v : (Z * Z * option tty_term * bool) * Z * Z * Z.

#[local] Abbreviation CV := (Keeps _ cview v).

Lemma tty_force_cursor_colour_cview (c : string) (st : state) :
  CV st -> CV (tty_force_cursor_colour c st).
Proof. intros H. cbv beta delta [tty_force_cursor_colour]. keeps. Qed.

Hint Resolve tty_force_cursor_colour_cview : keeps.

Lemma tty_update_mode_cview (mode : Z) (s : option screen) (st : state) :
  CV st -> CV (tty_update_mode mode s st).
Proof.
  intros H. cbv beta delta [tty_update_mode].
  keeps_let; [keeps|]. do 4 keeps_let.
  case_if; cbv iota beta; keeps.
Qed.

End CursorView.

#[local] Hint Resolve tty_force_cursor_colour_cview tty_update_mode_cview
  : keeps.

(** Solves the premise of [fit_by] for a function that moves nothing. *)
Ltac fit_still f :=
  apply (fit_by f); [ let s := fresh in intros ? s ?; keeps | try assumption ].

Section Room.

Variable t0 : tty.

Hypothesis Hsize : sizes_ok t0.

Lemma tty_attributes_fit r k gc wp (st : state) :
  Fit t0 r k st -> Fit t0 r k (tty_attributes gc wp st).
Proof. intros H. fit_still (tty_attributes gc wp). Qed.

Lemma tty_update_mode_fit r k mode s (st : state) :
  Fit t0 r k st -> Fit t0 r k (tty_update_mode mode s st).
Proof. intros H. fit_still (tty_update_mode mode s). Qed.

Lemma tty_putcode_fit r k c (st : state) :
  Fit t0 r k st -> Fit t0 r k (tty_putcode c st).
Proof. intros H. fit_still (tty_putcode c). Qed.

Lemma tty_putcode1_fit r k c a (st : state) :
  Fit t0 r k st -> Fit t0 r k (tty_putcode1 c a st).
Proof. intros H. fit_still (tty_putcode1 c a). Qed.

Lemma tty_emulate_repeat_fit r k c c1 n (st : state) :
  Fit t0 r k st -> Fit t0 r k (tty_emulate_repeat c c1 n st).
Proof. intros H. fit_still (tty_emulate_repeat c c1 n). Qed.

Lemma tty_fake_bce_fit r k wp (st : state) :
  Fit t0 r k st -> Fit t0 r k (snd (tty_fake_bce wp st)).
Proof.
  intros H. apply (fit_by (fun s => snd (tty_fake_bce wp s))); [|exact H].
  intros v s Hs. now apply tty_fake_bce_keeps.
Qed.

Lemma set_pane_flags_fit r k f (st : state) :
  Fit t0 r k st -> Fit t0 r k (set_pane_flags f st).
Proof. intros H. exact H. Qed.

(** [tty_cursor] makes room: whatever was before, the cursor is at the
    target afterwards. *)
Lemma tty_cursor_fit r k (cx cy : Z) (st : state) :
  sview (st_tty st) = sview t0 ->
  t_rlower (st_tty st) = r ->
  0 <= cx -> 0 <= cy < t_sy t0 -> 0 <= k ->
  (cx <= t_sx t0 - 1 -> cx + k <= t_sx t0) ->
  (t_sx t0 - 1 < cx -> k <= 1) ->
  Fit t0 r k (tty_cursor cx cy st).
Proof.
  intros Hs Hr Hcx Hcy Hk Hin Hout.
  destruct Hsize as [Hsx Hsy].
  destruct (tty_cursor_moved cx cy st) as [items Hm].
  pose proof (f_equal (fun p => fst (fst (fst p))) Hs) as Esx.
  pose proof (f_equal (fun p => snd (fst (fst p))) Hs) as Esy.
  cbn [sview fst snd] in Esx, Esy.
  assert (Hclamp : clamp_cx (st_tty st) cx
                   = if cx >? t_sx t0 - 1 then t_sx t0 - 1 else cx).
  { unfold clamp_cx. rewrite Esx, u32_small by (unfold UINT_MAX; lia).
    reflexivity. }
  unfold Fit, cursor_bounded, room, sview. rewrite Hm.
  cbn [set_event set_cursor t_sx t_sy t_term t_flags t_rlower t_cx t_cy].
  rewrite Hclamp. fold (sview (st_tty st)). rewrite Esx, Esy.
  split; [exact Hs|]. split; [exact Hr|].
  destruct (cx >? t_sx t0 - 1) eqn:E; zbool.
  - split; [split; right; lia|]. right; left. specialize (Hout E). lia.
  - split; [split; right; lia|]. right; left. apply Hin. lia.
Qed.

End Room.

Lemma sview_fields (t t' : tty) :
  sview t' = sview t ->
  t_sx t' = t_sx t /\ t_sy t' = t_sy t /\ t_term t' = t_term t
  /\ has_bit (t_flags t') TTY_UTF8 = has_bit (t_flags t) TTY_UTF8.
Proof.
  intros H.
  pose proof (f_equal (fun p => fst (fst (fst p))) H) as Hsx.
  pose proof (f_equal (fun p => snd (fst (fst p))) H) as Hsy.
  pose proof (f_equal (fun p => snd (fst p)) H) as Hterm.
  pose proof (f_equal snd H) as Hutf.
  cbn [sview fst snd] in *. auto.
Qed.

Lemma tty_putc_tty (ch : Z) (st : state) :
  st_tty (tty_putc ch st)
  = let t := set_event (t_event (st_tty st) ++ [putc_payload (st_tty st) ch])
                       (st_tty st) in
    if printable ch then putc_advance t else t.
Proof.
  unfold tty_putc. cbv zeta. rewrite log_write_tty.
  change ((32 <=? ch) && negb (ch =? 127)) with (printable ch).
  destruct (printable ch); reflexivity.
Qed.

Section Writing.

Variable t0 : tty.

Hypothesis Hsize : sizes_ok t0.
Hypothesis Hearly : has_bit (tm_flags (the_term t0)) TERM_EARLYWRAP = false.

(** One character written where there is room for it. *)
Lemma putc_advance_fit (t : tty) (k : Z) :
  sview t = sview t0 -> cursor_bounded t -> room t (k + 1) -> 0 <= k ->
  sview (putc_advance t) = sview t0
  /\ t_rlower (putc_advance t) = t_rlower t
  /\ cursor_bounded (putc_advance t)
  /\ room (putc_advance t) k.
Proof.
  intros Hs Hb Hroom Hk.
  destruct Hsize as [Hsx Hsy].
  destruct (sview_fields _ _ Hs) as (Esx & Esy & Eterm & _).
  unfold putc_advance. cbv zeta.
  replace (has_bit (tm_flags (the_term t)) TERM_EARLYWRAP) with false
    by (unfold the_term in *; rewrite Eterm; symmetry; exact Hearly).
  unfold cursor_bounded, room, wrap_ok in *. rewrite Esx, Esy in *.
  destruct Hb as [Hx Hy].
  destruct (t_cx t >=? t_sx t0) eqn:Ewrap; zbool.
  - (* the character wraps *)
    cbn [set_cursor t_cx t_cy t_sx t_sy t_rlower]. rewrite ?Esx, ?Esy.
    split; [exact Hs|]. split; [reflexivity|].
    assert (Hw : k + 1 <= t_sx t0
                 /\ (t_cy t = t_rlower t \/ t_cy t + 1 < t_sy t0
                     \/ t_cy t = UINT_MAX)).
    { destruct Hroom as [H|[H|H]]; [lia| |exact H]. exfalso.
      destruct Hx as [Hx|Hx]; unfold UINT_MAX in *; lia. }
    destruct Hw as [Hk1 Hw].
    split; [|right; left; lia].
    split; [right; lia|].
    destruct (t_cy t =? t_rlower t) eqn:Erl; cbn [negb]; zbool.
    + exact Hy.
    + right. destruct Hw as [Hw|[Hw|Hw]]; [contradiction| |].
      * destruct Hy as [Hy|Hy].
        -- rewrite Hy. change (u32 (UINT_MAX + 1)) with 0. lia.
        -- rewrite u32_small by (unfold UINT_MAX; lia). lia.
      * rewrite Hw. change (u32 (UINT_MAX + 1)) with 0. lia.
  - (* it does not *)
    cbn [set_cursor t_cx t_cy t_sx t_sy t_rlower]. rewrite ?Esx, ?Esy.
    split; [exact Hs|]. split; [reflexivity|].
    assert (Hx' : 0 <= t_cx t < t_sx t0)
      by (destruct Hx as [Hx|Hx]; unfold UINT_MAX in *; lia).
    rewrite u32_small by (unfold UINT_MAX; lia).
    split; [split; [right; lia | exact Hy]|].
    destruct Hroom as [H|[H|[H Hw]]];
      [lia | right; left; lia | right; right; split; [lia|exact Hw]].
Qed.

Lemma tty_putc_fit r k (ch : Z) (st : state) :
  printable ch = true -> 0 <= k ->
  Fit t0 r (k + 1) st -> Fit t0 r k (tty_putc ch st).
Proof.
  intros Hch Hk (Hs & Hr & Hb & Hroom).
  unfold Fit. rewrite tty_putc_tty. cbv zeta. rewrite Hch.
  set (t := set_event _ (st_tty st)).
  destruct (putc_advance_fit t k) as (Hs' & Hr' & Hb' & Hroom');
    try assumption.
  rewrite Hr'. auto.
Qed.

Lemma tty_putc_ctrl_fit r k (ch : Z) (st : state) :
  printable ch = false -> Fit t0 r k st -> Fit t0 r k (tty_putc ch st).
Proof.
  intros Hch H. apply (fit_frame t0 r k st); [|exact H].
  rewrite tty_putc_tty. cbv zeta. rewrite Hch. reflexivity.
Qed.

Lemma repeat_putc_fit r (ch : Z) :
  printable ch = true ->
  forall (n : nat) k (st : state),
    0 <= k ->
    Fit t0 r (k + Z.of_nat n) st -> Fit t0 r k (repeat_st n (tty_putc ch) st).
Proof.
  intros Hch. induction n as [|n IH]; intros k st Hk H; cbn [repeat_st].
  - now rewrite Z.add_0_r in H.
  - apply IH; [exact Hk|]. apply tty_putc_fit; [exact Hch | lia |].
    replace (k + Z.of_nat n + 1) with (k + Z.of_nat (S n)) by lia. exact H.
Qed.

Lemma tty_repeat_space_fit r k (n : Z) (st : state) :
  0 <= k -> 0 <= n ->
  Fit t0 r (k + n) st -> Fit t0 r k (tty_repeat_space n st).
Proof.
  intros Hk Hn H. unfold tty_repeat_space.
  apply repeat_putc_fit; [reflexivity | exact Hk |].
  now rewrite Z2Nat.id.
Qed.

(** A narrow cell takes one column at most. *)
Lemma tty_cell_fit r k (gc : grid_cell) (wp : option window_pane)
                   (st : state) :
  narrow t0 gc -> 0 <= k ->
  Fit t0 r (k + 1) st -> Fit t0 r k (tty_cell gc wp st).
Proof.
  intros Hn Hk H.
  assert (Hw : Fit t0 r k st) by (apply (fit_weaken t0 r (k + 1)); [lia|exact H]).
  destruct (sview_fields _ _ (proj1 H)) as (_ & _ & Hterm & _).
  unfold tty_cell. cbv zeta.
  replace (has_bit (tm_flags (the_term (st_tty st))) TERM_EARLYWRAP)
    with false
    by (unfold the_term in *; rewrite Hterm; symmetry; exact Hearly).
  cbn [andb].
  destruct (has_bit (gc_flags gc) GRID_FLAG_PADDING); [exact Hw|].
  assert (H1 : Fit t0 r (k + 1) (tty_attributes gc wp st))
    by now apply tty_attributes_fit.
  assert (H1w : Fit t0 r k (tty_attributes gc wp st))
    by now apply tty_attributes_fit.
  destruct (sview_fields _ _ (proj1 H1)) as (_ & _ & _ & Hutf).
  rewrite Hutf.
  destruct (ud_size (gc_data gc) =? 1) eqn:Esize.
  - rewrite printable_control.
    destruct (printable (first_byte gc)) eqn:Hp; cbn [negb];
      [now apply tty_putc_fit | exact H1w].
  - zbool. destruct Hn as [Hn|[Hutf0 Hwd]]; [contradiction|].
    rewrite Hutf0. cbn [negb].
    assert (Hcases : ud_width (gc_data gc) = 0 \/ ud_width (gc_data gc) = 1)
      by lia.
    destruct Hcases as [-> | ->]; cbn [Z.to_nat Pos.to_nat Pos.iter_op
                                          repeat_st].
    + exact H1w.
    + now apply tty_putc_fit.
Qed.

Lemma draw_line_cell_fit r k (wp : option window_pane) (s : screen)
                         (py i : Z) (st : state) :
  narrow t0 (line_cell s py i) -> 0 <= k ->
  Fit t0 r (k + 1) st -> Fit t0 r k (draw_line_cell wp s py i st).
Proof.
  intros Hn Hk H. unfold draw_line_cell, line_cell in *. cbv zeta in *.
  destruct (has_bit (gc_flags (grid_view_get_cell (s_grid s) i py))
                    GRID_FLAG_SELECTED); now apply tty_cell_fit.
Qed.

Lemma draw_line_cells_fit r (wp : option window_pane) (s : screen) (py : Z) :
  (forall i, narrow t0 (line_cell s py i)) ->
  forall (n : nat) (from : Z) k (st : state),
    0 <= k ->
    Fit t0 r (k + Z.of_nat n) st ->
    Fit t0 r k (for_st n from (draw_line_cell wp s py) st).
Proof.
  intros Hn. induction n as [|n IH]; intros from k st Hk H; cbn [for_st].
  - now rewrite Z.add_0_r in H.
  - apply IH; [exact Hk|]. apply draw_line_cell_fit; [apply Hn | lia |].
    replace (k + Z.of_nat n + 1) with (k + Z.of_nat (S n)) by lia. exact H.
Qed.

(** [tty_region] leaves the cursor where it was or at the origin. *)
Lemma tty_region_fit r k (ru rl : Z) (st : state) :
  0 <= k <= t_sx t0 ->
  Fit t0 r k st -> exists r', Fit t0 r' k (tty_region ru rl st).
Proof.
  intros Hk H. destruct Hsize as [Hsx Hsy].
  unfold tty_region. cbv zeta.
  case_if; [exists r; exact H|].
  case_if; [exists r; exact H|].
  set (st1 := with_tty (set_region ru rl) st).
  set (st2 := if t_cx (st_tty st1) >=? t_sx (st_tty st1)
              then tty_cursor 0 (t_cy (st_tty st1)) st1 else st1).
  set (st3 := tty_putcode2 TTYC_CSR _ _ st2).
  destruct H as (Hs & _).
  assert (H1 : sview (st_tty st1) = sview t0) by exact Hs.
  assert (H2 : sview (st_tty st2) = sview t0
               /\ t_rlower (st_tty st2) = rl).
  { subst st2. case_if; [|split; [exact H1|reflexivity]].
    destruct (tty_cursor_moved 0 (t_cy (st_tty st1)) st1) as [items Hm].
    rewrite Hm. split; [exact H1 | reflexivity]. }
  destruct H2 as [H2 H2r].
  assert (H3 : sview (st_tty st3) = sview t0 /\ t_rlower (st_tty st3) = rl).
  { subst st3.
    match goal with
    | |- context [tty_putcode2 ?c ?a ?b st2] =>
        destruct (tty_putcode2_only_emits c a b st2) as [items Hm]
    end.
    rewrite Hm. split; [exact H2 | exact H2r]. }
  destruct H3 as [H3 H3r].
  exists rl. apply tty_cursor_fit; try assumption; lia.
Qed.

End Writing.

(** ** Every handler keeps the shadow cursor on the screen *)

Lemma cview_fields (t t' : tty) :
  cview t' = cview t ->
  sview t' = sview t /\ t_rlower t' = t_rlower t
  /\ t_cx t' = t_cx t /\ t_cy t' = t_cy t.
Proof.
  intros H.
  pose proof (f_equal (fun p => fst (fst (fst p))) H) as Hv.
  pose proof (f_equal (fun p => snd (fst (fst p))) H) as Hrl.
  pose proof (f_equal (fun p => snd (fst p)) H) as Hcx.
  pose proof (f_equal snd H) as Hcy.
  cbn [cview fst snd] in Hv, Hrl, Hcx, Hcy. auto.
Qed.

Lemma fit_kind (t0 : tty) r k (st : state) : Fit t0 r k st -> Kind t0 r st.
Proof. intros (Hs & Hr & _). now split. Qed.

Lemma at_kind (t0 : tty) r x y (st : state) : At t0 r x y st -> Kind t0 r st.
Proof. intros (Hs & Hr & _). now split. Qed.

Lemma fit_bounded (t0 : tty) r k (st : state) :
  Fit t0 r k st -> Bounded t0 st.
Proof. intros (Hs & _ & Hb & _). now split. Qed.

Lemma fit_start (t0 : tty) r (st : state) :
  Kind t0 r st -> cursor_bounded (st_tty st) -> Fit t0 r 0 st.
Proof.
  intros [Hs Hr] Hb. split; [exact Hs|]. split; [exact Hr|].
  split; [exact Hb|]. left. lia.
Qed.

Lemma at_bounded (t0 : tty) r x y (st : state) :
  At t0 r x y st -> 0 <= x <= t_sx t0 -> 0 <= y < t_sy t0 ->
  Bounded t0 st.
Proof.
  intros (Hs & _ & Hx & Hy) Hbx Hby.
  destruct (sview_fields _ _ Hs) as (Esx & Esy & _).
  split; [exact Hs|]. unfold cursor_bounded.
  rewrite Hx, Hy, Esx, Esy. split; right; assumption.
Qed.

(** A cursor at a known place with the room it has in its row. *)
Lemma at_fit (t0 : tty) r x y k (st : state) :
  At t0 r x y st -> 0 <= x -> x + k <= t_sx t0 -> 0 <= k ->
  0 <= y < t_sy t0 ->
  Fit t0 r k st.
Proof.
  intros H Hx Hk Hk0 Hy.
  destruct (at_bounded t0 r x y st H) as [Hs Hb]; [lia | exact Hy |].
  destruct H as (_ & Hr & Ex & _).
  destruct (sview_fields _ _ Hs) as (Esx & _).
  split; [exact Hs|]. split; [exact Hr|]. split; [exact Hb|].
  right; left. rewrite Ex, Esx. exact Hk.
Qed.

(** A cursor at a known place above the last row: a row of characters
    may wrap once. *)
Lemma at_fit_wrap (t0 : tty) r x y k (st : state) :
  At t0 r x y st -> 0 <= x <= t_sx t0 -> 0 <= y -> y + 1 < t_sy t0 ->
  k <= t_sx t0 ->
  Fit t0 r k st.
Proof.
  intros H Hx Hy Hy1 Hk.
  destruct (at_bounded t0 r x y st H) as [Hs Hb]; [lia | lia |].
  destruct H as (_ & Hr & _ & Ey).
  destruct (sview_fields _ _ Hs) as (Esx & Esy & _).
  split; [exact Hs|]. split; [exact Hr|]. split; [exact Hb|].
  right; right. unfold wrap_ok. rewrite Ey, Esx, Esy.
  split; [exact Hk | right; left; exact Hy1].
Qed.

Lemma kind_frame (t0 : tty) r (st st' : state) :
  cview (st_tty st') = cview (st_tty st) -> Kind t0 r st -> Kind t0 r st'.
Proof.
  intros Hc [Hs Hr]. destruct (cview_fields _ _ Hc) as (Hv & Hrl & _).
  split; congruence.
Qed.

Lemma at_frame (t0 : tty) r x y (st st' : state) :
  cview (st_tty st') = cview (st_tty st) -> At t0 r x y st -> At t0 r x y st'.
Proof.
  intros Hc (Hs & Hr & Hx & Hy).
  destruct (cview_fields _ _ Hc) as (Hv & Hrl & Hcx & Hcy).
  repeat (split; [congruence|]). congruence.
Qed.

Lemma cview_by (f : state -> state) :
  (forall v s, Keeps _ cview v s -> Keeps _ cview v (f s)) ->
  forall st, cview (st_tty (f st)) = cview (st_tty st).
Proof. intros Hk st. exact (Hk (cview (st_tty st)) st eq_refl). Qed.

Ltac cview_still :=
  match goal with
  | |- cview (st_tty (?f ?s)) = cview (st_tty ?s) =>
      apply (cview_by f); intros ? ? ?; keeps
  end.

Lemma tty_attributes_still gc wp (st : state) :
  cview (st_tty (tty_attributes gc wp st)) = cview (st_tty st).
Proof. cview_still. Qed.

Lemma tty_update_mode_still mode s (st : state) :
  cview (st_tty (tty_update_mode mode s st)) = cview (st_tty st).
Proof. cview_still. Qed.

Lemma tty_putcode_still c (st : state) :
  cview (st_tty (tty_putcode c st)) = cview (st_tty st).
Proof. cview_still. Qed.

Lemma tty_putcode1_still c a (st : state) :
  cview (st_tty (tty_putcode1 c a st)) = cview (st_tty st).
Proof. cview_still. Qed.

Lemma tty_emulate_repeat_still c c1 n (st : state) :
  cview (st_tty (tty_emulate_repeat c c1 n st)) = cview (st_tty st).
Proof. cview_still. Qed.

Lemma tty_fake_bce_still wp (st : state) :
  cview (st_tty (snd (tty_fake_bce wp st))) = cview (st_tty st).
Proof. now rewrite (proj1 (tty_fake_bce_frame wp st)). Qed.

Lemma set_pane_flags_still f (st : state) :
  cview (st_tty (set_pane_flags f st)) = cview (st_tty st).
Proof. reflexivity. Qed.

Lemma tty_putc_ctrl_still (ch : Z) (st : state) :
  printable ch = false ->
  cview (st_tty (tty_putc ch st)) = cview (st_tty st).
Proof. intros Hch. rewrite tty_putc_tty. cbv zeta. now rewrite Hch. Qed.

Lemma nocursor_set_still (st : state) :
  cview (st_tty (with_tty
                   (fun t => set_flags (set_bit (t_flags t) TTY_NOCURSOR) t)
                   st))
  = cview (st_tty st).
Proof.
  unfold cview, sview.
  cbn [with_tty st_tty set_flags t_sx t_sy t_term t_flags t_rlower t_cx t_cy].
  now rewrite has_bit_set_other.
Qed.

Lemma has_bit_restore_other (x y : Z) :
  has_bit (Z.lor (clear_bit x TTY_NOCURSOR) (Z.land y TTY_NOCURSOR)) TTY_UTF8
  = has_bit x TTY_UTF8.
Proof.
  unfold has_bit, clear_bit. rewrite Z.land_lor_distr_l.
  rewrite <- !Z.land_assoc.
  change (Z.land TTY_NOCURSOR TTY_UTF8) with 0.
  change (Z.land (Z.lnot TTY_NOCURSOR) TTY_UTF8) with TTY_UTF8.
  now rewrite Z.land_0_r, Z.lor_0_r.
Qed.

Lemma nocursor_restore_still (flags : Z) (st : state) :
  cview (st_tty (with_tty
                   (fun t => set_flags
                               (Z.lor (clear_bit (t_flags t) TTY_NOCURSOR)
                                      (Z.land flags TTY_NOCURSOR)) t)
                   st))
  = cview (st_tty st).
Proof.
  unfold cview, sview.
  cbn [with_tty st_tty set_flags t_sx t_sy t_term t_flags t_rlower t_cx t_cy].
  now rewrite has_bit_restore_other.
Qed.

Create HintDb still.

#[local] Hint Resolve tty_attributes_still tty_update_mode_still
  tty_putcode_still tty_putcode1_still tty_emulate_repeat_still
  tty_fake_bce_still set_pane_flags_still nocursor_set_still
  nocursor_restore_still : still.

(** Carries [At], [Fit] or [Kind] over a step that moves nothing. *)
Ltac by_frame :=
  first [ eapply at_frame | eapply fit_frame | eapply kind_frame ];
  [ solve [eauto with still nocore] | eassumption ].

Lemma for_st_range (I : state -> Prop) (body : Z -> state -> state) :
  forall (n : nat) (from : Z) (st : state),
    (forall i s, from <= i < from + Z.of_nat n -> I s -> I (body i s)) ->
    I st -> I (for_st n from body st).
Proof.
  induction n as [|n IH]; intros from st Hbody H; cbn [for_st]; [exact H|].
  apply IH.
  - intros i s Hi Hs. apply Hbody; [lia | exact Hs].
  - apply Hbody; [lia | exact H].
Qed.

Lemma for_st_index (J : Z -> state -> Prop) (body : Z -> state -> state) :
  forall (n : nat) (from : Z) (st : state),
    (forall i s, from <= i < from + Z.of_nat n ->
                 J i s -> J (i + 1) (body i s)) ->
    J from st -> J (from + Z.of_nat n) (for_st n from body st).
Proof.
  induction n as [|n IH]; intros from st Hbody H; cbn [for_st].
  - now rewrite Z.add_0_r.
  - replace (from + Z.of_nat (S n)) with (from + 1 + Z.of_nat n) by lia.
    apply IH.
    + intros i s Hi Hs. apply Hbody; [lia | exact Hs].
    + apply Hbody; [lia | exact H].
Qed.

Lemma tty_putc_sview (ch : Z) (st : state) :
  sview (st_tty (tty_putc ch st)) = sview (st_tty st).
Proof.
  rewrite tty_putc_tty. cbv zeta.
  destruct (printable ch); [|reflexivity].
  unfold putc_advance. cbv zeta. case_if; reflexivity.
Qed.

Section Places.

Variable t0 : tty.

Hypothesis Hsize : sizes_ok t0.
Hypothesis Hearly : has_bit (tm_flags (the_term t0)) TERM_EARLYWRAP = false.

Lemma tty_cursor_at r (cx cy : Z) (st : state) :
  Kind t0 r st -> 0 <= cx < t_sx t0 ->
  At t0 r cx cy (tty_cursor cx cy st).
Proof.
  intros [Hs Hr] Hcx. destruct Hsize as [Hsx Hsy].
  destruct (tty_cursor_moved cx cy st) as [items Hm].
  destruct (sview_fields _ _ Hs) as (Esx & _).
  assert (Hclamp : clamp_cx (st_tty st) cx = cx).
  { unfold clamp_cx. rewrite Esx, u32_small by (unfold UINT_MAX; lia).
    destruct (cx >? t_sx t0 - 1) eqn:E; zbool; lia. }
  unfold At. rewrite Hm, Hclamp.
  split; [exact Hs|]. split; [exact Hr|]. split; reflexivity.
Qed.

(** A printable character written before the last column is passed. *)
Lemma tty_putc_at r x y (ch : Z) (st : state) :
  printable ch = true ->
  At t0 r x y st -> 0 <= x < t_sx t0 ->
  At t0 r (x + 1) y (tty_putc ch st).
Proof.
  intros Hch (Hs & Hr & Hx & Hy) Hb. destruct Hsize as [Hsx Hsy].
  unfold At. rewrite tty_putc_tty. cbv zeta. rewrite Hch.
  set (t := set_event _ (st_tty st)).
  assert (Ht : sview t = sview t0 /\ t_rlower t = r
               /\ t_cx t = x /\ t_cy t = y)
    by (split; [exact Hs|]; split; [exact Hr|]; split; assumption).
  clearbody t. destruct Ht as (Hs' & Hr' & Hx' & Hy').
  destruct (sview_fields _ _ Hs') as (Esx & _ & Eterm & _).
  unfold putc_advance. cbv zeta.
  replace (has_bit (tm_flags (the_term t)) TERM_EARLYWRAP) with false
    by (unfold the_term in *; rewrite Eterm; symmetry; exact Hearly).
  rewrite Esx, Hx'.
  destruct (x >=? t_sx t0) eqn:E; zbool; [lia|].
  cbn [set_cursor t_cx t_cy t_rlower].
  rewrite u32_small by (unfold UINT_MAX; lia).
  split; [exact Hs'|]. split; [exact Hr'|]. split; [reflexivity | exact Hy'].
Qed.

Lemma repeat_putc_at r y (ch : Z) :
  printable ch = true ->
  forall (n : nat) x (st : state),
    At t0 r x y st -> 0 <= x -> x + Z.of_nat n <= t_sx t0 ->
    At t0 r (x + Z.of_nat n) y (repeat_st n (tty_putc ch) st).
Proof.
  intros Hch. induction n as [|n IH]; intros x st H Hx Hn; cbn [repeat_st].
  - now rewrite Z.add_0_r.
  - replace (x + Z.of_nat (S n)) with (x + 1 + Z.of_nat n) by lia.
    apply IH; [|lia|lia]. apply tty_putc_at; [exact Hch | exact H | lia].
Qed.

Lemma tty_repeat_space_at r x y (n : Z) (st : state) :
  At t0 r x y st -> 0 <= x -> 0 <= n -> x + n <= t_sx t0 ->
  At t0 r (x + n) y (tty_repeat_space n st).
Proof.
  intros H Hx Hn Hfit. unfold tty_repeat_space.
  rewrite <- (Z2Nat.id n Hn) at 1.
  apply repeat_putc_at; [reflexivity | exact H | exact Hx |].
  now rewrite Z2Nat.id.
Qed.

(** One row of an erase loop: the shadow row follows the move down. *)
Lemma el_row_at r x y (last : bool) (st : state) :
  At t0 r x y st -> 0 <= y -> y + 1 <= UINT_MAX ->
  At t0 r x (if last then y else y + 1) (el_row last st).
Proof.
  intros H Hy Hy1. unfold el_row. cbv zeta.
  destruct last; cbv iota; [by_frame|].
  assert (H1 : At t0 r x y
                 (tty_emulate_repeat TTYC_CUD TTYC_CUD1 1
                                     (tty_putcode TTYC_EL st))).
  { eapply at_frame; [apply tty_emulate_repeat_still|]. by_frame. }
  destruct H1 as (Hs & Hr & Ex & Ey).
  unfold At. cbn [with_tty st_tty set_cursor t_cx t_cy t_rlower].
  rewrite Ex, Ey, u32_small by lia.
  split; [exact Hs|]. split; [exact Hr|]. split; reflexivity.
Qed.

Lemma tty_region_bounded r (ru rl : Z) (st : state) :
  Fit t0 r 0 st -> exists r', Fit t0 r' 0 (tty_region ru rl st).
Proof.
  intros H. apply tty_region_fit with (r := r); [exact Hsize| |exact H].
  destruct Hsize as [Hsx _]. lia.
Qed.

End Places.
Ltac step_as P x Hx :=
  lazymatch goal with
  | |- ?Q ?t =>
      lazymatch t with
      | let y := ?v in @?b y =>
          refine (let_state_with P Q v b _ _); [ | intros x Hx; cbv beta ]
      end
  end.

(** Carries what is known of a state to a state with the same cursor
    view. *)
Ltac carry_over Hf :=
  lazymatch type of Hf with
  | cview (st_tty ?s') = cview (st_tty ?s) =>
      repeat match goal with
        | Hx : At ?t ?r ?a ?b s |- _ =>
            lazymatch goal with
            | _ : At t r a b s' |- _ => fail
            | _ => pose proof (at_frame t r a b s s' Hf Hx)
            end
        | Hx : Fit ?t ?r ?k s |- _ =>
            lazymatch goal with
            | _ : Fit t r k s' |- _ => fail
            | _ => pose proof (fit_frame t r k s s' Hf Hx)
            end
        | Hx : Kind ?t ?r s |- _ =>
            lazymatch goal with
            | _ : Kind t r s' |- _ => fail
            | _ => pose proof (kind_frame t r s s' Hf Hx)
            end
        end
  end.

(** Takes the answer of [tty_fake_bce] apart: two cases, and what was
    known before the call is known after it. *)
Ltac split_fake sf :=
  match goal with
  | |- context [tty_fake_bce ?wp ?x] =>
      let Hf := fresh "Hf" in
      let fake := fresh "fake" in
      pose proof (tty_fake_bce_still wp x) as Hf;
      destruct (tty_fake_bce wp x) as [fake sf]; cbn [snd] in Hf;
      carry_over Hf;
      destruct fake; cbn [negb andb orb]; cbv beta iota
  end.

Section Handlers.

Variable t0 : tty.
Variable ctx : tty_ctx.

Hypothesis Hsize : sizes_ok t0.
Hypothesis Hearly : has_bit (tm_flags (the_term t0)) TERM_EARLYWRAP = false.
Hypothesis Hctx : ctx_on_screen ctx t0.

#[local] Abbreviation scr := (wp_screen (ctx_wp ctx)).
#[local] Abbreviation SX := (screen_size_x (wp_screen (ctx_wp ctx))).
#[local] Abbreviation SY := (screen_size_y (wp_screen (ctx_wp ctx))).
#[local] Abbreviation XO := (ctx_xoff ctx).
#[local] Abbreviation YO := (ctx_yoff ctx).
#[local] Abbreviation pane := (Some (ctx_wp ctx)).

Ltac ctx_facts :=
  let H := fresh in
  pose proof Hctx as H; unfold ctx_on_screen in H; cbv zeta in H;
  destruct H as (Hxo & Hyo & Hssx & Hssy & Hfx & Hfy & Hocx & Hocy & Horu
                 & Horl & Hsrl & Hcs & Hnarrow & Hcell & Hlast);
  let H' := fresh in
  pose proof Hsize as H'; destruct H' as [Hsx Hsy].

Ltac small := rewrite ?u32_small by (unfold UINT_MAX; lia).

Lemma tty_cursor_pane_at r (cx cy : Z) (st : state) :
  Kind t0 r st -> 0 <= cx < SX -> 0 <= cy < SY ->
  At t0 r (XO + cx) (YO + cy) (tty_cursor_pane ctx cx cy st).
Proof.
  intros H Hcx Hcy. ctx_facts. unfold tty_cursor_pane. small.
  apply tty_cursor_at; [exact Hsize | exact H | lia].
Qed.

Lemma tty_cursor_pane_fit r k (cx cy : Z) (st : state) :
  Kind t0 r st -> 0 <= cx < SX -> 0 <= cy < SY -> 0 <= k -> cx + k <= SX ->
  Fit t0 r k (tty_cursor_pane ctx cx cy st).
Proof.
  intros H Hcx Hcy Hk Hfit. ctx_facts.
  apply (at_fit t0 r (XO + cx) (YO + cy)); [|lia..].
  now apply tty_cursor_pane_at.
Qed.

Lemma paint_row_at r (j : Z) (st : state) :
  Kind t0 r st -> 0 <= j < SY ->
  At t0 r (XO + 0 + SX) (YO + j) (paint_row ctx j st).
Proof.
  intros H Hj. ctx_facts. unfold paint_row.
  apply tty_repeat_space_at; try assumption; try lia.
  apply tty_cursor_pane_at; [exact H | lia | exact Hj].
Qed.

Lemma tty_region_pane_bounded r (ru rl : Z) (st : state) :
  Fit t0 r 0 st -> exists r', Fit t0 r' 0 (tty_region_pane ctx ru rl st).
Proof.
  intros H. unfold tty_region_pane.
  now apply tty_region_bounded with (r := r).
Qed.

Lemma line_width_bounds (py : Z) :
  0 <= line_width t0 scr py <= SX /\ line_width t0 scr py <= t_sx t0.
Proof.
  ctx_facts. unfold line_width. cbv zeta.
  specialize (Hcs (u32 (gd_hsize (s_grid scr) + py))).
  set (c := cellsize _) in *.
  destruct (SX >? c) eqn:E; case_if; zbool; lia.
Qed.

(** A row redrawn from the grid. *)
Lemma tty_draw_line_fit r (py : Z) (st : state) :
  0 <= py < SY ->
  (r = YO + s_rlower scr \/ YO + s_rlower scr + 1 < t_sy t0) ->
  Fit t0 r 0 st ->
  Fit t0 r 0 (tty_draw_line pane scr py XO YO st).
Proof.
  intros Hpy Hreg H. ctx_facts.
  pose proof (line_width_bounds py) as HW.
  cbv beta delta [tty_draw_line].
  step_value.
  step_as (Fit t0 r 0) s1 H1. { by_frame. }
  step_as (Fit t0 r 0) s2 H2. { by_frame. }
  destruct (sview_fields _ _ (proj1 H2)) as (Esx2 & Esy2 & _).
  rewrite Esx2.
  do 5 step_value.
  fold (line_width t0 scr py).
  set (W := line_width t0 scr py) in *.
  step_as (Fit t0 r W) s3 H3.
  { destruct H2 as (Hs2 & Hr2 & Hb2 & _). small.
    case_if.
    - apply tty_cursor_fit; try assumption; lia.
    - zbool_split.
      + (* the row continues the row the cursor has just left *)
        split; [exact Hs2|]. split; [exact Hr2|]. split; [exact Hb2|].
        right; right. rewrite Esx2. split; [lia|].
        unfold wrap_ok. rewrite Esy2.
        destruct Hb2 as [_ [Hcy|Hcy]]; [right; right; exact Hcy|].
        rewrite Esy2 in Hcy.
        rewrite u32_small in * by (unfold UINT_MAX; lia).
        right; left. lia.
      + (* the cursor is on the lower edge of the region *)
        split; [exact Hs2|]. split; [exact Hr2|]. split; [exact Hb2|].
        right; right. rewrite Esx2. split; [lia|].
        unfold wrap_ok. rewrite Esy2, Hr2.
        rewrite u32_small in * by (unfold UINT_MAX; lia).
        destruct Hreg as [Hreg|Hreg]; [left | right; left]; lia. }
  step_as (Fit t0 r 0) s4 H4.
  { apply (draw_line_cells_fit t0 Hsize Hearly r pane scr py (Hnarrow py));
      [lia|].
    rewrite Z2Nat.id by lia. exact H3. }
  step_as (Fit t0 r 0) s5 H5.
  { destruct (sview_fields _ _ (proj1 H4)) as (Esx4 & _). rewrite Esx4.
    destruct (W <? t_sx t0) eqn:EW; [|exact H4]. zbool. cbv zeta.
    set (sb := tty_cursor _ _ (tty_attributes _ _ _)).
    assert (Hsb : Fit t0 r (SX - W) sb).
    { subst sb.
      assert (Ha : Fit t0 r 0 (tty_attributes grid_default_cell pane s4))
        by by_frame.
      destruct Ha as (Hsa & Hra & _). small.
      apply tty_cursor_fit; try assumption; lia. }
    clearbody sb. small.
    assert (Hsp : forall s, Fit t0 r (SX - W) s ->
                            Fit t0 r 0 (tty_repeat_space (SX - W) s)).
    { intros s Hs.
      apply (tty_repeat_space_fit t0 Hsize Hearly r 0 (SX - W) s);
        [lia | lia | exact Hs]. }
    case_if; [|now apply Hsp].
    split_fake sc; [now apply Hsp|].
    apply (fit_weaken t0 r (SX - W)); [lia | by_frame]. }
  step_as (Fit t0 r 0) s6 H6. { by_frame. }
  by_frame.
Qed.

Lemma tty_draw_pane_fit r (py : Z) (st : state) :
  0 <= py < SY ->
  (r = YO + s_rlower scr \/ YO + s_rlower scr + 1 < t_sy t0) ->
  Fit t0 r 0 st ->
  Fit t0 r 0 (tty_draw_pane (ctx_wp ctx) py XO YO st).
Proof. exact (tty_draw_line_fit r py st). Qed.

Lemma tty_redraw_region_fit r (st : state) :
  (r = YO + s_rlower scr \/ YO + s_rlower scr + 1 < t_sy t0) ->
  Fit t0 r 0 st ->
  Fit t0 r 0 (tty_redraw_region ctx st).
Proof.
  intros Hreg H. ctx_facts. unfold tty_redraw_region. cbv zeta.
  case_if; [exact H|].
  case_if; (apply for_st_range; [|exact H]); intros i s Hi Hs;
    (apply tty_draw_pane_fit; [lia | exact Hreg | exact Hs]).
Qed.

Lemma line_redraw_guard_still (code1 : tty_code_code) (st : state) :
  cview (st_tty (snd (line_redraw_guard code1 ctx st))) = cview (st_tty st).
Proof.
  unfold line_redraw_guard. cbv zeta. case_if; [reflexivity|].
  pose proof (tty_fake_bce_still pane st) as Hf.
  destruct (tty_fake_bce pane st) as [fake sf]. exact Hf.
Qed.

(** The start of the handlers that scroll: colours, region, cursor. *)
Lemma scroll_start_fit r (gc : grid_cell) (ru rl cx cy : Z) (st : state) :
  0 <= cx < SX -> 0 <= cy < SY ->
  Fit t0 r 0 st ->
  exists r',
    Fit t0 r' 0
        (tty_cursor_pane ctx cx cy
           (tty_region_pane ctx ru rl (tty_attributes gc pane st))).
Proof.
  intros Hcx Hcy H.
  assert (H1 : Fit t0 r 0 (tty_attributes gc pane st)) by by_frame.
  destruct (tty_region_pane_bounded r ru rl _ H1) as [r' H2].
  exists r'. apply tty_cursor_pane_fit; try assumption; try lia.
  exact (fit_kind _ _ _ _ H2).
Qed.

Lemma tty_cmd_insertcharacter_bounded r (st : state) :
  (r = YO + s_rlower scr \/ YO + s_rlower scr + 1 < t_sy t0) ->
  Fit t0 r 0 st -> Bounded t0 (tty_cmd_insertcharacter ctx st).
Proof.
  intros Hreg H. ctx_facts. cbv beta delta [tty_cmd_insertcharacter].
  step_value.
  case_if.
  { eapply fit_bounded; apply (tty_draw_pane_fit r); assumption. }
  step_as (Fit t0 r 0) s1 H1. { by_frame. }
  step_as (Fit t0 r 0) s2 H2.
  { apply tty_cursor_pane_fit; try assumption; try lia.
    exact (fit_kind _ _ _ _ H1). }
  split_fake s3.
  - eapply fit_bounded; apply (tty_draw_pane_fit r); assumption.
  - cbv zeta. case_if; eapply fit_bounded;
      [by_frame | apply (tty_draw_pane_fit r); assumption].
Qed.

Lemma tty_cmd_deletecharacter_bounded r (st : state) :
  (r = YO + s_rlower scr \/ YO + s_rlower scr + 1 < t_sy t0) ->
  Fit t0 r 0 st -> Bounded t0 (tty_cmd_deletecharacter ctx st).
Proof.
  intros Hreg H. ctx_facts. cbv beta delta [tty_cmd_deletecharacter].
  do 3 step_value.
  case_if.
  { eapply fit_bounded; apply (tty_draw_pane_fit r); assumption. }
  split_fake s0.
  - eapply fit_bounded; apply (tty_draw_pane_fit r); assumption.
  - case_if; [eapply fit_bounded; apply (tty_draw_pane_fit r); assumption|].
    assert (H2 : Fit t0 r 0
                   (tty_cursor_pane ctx (ctx_ocx ctx) (ctx_ocy ctx)
                      (tty_attributes grid_default_cell pane s0))).
    { apply tty_cursor_pane_fit; try assumption; try lia.
      eapply fit_kind. by_frame. }
    case_if; eapply fit_bounded; [by_frame | exact H2].
Qed.

Lemma tty_cmd_clearcharacter_bounded r (st : state) :
  0 <= ctx_num ctx -> ctx_ocx ctx + ctx_num ctx <= SX ->
  Fit t0 r 0 st -> Bounded t0 (tty_cmd_clearcharacter ctx st).
Proof.
  intros Hn0 Hn H. ctx_facts. cbv beta delta [tty_cmd_clearcharacter].
  step_value.
  step_as (Kind t0 r) s1 H1.
  { apply fit_kind in H. by_frame. }
  step_as (At t0 r (XO + ctx_ocx ctx) (YO + ctx_ocy ctx)) s2 H2.
  { now apply tty_cursor_pane_at. }
  step_value.
  assert (Hsp : forall s,
             At t0 r (XO + ctx_ocx ctx) (YO + ctx_ocy ctx) s ->
             Bounded t0 (repeat_st (Z.to_nat (ctx_num ctx)) (tty_putc 32) s)).
  { intros s Hs.
    eapply at_bounded;
      [apply repeat_putc_at; try eassumption; try reflexivity; lia
      | lia | lia]. }
  case_if; [|now apply Hsp].
  split_fake s3; [now apply Hsp|].
  eapply at_bounded; [by_frame | lia | lia].
Qed.

Lemma tty_cmd_insertline_bounded r (st : state) :
  (r = YO + s_rlower scr \/ YO + s_rlower scr + 1 < t_sy t0) ->
  Fit t0 r 0 st -> Bounded t0 (tty_cmd_insertline ctx st).
Proof.
  intros Hreg H. ctx_facts. cbv beta delta [tty_cmd_insertline].
  pose proof (line_redraw_guard_still TTYC_IL1 st) as Hg.
  destruct (line_redraw_guard TTYC_IL1 ctx st) as [redraw s0].
  cbn [snd] in Hg. carry_over Hg. cbv beta iota.
  destruct redraw; cbv iota.
  - eapply fit_bounded; apply (tty_redraw_region_fit r); assumption.
  - cbv zeta.
    destruct (scroll_start_fit r grid_default_cell (ctx_orupper ctx)
                (ctx_orlower ctx) (ctx_ocx ctx) (ctx_ocy ctx) s0)
      as [r' Hp]; try assumption.
    eapply fit_bounded. by_frame.
Qed.

Lemma tty_cmd_deleteline_bounded r (st : state) :
  (r = YO + s_rlower scr \/ YO + s_rlower scr + 1 < t_sy t0) ->
  Fit t0 r 0 st -> Bounded t0 (tty_cmd_deleteline ctx st).
Proof.
  intros Hreg H. ctx_facts. cbv beta delta [tty_cmd_deleteline].
  pose proof (line_redraw_guard_still TTYC_DL1 st) as Hg.
  destruct (line_redraw_guard TTYC_DL1 ctx st) as [redraw s0].
  cbn [snd] in Hg. carry_over Hg. cbv beta iota.
  destruct redraw; cbv iota.
  - eapply fit_bounded; apply (tty_redraw_region_fit r); assumption.
  - cbv zeta.
    destruct (scroll_start_fit r grid_default_cell (ctx_orupper ctx)
                (ctx_orlower ctx) (ctx_ocx ctx) (ctx_ocy ctx) s0)
      as [r' Hp]; try assumption.
    eapply fit_bounded. by_frame.
Qed.

Lemma tty_cmd_reverseindex_bounded r (st : state) :
  (r = YO + s_rlower scr \/ YO + s_rlower scr + 1 < t_sy t0) ->
  Fit t0 r 0 st -> Bounded t0 (tty_cmd_reverseindex ctx st).
Proof.
  intros Hreg H. ctx_facts. cbv beta delta [tty_cmd_reverseindex].
  case_if; [exact (fit_bounded _ _ _ _ H)|].
  pose proof (line_redraw_guard_still TTYC_RI st) as Hg.
  destruct (line_redraw_guard TTYC_RI ctx st) as [redraw s0].
  cbn [snd] in Hg. carry_over Hg. cbv beta iota.
  destruct redraw; cbv iota.
  - eapply fit_bounded; apply (tty_redraw_region_fit r); assumption.
  - cbv zeta.
    destruct (scroll_start_fit r grid_default_cell (ctx_orupper ctx)
                (ctx_orlower ctx) (ctx_ocx ctx) (ctx_orupper ctx) s0)
      as [r' Hp]; try assumption; try lia.
    eapply fit_bounded. by_frame.
Qed.

Lemma tty_cmd_linefeed_bounded r (st : state) :
  (r = YO + s_rlower scr \/ YO + s_rlower scr + 1 < t_sy t0) ->
  Fit t0 r 0 st -> Bounded t0 (tty_cmd_linefeed ctx st).
Proof.
  intros Hreg H. ctx_facts. cbv beta delta [tty_cmd_linefeed].
  do 2 step_value.
  case_if; [exact (fit_bounded _ _ _ _ H)|].
  assert (Hg : forall redraw s0,
             Fit t0 r 0 s0 ->
             Bounded t0
               (if redraw : bool then
                  if tty_large_region ctx
                  then set_pane_flags (set_bit (st_pane_flags s0) PANE_REDRAW)
                                      s0
                  else tty_redraw_region ctx s0
                else if negb (ctx_num ctx =? 0)
                        && negb (has_bit (tm_flags (the_term (st_tty st)))
                                         TERM_EARLYWRAP)
                then s0
                else
                  let st1 := tty_attributes grid_default_cell pane s0 in
                  let st2 := tty_region_pane ctx (ctx_orupper ctx)
                                             (ctx_orlower ctx) st1 in
                  let st3 := tty_cursor_pane ctx (ctx_ocx ctx) (ctx_ocy ctx)
                                             st2 in
                  tty_putc 10 st3)).
  { intros redraw s0 H0. destruct redraw.
    - case_if; [exact (fit_bounded _ _ _ _ H0)|].
      eapply fit_bounded; apply (tty_redraw_region_fit r); assumption.
    - case_if; [exact (fit_bounded _ _ _ _ H0)|]. cbv zeta.
      destruct (scroll_start_fit r grid_default_cell (ctx_orupper ctx)
                  (ctx_orlower ctx) (ctx_ocx ctx) (ctx_ocy ctx) s0)
        as [r' Hp]; try assumption.
      eapply fit_bounded, fit_frame; [|exact Hp].
      now apply tty_putc_ctrl_still. }
  destruct (negb (tty_pane_full_width (st_tty st) ctx)); cbv beta iota.
  { exact (Hg true st H). }
  pose proof (tty_fake_bce_still pane st) as Hf.
  destruct (tty_fake_bce pane st) as [fake s0]. cbn [snd] in Hf.
  exact (Hg _ s0 (fit_frame t0 r 0 st s0 Hf H)).
Qed.

Lemma tty_cmd_clearline_bounded r (st : state) :
  Fit t0 r 0 st -> Bounded t0 (tty_cmd_clearline ctx st).
Proof.
  intros H. ctx_facts. cbv beta delta [tty_cmd_clearline].
  do 2 step_value.
  step_as (Kind t0 r) s1 H1.
  { apply fit_kind in H. by_frame. }
  step_as (At t0 r (XO + 0) (YO + ctx_ocy ctx)) s2 H2.
  { apply tty_cursor_pane_at; [assumption | lia | assumption]. }
  assert (Hsp : forall s,
             At t0 r (XO + 0) (YO + ctx_ocy ctx) s ->
             Bounded t0 (tty_repeat_space SX s)).
  { intros s Hs.
    eapply at_bounded;
      [apply tty_repeat_space_at; try eassumption; lia | lia | lia]. }
  case_if; [|now apply Hsp].
  split_fake s3; [now apply Hsp|].
  case_if; [|now apply Hsp].
  eapply at_bounded; [by_frame | lia | lia].
Qed.

Lemma tty_cmd_clearendofline_bounded r (st : state) :
  Fit t0 r 0 st -> Bounded t0 (tty_cmd_clearendofline ctx st).
Proof.
  intros H. ctx_facts. cbv beta delta [tty_cmd_clearendofline].
  do 2 step_value.
  step_as (Kind t0 r) s1 H1.
  { apply fit_kind in H. by_frame. }
  step_as (At t0 r (XO + ctx_ocx ctx) (YO + ctx_ocy ctx)) s2 H2.
  { now apply tty_cursor_pane_at. }
  step_value. small.
  assert (Hsp : forall s,
             At t0 r (XO + ctx_ocx ctx) (YO + ctx_ocy ctx) s ->
             Bounded t0 (tty_repeat_space (SX - ctx_ocx ctx) s)).
  { intros s Hs.
    eapply at_bounded;
      [apply tty_repeat_space_at; try eassumption; lia | lia | lia]. }
  case_if; [|now apply Hsp].
  split_fake s3; [now apply Hsp|].
  eapply at_bounded; [by_frame | lia | lia].
Qed.

Lemma tty_cmd_clearstartofline_bounded r (st : state) :
  Fit t0 r 0 st -> Bounded t0 (tty_cmd_clearstartofline ctx st).
Proof.
  intros H. ctx_facts. cbv beta delta [tty_cmd_clearstartofline].
  step_value.
  step_as (Kind t0 r) s1 H1.
  { apply fit_kind in H. by_frame. }
  step_value. cbv beta. small.
  assert (Hsp : forall s,
             Kind t0 r s ->
             Bounded t0 (tty_repeat_space (ctx_ocx ctx + 1)
                           (tty_cursor_pane ctx 0 (ctx_ocy ctx) s))).
  { intros s Hs.
    apply (at_bounded t0 r (XO + 0 + (ctx_ocx ctx + 1)) (YO + ctx_ocy ctx));
      [|lia|lia].
    apply tty_repeat_space_at; try assumption; try lia.
    apply tty_cursor_pane_at; [exact Hs | lia | assumption]. }
  case_if; [|now apply Hsp].
  split_fake s2; [now apply Hsp|].
  eapply at_bounded;
    [eapply at_frame;
     [apply tty_putcode_still | apply tty_cursor_pane_at; eassumption]
    | lia | lia].
Qed.

(** The rows of a painting loop. *)
Lemma paint_rows_bounded r (n : nat) (from : Z) (st : state) :
  0 <= from -> from + Z.of_nat n <= SY ->
  Kind t0 r st -> Bounded t0 st ->
  Kind t0 r (for_st n from (paint_row ctx) st)
  /\ Bounded t0 (for_st n from (paint_row ctx) st).
Proof.
  intros Hfrom Hn Hk Hb. ctx_facts.
  apply (for_st_range (fun s => Kind t0 r s /\ Bounded t0 s));
    [|split; assumption].
  intros i s Hi [Hs _].
  assert (Hrow : At t0 r (XO + 0 + SX) (YO + i) (paint_row ctx i s))
    by (apply paint_row_at; [exact Hs | lia]).
  split; [exact (at_kind _ _ _ _ _ Hrow)|].
  eapply at_bounded; [exact Hrow | lia | lia].
Qed.

(** The rows of an erase loop that stops on the last row of the
    screen. *)
Lemma el_rows_bounded r (n : nat) (from : Z) (st : state) :
  0 <= from -> from + Z.of_nat n <= SY ->
  At t0 r (XO + 0) (YO + Z.min from (SY - 1)) st ->
  Bounded t0 (for_st n from (fun i => el_row (i =? SY - 1)) st).
Proof.
  intros Hfrom Hn H. ctx_facts.
  pose proof (for_st_index
                (fun i s => At t0 r (XO + 0) (YO + Z.min i (SY - 1)) s)
                (fun i => el_row (i =? SY - 1)) n from st) as Hl.
  cbv beta in Hl.
  eapply at_bounded; [apply Hl; [|exact H] | lia | lia].
  intros i s Hi Hs.
  pose proof (el_row_at t0 r (XO + 0) (YO + Z.min i (SY - 1))
                        (i =? SY - 1) s Hs) as Hrow.
  destruct (i =? SY - 1) eqn:E; zbool.
  - replace (YO + Z.min (i + 1) (SY - 1)) with (YO + Z.min i (SY - 1)) by lia.
    apply Hrow; unfold UINT_MAX; lia.
  - replace (YO + Z.min (i + 1) (SY - 1)) with (YO + Z.min i (SY - 1) + 1)
      by lia.
    apply Hrow; unfold UINT_MAX; lia.
Qed.

Lemma tty_cmd_clearendofscreen_bounded r (st : state) :
  Fit t0 r 0 st -> Bounded t0 (tty_cmd_clearendofscreen ctx st).
Proof.
  intros H. ctx_facts. cbv beta delta [tty_cmd_clearendofscreen].
  do 3 step_value.
  step_as (Fit t0 r 0) s1 H1. { by_frame. }
  step_as (fun s => exists r', Fit t0 r' 0 s) s2 H2.
  { now apply tty_region_pane_bounded with (r := r). }
  destruct H2 as [r2 H2]. apply fit_kind in H2.
  step_as (At t0 r2 (XO + ctx_ocx ctx) (YO + ctx_ocy ctx)) s3 H3.
  { now apply tty_cursor_pane_at. }
  step_value. cbv beta. small.
  assert (Hsp : forall s,
             At t0 r2 (XO + ctx_ocx ctx) (YO + ctx_ocy ctx) s ->
             Bounded t0
               (for_st (Z.to_nat (SY - (ctx_ocy ctx + 1))) (ctx_ocy ctx + 1)
                       (paint_row ctx)
                       (tty_repeat_space (SX - ctx_ocx ctx) s))).
  { intros s Hs.
    assert (Hrow : At t0 r2 (XO + ctx_ocx ctx + (SX - ctx_ocx ctx))
                      (YO + ctx_ocy ctx)
                      (tty_repeat_space (SX - ctx_ocx ctx) s))
      by (apply tty_repeat_space_at; try assumption; lia).
    apply (paint_rows_bounded r2); [lia | lia | |].
    - exact (at_kind _ _ _ _ _ Hrow).
    - eapply at_bounded; [exact Hrow | lia | lia]. }
  case_if; [|now apply Hsp].
  split_fake s4; [now apply Hsp|].
  cbv zeta.
  case_if.
  - zbool.
    apply (el_rows_bounded r2); [lia | lia |].
    replace (Z.min (ctx_ocy ctx + 1) (SY - 1)) with (ctx_ocy ctx + 1) by lia.
    apply tty_cursor_pane_at; [|lia|lia].
    eapply kind_frame; [apply tty_putcode_still|].
    eapply at_kind; eassumption.
  - eapply at_bounded; [by_frame | lia | lia].
Qed.

Lemma tty_cmd_clearstartofscreen_bounded r (st : state) :
  Fit t0 r 0 st -> Bounded t0 (tty_cmd_clearstartofscreen ctx st).
Proof.
  intros H. ctx_facts. cbv beta delta [tty_cmd_clearstartofscreen].
  do 3 step_value.
  step_as (Fit t0 r 0) s1 H1. { by_frame. }
  step_as (fun s => exists r', Fit t0 r' 0 s) s2 H2.
  { now apply tty_region_pane_bounded with (r := r). }
  destruct H2 as [r2 H2]. apply fit_kind in H2.
  step_as (At t0 r2 (XO + 0) (YO + 0)) s3 H3.
  { apply tty_cursor_pane_at; [assumption | lia | lia]. }
  step_value. small.
  assert (Hsp : forall s,
             At t0 r2 (XO + 0) (YO + 0) s ->
             Fit t0 r2 (ctx_ocx ctx + 1)
                 (for_st (Z.to_nat (ctx_ocy ctx)) 0 (paint_row ctx) s)).
  { intros s Hs.
    apply (for_st_range (fun s' => Fit t0 r2 (ctx_ocx ctx + 1) s')).
    - intros i s' Hi Hs'.
      apply (at_fit_wrap t0 r2 (XO + 0 + SX) (YO + i)); [|lia..].
      apply paint_row_at; [exact (fit_kind _ _ _ _ Hs') | lia].
    - apply (at_fit t0 r2 (XO + 0) (YO + 0)); [exact Hs | lia..]. }
  step_as (Fit t0 r2 (ctx_ocx ctx + 1)) s5 H5.
  { case_if; [|now apply Hsp].
    split_fake s4; [now apply Hsp|].
    zbool. unfold tty_pane_full_width in *. zbool.
    match goal with
    | Hx : At t0 r2 _ _ ?x |- context [?x] =>
        destruct (sview_fields _ _ (proj1 Hx)) as (Esx & _)
    end.
    pose proof (for_st_index
                  (fun i s => At t0 r2 (XO + 0) (YO + i) s)
                  (fun _ => el_row false) (Z.to_nat (ctx_ocy ctx)) 0 s4)
      as Hl.
    cbv beta in Hl.
    eapply at_fit; [apply Hl; [|assumption] | lia..].
    intros i s Hi Hs.
    replace (YO + (i + 1)) with (YO + i + 1) by lia.
    apply (el_row_at t0 r2 (XO + 0) (YO + i) false s Hs);
      unfold UINT_MAX; lia. }
  eapply fit_bounded.
  apply tty_repeat_space_fit with (k := 0); try assumption; try lia.
  exact H5.
Qed.

Lemma tty_cmd_clearscreen_bounded r (st : state) :
  Fit t0 r 0 st -> Bounded t0 (tty_cmd_clearscreen ctx st).
Proof.
  intros H. ctx_facts. cbv beta delta [tty_cmd_clearscreen].
  do 3 step_value.
  step_as (Fit t0 r 0) s1 H1. { by_frame. }
  step_as (fun s => exists r', Fit t0 r' 0 s) s2 H2.
  { now apply tty_region_pane_bounded with (r := r). }
  destruct H2 as [r2 H2]. apply fit_kind in H2.
  step_as (At t0 r2 (XO + 0) (YO + 0)) s3 H3.
  { apply tty_cursor_pane_at; [assumption | lia | lia]. }
  step_value. small.
  assert (Hsp : forall s,
             At t0 r2 (XO + 0) (YO + 0) s ->
             Bounded t0 (for_st (Z.to_nat SY) 0 (paint_row ctx) s)).
  { intros s Hs. apply (paint_rows_bounded r2); [lia | lia | |].
    - exact (at_kind _ _ _ _ _ Hs).
    - eapply at_bounded; [exact Hs | lia | lia]. }
  case_if; [|now apply Hsp].
  split_fake s4; [now apply Hsp|].
  apply (el_rows_bounded r2); [lia | lia |].
  replace (Z.min 0 (SY - 1)) with 0 by lia. assumption.
Qed.

Lemma tty_cmd_alignmenttest_bounded r (st : state) :
  Fit t0 r 0 st -> Bounded t0 (tty_cmd_alignmenttest ctx st).
Proof.
  intros H. ctx_facts. cbv beta delta [tty_cmd_alignmenttest].
  do 2 step_value.
  step_as (Fit t0 r 0) s1 H1. { by_frame. }
  step_as (fun s => exists r', Fit t0 r' 0 s) s2 H2.
  { now apply tty_region_pane_bounded with (r := r). }
  destruct H2 as [r2 H2].
  eapply fit_bounded.
  apply (for_st_range (fun s => Fit t0 r2 0 s)); [|exact H2].
  intros j s Hj Hs.
  apply (at_fit t0 r2 (XO + 0 + Z.of_nat (Z.to_nat SX)) (YO + j)); [|lia..].
  apply repeat_putc_at; try assumption; try reflexivity; try lia.
  apply tty_cursor_pane_at; [exact (fit_kind _ _ _ _ Hs) | lia | lia].
Qed.

Lemma tty_cmd_cell_bounded r (st : state) :
  0 <= ud_width (gc_data (ctx_cell ctx)) ->
  ctx_ocx ctx + ud_width (gc_data (ctx_cell ctx)) <= wp_sx (ctx_wp ctx) ->
  wp_sx (ctx_wp ctx) < 2147483648 ->
  Fit t0 r 0 st -> Bounded t0 (tty_cmd_cell ctx st).
Proof.
  intros Hw0 Hw Hwp H. ctx_facts. cbv beta delta [tty_cmd_cell].
  do 2 step_value.
  step_as (fun s => exists r', Fit t0 r' 0 s) s1 H1.
  { case_if; [now apply tty_region_pane_bounded with (r := r)|].
    now exists r. }
  destruct H1 as [r1 H1].
  step_value.
  replace (ctx_ocx ctx >? u32 (wp_sx (ctx_wp ctx)
                               - ud_width (gc_data (ctx_cell ctx))))
    with false
    by (small; symmetry; rewrite Z.gtb_ltb; apply Z.ltb_ge; lia).
  step_as (Fit t0 r1 1) s2 H2.
  { apply tty_cursor_pane_fit; try assumption; try lia.
    exact (fit_kind _ _ _ _ H1). }
  eapply fit_bounded.
  apply tty_cell_fit with (k := 0); try assumption; try lia.
  exact H2.
Qed.

Lemma tty_cmd_utf8character_bounded r (st : state) :
  (r = YO + s_rlower scr \/ YO + s_rlower scr + 1 < t_sy t0) ->
  Fit t0 r 0 st -> Bounded t0 (tty_cmd_utf8character ctx st).
Proof.
  intros Hreg H. ctx_facts. unfold tty_cmd_utf8character.
  eapply fit_bounded; apply (tty_draw_pane_fit r); assumption.
Qed.

Lemma tty_cmd_rawstring_bounded r (st : state) :
  Fit t0 r 0 st -> Bounded t0 (tty_cmd_rawstring ctx st).
Proof.
  intros H. ctx_facts. cbv beta delta [tty_cmd_rawstring].
  step_as (fun s => sview (st_tty s) = sview t0) s1 H1.
  { apply (for_st_range (fun s => sview (st_tty s) = sview t0));
      [|exact (proj1 H)].
    intros i s _ Hs. now rewrite tty_putc_sview. }
  step_as (fun s => sview (st_tty s) = sview t0) s2 H2. { exact H1. }
  step_as (Kind t0 UINT_MAX) s3 H3. { split; [exact H2 | reflexivity]. }
  step_as (Kind t0 UINT_MAX) s4 H4. { by_frame. }
  eapply at_bounded; [apply tty_cursor_at; try eassumption; lia | lia | lia].
Qed.

End Handlers.
(** [tty_putc] on any terminal, early wrap or not. *)
Lemma putc_advance_bounded (t : tty) :
  sizes_ok t -> cursor_bounded t -> wraps t = false \/ wrap_ok t ->
  sview (putc_advance t) = sview t /\ cursor_bounded (putc_advance t).
Proof.
  intros [Hsx Hsy] [Hx Hy] Hw.
  unfold putc_advance, wraps, wrap_ok, cursor_bounded in *. cbv zeta.
  set (lim := if has_bit (tm_flags (the_term t)) TERM_EARLYWRAP
              then u32 (t_sx t - 1) else t_sx t) in *.
  assert (Hlim : 0 <= lim <= t_sx t).
  { subst lim. case_if; rewrite ?u32_small by (unfold UINT_MAX; lia); lia. }
  destruct (t_cx t >=? lim) eqn:E;
    cbn [set_cursor t_cx t_cy t_sx t_sy]; (split; [reflexivity|]).
  - destruct Hw as [Hw|Hw]; [discriminate|].
    split; [right; lia|].
    destruct (t_cy t =? t_rlower t) eqn:Er; cbn [negb]; zbool; [exact Hy|].
    destruct Hw as [Hw|[Hw|Hw]]; [contradiction| |].
    + destruct Hy as [Hy|Hy].
      * rewrite Hy. change (u32 (UINT_MAX + 1)) with 0. right; lia.
      * right. rewrite u32_small by (unfold UINT_MAX; lia). lia.
    + rewrite Hw. change (u32 (UINT_MAX + 1)) with 0. right; lia.
  - zbool. destruct Hx as [Hx|Hx]; [unfold UINT_MAX in *; lia|].
    split; [|exact Hy].
    right. rewrite u32_small by (unfold UINT_MAX; lia). lia.
Qed.

Lemma tty_putc_bounded (ch : Z) (st : state) :
  sizes_ok (st_tty st) -> cursor_bounded (st_tty st) ->
  wraps (st_tty st) = false \/ wrap_ok (st_tty st) ->
  Bounded (st_tty st) (tty_putc ch st).
Proof.
  intros Hs Hb Hw. unfold Bounded. rewrite tty_putc_tty. cbv zeta.
  set (t := set_event _ (st_tty st)).
  destruct (printable ch); [|split; [reflexivity | exact Hb]].
  destruct (putc_advance_bounded t Hs Hb Hw) as [Hv Hc].
  split; [exact Hv | exact Hc].
Qed.

Lemma tty_cell_bounded (gc : grid_cell) (wp : option window_pane)
                       (st : state) :
  sizes_ok (st_tty st) -> narrow (st_tty st) gc ->
  cursor_bounded (st_tty st) ->
  wraps (st_tty st) = false \/ wrap_ok (st_tty st) ->
  Bounded (st_tty st) (tty_cell gc wp st).
Proof.
  intros Hs Hn Hb Hw.
  assert (Hst : Bounded (st_tty st) st) by (split; [reflexivity | exact Hb]).
  unfold tty_cell. cbv zeta.
  case_if; [exact Hst|]. case_if; [exact Hst|].
  pose proof (tty_attributes_still gc wp st) as Hc.
  set (st1 := tty_attributes gc wp st) in *.
  destruct (cview_fields _ _ Hc) as (Hv & Hrl & Hcx & Hcy).
  destruct (sview_fields _ _ Hv) as (Esx & Esy & Eterm & Eutf).
  assert (H1 : sizes_ok (st_tty st1) /\ cursor_bounded (st_tty st1)
               /\ (wraps (st_tty st1) = false \/ wrap_ok (st_tty st1))).
  { unfold sizes_ok, cursor_bounded, wraps, wrap_ok, the_term in *.
    rewrite Esx, Esy, Eterm, Hrl, Hcx, Hcy.
    split; [exact Hs|]. split; [exact Hb | exact Hw]. }
  destruct H1 as (Hs1 & Hb1 & Hw1).
  assert (Hput : forall ch, Bounded (st_tty st) (tty_putc ch st1)).
  { intros ch. destruct (tty_putc_bounded ch st1 Hs1 Hb1 Hw1) as [Hv1 Hc1].
    split; [congruence | exact Hc1]. }
  assert (Hst1 : Bounded (st_tty st) st1) by (split; [exact Hv | exact Hb1]).
  clearbody st1.
  destruct (ud_size (gc_data gc) =? 1) eqn:Esize.
  - case_if; [exact Hst1 | apply Hput].
  - zbool. destruct Hn as [Hn|[Hutf Hwd]]; [contradiction|].
    rewrite Eutf, Hutf. cbn [negb].
    assert (Hcases : ud_width (gc_data gc) = 0 \/ ud_width (gc_data gc) = 1)
      by lia.
    destruct Hcases as [-> | ->];
      cbn [Z.to_nat Pos.to_nat Pos.iter_op repeat_st];
      [exact Hst1 | apply Hput].
Qed.

Lemma tty_cmd_setselection_still (b64 : list Z -> Z -> string)
                                 (ctx : tty_ctx) (st : state) :
  cview (st_tty (tty_cmd_setselection b64 ctx st)) = cview (st_tty st).
Proof.
  unfold tty_cmd_setselection. case_if; [reflexivity|].
  unfold tty_putcode_ptr2. cview_still.
Qed.

End Properties.

(** * The properties on the concrete terminal *)

#[local] Existing Instance Fixture.collab.

(** C8 on the active pane of the fixture window: the foreground stays
    default, the background becomes the active style's blue. *)
Lemma tty_default_colours_resolves_witness :
  gc_fg grid_default_cell = 8 /\ gc_bg grid_default_cell = 8
  /\ gc_fg (fst (tty_default_colours grid_default_cell Fixture.the_pane
                                     Fixture.the_state)) = 8
  /\ gc_bg (fst (tty_default_colours grid_default_cell Fixture.the_pane
                                     Fixture.the_state)) = 4.
Proof.
  pose proof (tty_default_colours_resolves grid_default_cell Fixture.the_pane
                Fixture.the_state eq_refl eq_refl) as H.
  cbv zeta in H. destruct H as (Hfg & Hbg & _).
  split; [reflexivity | split; [reflexivity | split]].
  - exact Hfg.
  - exact Hbg.
Defined.

(** C1 at the failing input: background palette 9 on a sixteen-colour
    terminal.  The background becomes 1 and the foreground, which was 1,
    becomes 91. *)
Lemma tty_check_bg_256_bright_moves_fg_witness :
  gc_fg Fixture.bright_bg_cell = 1
  /\ gc_fg (tty_check_bg Fixture.the_tty Fixture.bright_bg_cell) = 1 + 90
  /\ gc_bg (tty_check_bg Fixture.the_tty Fixture.bright_bg_cell) = 1.
Proof.
  split; [reflexivity|].
  assert (H16 : 16 <= u32 (tty_term_number (the_term Fixture.the_tty)
                                          TTYC_COLORS))
    by (vm_compute; discriminate).
  exact (tty_check_bg_256_bright_moves_fg Fixture.the_tty
           Fixture.bright_bg_cell eq_refl eq_refl eq_refl eq_refl H16).
Defined.

(** C7 at the failing input: [q] written with the alternate character
    set on.  The terminal receives [-], the log receives [q]. *)
Lemma tty_putc_acs_logs_untranslated_byte_witness :
  render (the_term (st_tty Fixture.acs_state))
         (t_event (st_tty (tty_putc 113 Fixture.acs_state))) = "-"%string
  /\ render (the_term (st_tty Fixture.acs_state))
            (st_log (tty_putc 113 Fixture.acs_state)) = "q"%string.
Proof.
  destruct (tty_putc_acs_logs_untranslated_byte Fixture.acs_state 113
              "-"%string)
    as (Hev & Hlog & _); [vm_compute; discriminate | reflexivity | reflexivity |].
  rewrite Hev, Hlog. split; reflexivity.
Defined.

(** C3 as stated fails for a move to the origin: from row 5 of the
    region 3..10 to row 0, in column 0, the terminal has VPA but the
    code sends HOME. *)
Lemma crossing_uses_vpa_or_cup_counterexample :
  ~ crossing_uses_vpa_or_cup_at Fixture.the_state 0 0.
Proof.
  unfold crossing_uses_vpa_or_cup_at, row_in_region, row_outside_region.
  intros H.
  assert (Hev : t_event (st_tty (tty_cursor 0 0 Fixture.the_state))
                = [PCap TTYC_HOME []]) by reflexivity.
  rewrite Hev in H.
  assert (Hsent : [PCap TTYC_HOME []] = [PCap TTYC_VPA [0]]).
  { apply H.
    - reflexivity.
    - vm_compute; discriminate.
    - vm_compute. repeat split; discriminate.
    - left. vm_compute. reflexivity. }
  discriminate Hsent.
Qed.

(** C3 (amended) for a move from row 5 to row 20, below the region. *)
Lemma tty_cursor_crossing_region_witness :
  t_event (st_tty (tty_cursor 0 20 Fixture.the_state)) = [PCap TTYC_VPA [20]]
  /\ t_cy (st_tty (tty_cursor 0 20 Fixture.the_state)) = 20.
Proof.
  destruct (tty_cursor_crossing_region 0 20 Fixture.the_state)
    as (Hev & _ & _ & Hcy).
  - reflexivity.
  - vm_compute. split; [discriminate | reflexivity].
  - vm_compute. discriminate.
  - vm_compute. reflexivity.
  - vm_compute. split; discriminate.
  - vm_compute. split; [discriminate | reflexivity].
  - right. vm_compute. reflexivity.
  - split; [exact Hev | exact Hcy].
Defined.



(** The conditions of C4 (amended) are needed.  Each line is an
    operation that takes a cursor on the screen off it: [tty_cursor]
    does not clamp the row; [tty_putc] wraps below the last row when
    the cursor is on it, outside the scroll region; [tty_cell] writes
    a cell of two columns through [tty_putn], which adds the width and
    does not wrap; a handler follows a context whose row is not on
    the pane; and on a terminal that wraps early a handler that fills
    the last row wraps below it although the pane, the context and
    the regions are in order. *)
Lemma shadow_bounds_conditions_needed :
  ~ keeps_cursor_bounded_at (tty_cursor 0 30) Fixture.the_state
  /\ ~ keeps_cursor_bounded_at (tty_putc 97) Fixture2.bottom_state
  /\ ~ keeps_cursor_bounded_at
        (tty_cell Fixture2.wide_cell (Some Fixture.the_pane))
        Fixture2.utf8_last_column_state
  /\ ~ keeps_cursor_bounded_at (tty_cmd_clearline Fixture2.low_ctx)
                               Fixture.the_state
  /\ (ctx_on_screen Fixture2.bottom_ctx (st_tty Fixture2.early_state)
      /\ region_on_screen Fixture2.bottom_ctx (st_tty Fixture2.early_state)
      /\ ~ keeps_cursor_bounded_at (tty_cmd_clearline Fixture2.bottom_ctx)
                                   Fixture2.early_state).
Proof.
  assert (Hin : forall st x y,
             t_cx (st_tty st) = x -> t_cy (st_tty st) = y ->
             t_sx (st_tty st) = 80 -> t_sy (st_tty st) = 24 ->
             0 <= x <= 80 -> 0 <= y < 24 -> cursor_bounded (st_tty st)).
  { intros st x y Hx Hy Hsx Hsy Hbx Hby. unfold cursor_bounded.
    rewrite Hx, Hy, Hsx, Hsy. split; right; assumption. }
  assert (Hout : forall st x y,
             t_cx (st_tty st) = x -> t_cy (st_tty st) = y ->
             t_sx (st_tty st) = 80 -> t_sy (st_tty st) = 24 ->
             x <> UINT_MAX -> y <> UINT_MAX -> 80 < x \/ 24 <= y ->
             ~ cursor_bounded (st_tty st)).
  { intros st x y Hx Hy Hsx Hsy Hnx Hny Hoff [Hcx Hcy].
    rewrite Hx, Hsx in Hcx. rewrite Hy, Hsy in Hcy.
    destruct Hcx as [Hcx|Hcx]; [contradiction|].
    destruct Hcy as [Hcy|Hcy]; [contradiction|]. lia. }
  split.
  { intros H. refine (Hout _ 0 30 _ _ _ _ _ _ _ (H _)); try reflexivity;
      try (unfold UINT_MAX; lia).
    apply (Hin _ 0 5); try reflexivity; lia. }
  split.
  { intros H. refine (Hout _ 1 24 _ _ _ _ _ _ _ (H _)); try reflexivity;
      try (unfold UINT_MAX; lia).
    apply (Hin _ 80 23); try reflexivity; lia. }
  split.
  { intros H. refine (Hout _ 81 5 _ _ _ _ _ _ _ (H _)); try reflexivity;
      try (unfold UINT_MAX; lia).
    apply (Hin _ 79 5); try reflexivity; lia. }
  split.
  { intros H. refine (Hout _ 80 30 _ _ _ _ _ _ _ (H _)); try reflexivity;
      try (unfold UINT_MAX; lia).
    apply (Hin _ 0 5); try reflexivity; lia. }
  split.
  { unfold ctx_on_screen. cbv zeta.
    repeat match goal with
           | |- _ /\ _ => split
           end;
      try (intros; left; reflexivity);
      try (intros; vm_compute; intros H; discriminate H);
      reflexivity. }
  split; [left; reflexivity|].
  intros H. refine (Hout _ 1 24 _ _ _ _ _ _ _ (H _)); try reflexivity;
    try (unfold UINT_MAX; lia).
  apply (Hin _ 0 5); try reflexivity; lia.
Qed.

(** C6 on a full-width pane with real BCE semantics and CSR, for a line
    that wrapped naturally ([ctx.num] is 1). *)
Lemma tty_cmd_linefeed_noop_witness :
  st_tty (tty_cmd_linefeed Fixture.the_ctx Fixture.plain_state)
  = st_tty Fixture.plain_state
  /\ st_log (tty_cmd_linefeed Fixture.the_ctx Fixture.plain_state)
     = st_log Fixture.plain_state.
Proof.
  destruct (tty_cmd_linefeed_noop Fixture.the_ctx Fixture.plain_state)
    as (Ht & Hl & _).
  - right. repeat split; try reflexivity. vm_compute; discriminate.
  - split; [exact Ht | exact Hl].
Defined.

(** C2 for [clearline] and for row 10 redrawn, on the active pane of
    the fixture window, whose style has a blue background on a terminal
    without BCE: no erase primitive is sent, [clearline] writes eighty
    spaces and the redraw writes the cells of the row. *)
Lemma fake_bce_soundness_witness :
  fst (tty_fake_bce (Some (ctx_wp Fixture.the_ctx)) Fixture.the_state) = true
  /\ (exists items,
         t_event (st_tty (run_command CmdClearLine Fixture.the_ctx
                                      Fixture.the_state))
         = t_event (st_tty Fixture.the_state) ++ items
         /\ Forall no_erase items
         /\ text_of items = repeat 32 80%nat)
  /\ (exists items,
         t_event (st_tty (tty_draw_line (Some (ctx_wp Fixture.the_ctx))
                                        Fixture.the_screen 10 0 0
                                        Fixture.the_state))
         = t_event (st_tty Fixture.the_state) ++ items
         /\ Forall no_erase items
         /\ text_of items = repeat 120 80%nat).
Proof.
  split; [reflexivity|].
  destruct (fake_bce_soundness CmdClearLine Fixture.the_ctx Fixture.the_screen
              10 0 0 Fixture.the_state eq_refl)
    as [(items & Hev & Hno & Htxt & _) (items' & Hev' & Hno' & Htxt')].
  split.
  - exists items. split; [exact Hev|]. split; [exact Hno|].
    rewrite Htxt; [reflexivity|]. intros H. discriminate H.
  - exists items'. split; [exact Hev'|]. split; [exact Hno'|].
    rewrite Htxt'; reflexivity.
Defined.

(** C10 for a cell that holds BEL: the attributes are sent, the byte
    is not, and the cursor stays at column 0 of row 5. *)
Lemma tty_cell_skips_padding_and_control_witness :
  t_cx (st_tty (tty_cell Fixture.bell_cell (Some Fixture.the_pane)
                         Fixture.the_state)) = 0
  /\ t_cy (st_tty (tty_cell Fixture.bell_cell (Some Fixture.the_pane)
                            Fixture.the_state)) = 5.
Proof.
  destruct (tty_cell_skips_padding_and_control Fixture.bell_cell
              (Some Fixture.the_pane) Fixture.the_state)
    as (_ & Hx & Hy & _).
  - right. split; [reflexivity|]. left. vm_compute. reflexivity.
  - split; [exact Hx | exact Hy].
Defined.

(** ** The further properties on the concrete terminals *)

Lemma fixture_fold_range : forall c, 0 <= colour_256to16 c <= 15.
Proof.
  intros c. change (0 <= Z.land c (Z.ones 4) <= 15).
  rewrite Z.land_ones by lia.
  pose proof (Z.mod_pos_bound c (2 ^ 4) eq_refl) as H.
  change (2 ^ 4) with 16 in *. lia.
Qed.

Lemma fixture_cells_equal_colours :
  forall a b, grid_cells_equal a b = true ->
              gc_fg a = gc_fg b /\ gc_bg a = gc_bg b.
Proof.
  intros a b H.
  change ((gc_fg a =? gc_fg b) && (gc_bg a =? gc_bg b)
          && (gc_attr a =? gc_attr b) && (gc_flags a =? gc_flags b) = true)
    in H.
  apply andb_true_iff in H. destruct H as [H _].
  apply andb_true_iff in H. destruct H as [H _].
  apply andb_true_iff in H. destruct H as [Hf Hb].
  split; now apply Z.eqb_eq.
Qed.

(** X5 on the fixture terminal, whose region is 3..10: setting the
    region to the whole screen records it and homes the cursor. *)
Lemma tty_region_parks_cursor_witness :
  t_rupper (st_tty (tty_region 0 23 Fixture.the_state)) = 0
  /\ t_rlower (st_tty (tty_region 0 23 Fixture.the_state)) = 23
  /\ t_cx (st_tty (tty_region 0 23 Fixture.the_state)) = 0
  /\ t_cy (st_tty (tty_region 0 23 Fixture.the_state)) = 0.
Proof.
  destruct (tty_region_parks_cursor 0 23 Fixture.the_state)
    as (Hu & Hl & Hx & Hy).
  - reflexivity.
  - left. vm_compute. discriminate.
  - repeat split; assumption.
Defined.

(** X6 with the cursor position unknown: the move to column 3 of row 4
    is the absolute CUP. *)
Lemma tty_cursor_absolute_after_wrap_witness :
  t_event (st_tty (tty_cursor 3 4 Fixture2.unknown_state))
  = [PCap TTYC_CUP [4; 3]]
  /\ t_cx (st_tty (tty_cursor 3 4 Fixture2.unknown_state)) = 3
  /\ t_cy (st_tty (tty_cursor 3 4 Fixture2.unknown_state)) = 4.
Proof.
  destruct (tty_cursor_absolute_after_wrap 3 4 Fixture2.unknown_state)
    as (Hev & Hx & Hy).
  - vm_compute. reflexivity.
  - vm_compute. split; [discriminate | reflexivity].
  - vm_compute. split; [discriminate | reflexivity].
  - rewrite Hev, Hx, Hy. repeat split; reflexivity.
Defined.

(** X8 for a 24-bit foreground on the sixteen-colour fixture. *)
Lemma tty_check_fg_idempotent_witness :
  tty_check_fg Fixture.the_tty (tty_check_fg Fixture.the_tty Fixture2.rgb_cell)
  = tty_check_fg Fixture.the_tty Fixture2.rgb_cell.
Proof.
  exact (tty_check_fg_idempotent Fixture.the_tty Fixture2.rgb_cell
           fixture_fold_range (fun r g b => eq_refl)).
Defined.

(** X9 for a 24-bit foreground on the eight-colour terminal. *)
Lemma tty_check_fg_projects_to_base_witness :
  0 <= gc_fg (tty_check_fg Fixture2.tty8 Fixture2.rgb_cell) <= 7.
Proof.
  assert (H8 : u32 (tty_term_number (the_term Fixture2.tty8) TTYC_COLORS)
               < 16)
    by (vm_compute; reflexivity).
  exact (tty_check_fg_projects_to_base Fixture2.tty8 Fixture2.rgb_cell
           fixture_fold_range (fun r g b => eq_refl) H8 eq_refl eq_refl
           (or_introl eq_refl)).
Defined.

(** X10 for the bright palette background of the fixture. *)
Lemma tty_check_bg_idempotent_witness :
  tty_check_bg Fixture.the_tty
    (tty_check_bg Fixture.the_tty Fixture.bright_bg_cell)
  = tty_check_bg Fixture.the_tty Fixture.bright_bg_cell.
Proof.
  exact (tty_check_bg_idempotent Fixture.the_tty Fixture.bright_bg_cell
           fixture_fold_range (fun r g b => eq_refl)).
Defined.

(** X11 for a green cell on the default background. *)
Lemma tty_colours_sets_shadow_witness :
  gc_fg (t_cell (st_tty (tty_colours Fixture.bell_cell Fixture.the_state))) = 2
  /\ gc_bg (t_cell (st_tty (tty_colours Fixture.bell_cell Fixture.the_state)))
     = 8.
Proof.
  exact (tty_colours_sets_shadow Fixture.bell_cell Fixture.the_state
           fixture_cells_equal_colours
           (or_intror (or_introl eq_refl)) (or_intror (or_introl eq_refl))).
Defined.

(** X12 for the same cell in the active pane of the fixture window:
    the shadow ends bright green on the blue of the active style. *)
Lemma tty_attributes_sets_shadow_witness :
  shadow_style (st_tty (tty_attributes Fixture.bell_cell
                          (Some Fixture.the_pane) Fixture.the_state))
  = (GRID_ATTR_BRIGHT, 2, 4).
Proof.
  exact (tty_attributes_sets_shadow Fixture.bell_cell (Some Fixture.the_pane)
           Fixture.the_state fixture_cells_equal_colours
           (or_intror (or_introl eq_refl)) (or_intror (or_introl eq_refl))).
Defined.

(** X15 when the fixture terminal grows from 80x24 to 100x30. *)
Lemma tty_resize_resyncs_witness :
  t_rupper (st_tty (snd (tty_resize (Some (100, 30)) Fixture.the_state))) = 0
  /\ t_rlower (st_tty (snd (tty_resize (Some (100, 30)) Fixture.the_state)))
     = 29
  /\ t_cx (st_tty (snd (tty_resize (Some (100, 30)) Fixture.the_state))) = 0
  /\ t_cy (st_tty (snd (tty_resize (Some (100, 30)) Fixture.the_state))) = 0.
Proof.
  destruct (tty_resize_resyncs (Some (100, 30)) Fixture.the_state)
    as (Hu & Hl & Hx & Hy).
  - reflexivity.
  - reflexivity.
  - reflexivity.
  - split; [exact Hu|]. split; [rewrite Hl; reflexivity|].
    split; assumption.
Defined.

(** X21 for a character of three bytes and two columns. *)
Lemma tty_cell_utf8_width_witness :
  t_cx (st_tty (tty_cell Fixture2.wide_cell None Fixture2.utf8_state)) = 2
  /\ t_cy (st_tty (tty_cell Fixture2.wide_cell None Fixture2.utf8_state)) = 5.
Proof.
  destruct (tty_cell_utf8_width Fixture2.wide_cell None Fixture2.utf8_state)
    as (_ & Hx & Hy).
  - reflexivity.
  - reflexivity.
  - vm_compute. discriminate.
  - reflexivity.
  - rewrite Hx, Hy. split; reflexivity.
Defined.

(** X22 for the same character on the fixture terminal, which is not
    in UTF-8 mode. *)
Lemma tty_cell_non_utf8_underscores_witness :
  exists items,
    t_event (st_tty (tty_cell Fixture2.wide_cell None Fixture.plain_state))
    = t_event (st_tty (tty_attributes Fixture2.wide_cell None
                                      Fixture.plain_state)) ++ items
    /\ List.length items = 2%nat
    /\ Forall (is_char 95) items.
Proof.
  destruct (tty_cell_non_utf8_underscores Fixture2.wide_cell None
              Fixture.plain_state) as (items & Hev & Hlen & Hall).
  - reflexivity.
  - reflexivity.
  - vm_compute. discriminate.
  - reflexivity.
  - exists items. repeat split; assumption.
Defined.

(** X23 for a raw string of two bytes. *)
Lemma tty_cmd_rawstring_resyncs_witness :
  t_rupper (st_tty (tty_cmd_rawstring Fixture2.raw_ctx Fixture.plain_state))
  = UINT_MAX
  /\ t_cx (st_tty (tty_cmd_rawstring Fixture2.raw_ctx Fixture.plain_state)) = 0
  /\ t_cy (st_tty (tty_cmd_rawstring Fixture2.raw_ctx Fixture.plain_state)) = 0.
Proof.
  destruct (tty_cmd_rawstring_resyncs Fixture2.raw_ctx Fixture.plain_state)
    as (Hu & _ & Hx & Hy & _).
  - vm_compute. reflexivity.
  - repeat split; assumption.
Defined.

(** X24 on the plain terminal, which has ICH1 but not ICH: three
    blanks are inserted one by one. *)
Lemma tty_emulate_repeat_fallback_witness :
  t_event (st_tty (tty_emulate_repeat TTYC_ICH TTYC_ICH1 3 Fixture2.state8))
  = [PCap TTYC_ICH1 []; PCap TTYC_ICH1 []; PCap TTYC_ICH1 []].
Proof.
  rewrite (tty_emulate_repeat_fallback TTYC_ICH TTYC_ICH1 3 Fixture2.state8
             eq_refl).
  reflexivity.
Defined.
